(** * Memory agent: relevance evaluation, tiered storage and self-correction

    A shallow embedding of the core of the memory agent
    ([core/evaluation], [infrastructure/storage], [core/correction]) and
    the properties of its specification.

    Conventions of the embedding:
    - a Python [float] is modelled by the rational number it denotes
      ([Q]); comparisons are exact, rounding, infinities and NaN are
      outside the model, and a division by zero raises
      [ZeroDivisionError] as it does in Python;
    - a Python [int] is a [Z]; [str] is [string];
    - a [dict] and an [OrderedDict] are association lists in insertion
      order, the front of an [OrderedDict] being its least recently used
      entry;
    - an operation that may raise returns a [Res], and stateful code
      threads its state explicitly: the state reached when an exception
      is raised is part of the result, as mutations made before a raise
      persist in Python. *)

From Stdlib Require Import ZArith QArith Qfield Lqa Lia List Ascii String Bool.
From Stdlib Require Import DecimalString.
Import ListNotations.

Open Scope Z_scope.

(** ** Exceptions and results *)

(** The exceptions the modelled code can meet.  All but [CancelledError]
    derive from [Exception]; [asyncio.CancelledError] derives from
    [BaseException] only, so an [except Exception] clause lets it
    through. *)
Inductive exn : Type :=
| ZeroDivisionError
| KeyError
| TypeError
| ValueError
| AttributeError
| NameError
| ValidationError
| RuntimeError
| BadGzipFile
| RecursionError
| NotImplementedError
| ProviderError (msg : string)
| CancelledError.

Definition is_Exception (e : exn) : bool :=
  match e with
  | CancelledError => false
  | _ => true
  end.

Inductive Res (A : Type) : Type :=
| Ok (a : A)
| Raise (e : exn).
Arguments Ok {A} a.
Arguments Raise {A} e.

(** Sequencing of steps that may raise. *)
Definition res_bind {A B : Type} (r : Res A) (f : A -> Res B) : Res B :=
  match r with
  | Ok a => f a
  | Raise e => Raise e
  end.

Declare Scope res_scope.
Delimit Scope res_scope with res.
Notation "x <- c1 ;; c2" := (res_bind c1 (fun x => c2))
  (at level 61, c1 at next level, right associativity) : res_scope.
Notation "c1 ;; c2" := (res_bind c1 (fun _ => c2))
  (at level 61, right associativity) : res_scope.

(** ** Comparisons on floats *)

Definition Qltb (x y : Q) : bool := negb (Qle_bool y x).
Definition Qgeb (x y : Q) : bool := Qle_bool y x.
Definition Qgtb (x y : Q) : bool := negb (Qle_bool x y).

(** Python's [x / y] on floats. *)
Definition py_div (x y : Q) : Res Q :=
  if Qeq_bool y 0 then Raise ZeroDivisionError else Ok (x / y)%Q.

(** [max(a, b)] and [min(a, b)]: the first argument unless the second is
    strictly beyond it. *)
Definition py_max (a b : Q) : Q := if Qgtb b a then b else a.
Definition py_min (a b : Q) : Q := if Qltb b a then b else a.

(** ** State and exceptions *)

(** A computation on a state [S] that returns an [A] or raises. *)
Definition M (S A : Type) : Type := S -> Res A * S.

Definition ret {S A : Type} (a : A) : M S A := fun s => (Ok a, s).

Definition raise {S A : Type} (e : exn) : M S A := fun s => (Raise e, s).

Definition bind {S A B : Type} (m : M S A) (f : A -> M S B) : M S B :=
  fun s =>
    match m s with
    | (Ok a, s') => f a s'
    | (Raise e, s') => (Raise e, s')
    end.

Definition get {S : Type} : M S S := fun s => (Ok s, s).

Definition modify {S : Type} (f : S -> S) : M S unit := fun s => (Ok tt, f s).

(** A step that may raise and does not touch the state. *)
Definition lift_res {S A : Type} (r : Res A) : M S A := fun s => (r, s).

Declare Scope py_scope.
Delimit Scope py_scope with py.
Notation "x <- c1 ;; c2" := (bind c1 (fun x => c2))
  (at level 61, c1 at next level, right associativity) : py_scope.
Notation "c1 ;; c2" := (bind c1 (fun _ => c2))
  (at level 61, right associativity) : py_scope.

(** ** Dictionaries *)

(** A [dict] with string keys, in insertion order. *)
Definition dict (V : Type) : Type := list (string * V).

Section Dict.
Context {V : Type}.

Definition dict_keys (d : dict V) : list string := map fst d.

Fixpoint dict_get (d : dict V) (k : string) : option V :=
  match d with
  | [] => None
  | (k', v) :: d' => if String.eqb k' k then Some v else dict_get d' k
  end.

Definition dict_mem (d : dict V) (k : string) : bool :=
  match dict_get d k with Some _ => true | None => false end.

(** [d.pop(k, None)] for its effect on [d]. *)
Fixpoint dict_pop (d : dict V) (k : string) : dict V :=
  match d with
  | [] => []
  | (k', v) :: d' =>
      if String.eqb k' k then dict_pop d' k else (k', v) :: dict_pop d' k
  end.

(** [d[k] = v]: a present key keeps its place, a new key goes last. *)
Fixpoint dict_set (d : dict V) (k : string) (v : V) : dict V :=
  match d with
  | [] => [(k, v)]
  | (k', v') :: d' =>
      if String.eqb k' k then (k, v) :: d' else (k', v') :: dict_set d' k v
  end.

(** [d[k] = v] followed by [d.move_to_end(k)] on an [OrderedDict]. *)
Definition od_put (d : dict V) (k : string) (v : V) : dict V :=
  dict_pop d k ++ [(k, v)].

(** [d.popitem(last=False)]: the first entry and the rest, if any. *)
Definition popitem_first (d : dict V) : option ((string * V) * dict V) :=
  match d with
  | [] => None
  | kv :: d' => Some (kv, d')
  end.

(** [len(d)]. *)
Definition len {A : Type} (d : list A) : Z := Z.of_nat (List.length d).
End Dict.

(** A [set] of strings, as a list without repetition. *)
Definition set_add (s : list string) (k : string) : list string :=
  if existsb (String.eqb k) s then s else s ++ [k].

Definition set_discard (s : list string) (k : string) : list string :=
  filter (fun k' => negb (String.eqb k' k)) s.

Definition set_mem (s : list string) (k : string) : bool :=
  existsb (String.eqb k) s.


(** ** Strings and slices *)

(** Texts are ASCII: the letter case, the word characters of a regular
    expression and the white space of [split] are those of ASCII, and
    the length of a text is its number of characters. *)

(** [s.upper()] and [s.lower()]. *)
Definition upper_ascii (c : Ascii.ascii) : Ascii.ascii :=
  let n := Ascii.nat_of_ascii c in
  if (97 <=? n)%nat && (n <=? 122)%nat then Ascii.ascii_of_nat (n - 32) else c.

Fixpoint upper (s : string) : string :=
  match s with
  | EmptyString => EmptyString
  | String c s' => String (upper_ascii c) (upper s')
  end.

Definition lower_ascii (c : Ascii.ascii) : Ascii.ascii :=
  let n := Ascii.nat_of_ascii c in
  if (65 <=? n)%nat && (n <=? 90)%nat then Ascii.ascii_of_nat (n + 32) else c.

Fixpoint lower (s : string) : string :=
  match s with
  | EmptyString => EmptyString
  | String c s' => String (lower_ascii c) (lower s')
  end.

(** [s.replace('_', ' ')]. *)
Fixpoint underscores_to_spaces (s : string) : string :=
  match s with
  | EmptyString => EmptyString
  | String c s' =>
      String (if Ascii.eqb c "_"%char then " "%char else c) (underscores_to_spaces s')
  end.

(** ["_" in s] and [s.split("_")[0]]. *)
Fixpoint has_underscore (s : string) : bool :=
  match s with
  | EmptyString => false
  | String c s' => Ascii.eqb c "_"%char || has_underscore s'
  end.

Fixpoint before_underscore (s : string) : string :=
  match s with
  | EmptyString => EmptyString
  | String c s' =>
      if Ascii.eqb c "_"%char then EmptyString else String c (before_underscore s')
  end.

(** [sub in s]. *)
Fixpoint contains (sub s : string) : bool :=
  String.prefix sub s
  || match s with
     | EmptyString => false
     | String _ s' => contains sub s'
     end.

(** [any(kw in s for kw in kws)]. *)
Definition any_in (kws : list string) (s : string) : bool :=
  existsb (fun kw => contains kw s) kws.

(** [sum(1 for kw in kws if kw in s)]. *)
Definition count_in (kws : list string) (s : string) : Z :=
  len (filter (fun kw => contains kw s) kws).

(** [" ".join(parts)]. *)
Definition join (parts : list string) : string := String.concat " " parts.

(** A character that [\w] matches. *)
Definition is_word_char (c : Ascii.ascii) : bool :=
  let n := Ascii.nat_of_ascii c in
  ((48 <=? n)%nat && (n <=? 57)%nat)
  || ((65 <=? n)%nat && (n <=? 90)%nat)
  || ((97 <=? n)%nat && (n <=? 122)%nat)
  || (n =? 95)%nat.

(** A character that [str.split()] splits at. *)
Definition is_space (c : Ascii.ascii) : bool :=
  let n := Ascii.nat_of_ascii c in
  ((9 <=? n)%nat && (n <=? 13)%nat)
  || ((28 <=? n)%nat && (n <=? 32)%nat).

(** The maximal runs of characters that satisfy [keep], from left to
    right; [cur] is the run being read. *)
Fixpoint runs (keep : Ascii.ascii -> bool) (s : string) (cur : string)
  : list string :=
  let flush := match cur with EmptyString => [] | _ => [cur] end in
  match s with
  | EmptyString => flush
  | String c s' =>
      if keep c then runs keep s' (cur ++ String c EmptyString)
      else flush ++ runs keep s' EmptyString
  end.

(** [re.findall(r'\b\w+\b', s)]: the maximal runs of word characters. *)
Definition findall_words (s : string) : list string :=
  runs is_word_char s EmptyString.

(** [s.split()]: the maximal runs of characters that are not white
    space. *)
Definition split (s : string) : list string :=
  runs (fun c => negb (is_space c)) s EmptyString.

(** [x in l] on strings. *)
Definition mem (x : string) (l : list string) : bool :=
  existsb (String.eqb x) l.

(** [list(set(l))]: the distinct elements. *)
Fixpoint distinct (l : list string) : list string :=
  match l with
  | [] => []
  | x :: l' => if existsb (String.eqb x) l' then distinct l' else x :: distinct l'
  end.

(** [a.intersection(b)] and [a.union(b)] on sets kept as lists without
    repetition. *)
Definition intersection (a b : list string) : list string :=
  filter (fun x => mem x b) a.

Definition union (a b : list string) : list string :=
  distinct (a ++ b).

(** The truth value of an optional string: a string that is there and
    not empty. *)
Definition truthy (s : option string) : bool :=
  match s with
  | None => false
  | Some s => negb (String.eqb s EmptyString)
  end.

Definition get_default {A : Type} (o : option A) (d : A) : A :=
  match o with Some a => a | None => d end.

(** [l[-n:]] for [n > 0]: the last [n] elements. *)
Definition last_n {A : Type} (n : nat) (l : list A) : list A :=
  skipn (List.length l - n) l.

(** [l[-w:]] for an integer [w]: a negative index counts from the end,
    and [-0] is the index [0]. *)
Definition suffix {A : Type} (w : Z) (l : list A) : list A :=
  if w >? 0 then last_n (Z.to_nat w) l else skipn (Z.to_nat (- w)) l.

(** [l[-w:] if len(l) > w else l]. *)
Definition recent {A : Type} (w : Z) (l : list A) : list A :=
  if len l >? w then suffix w l else l.

(** [l.index(x) if x in l else -1]. *)
Fixpoint index_of (x : string) (l : list string) : option nat :=
  match l with
  | [] => None
  | y :: l' =>
      if String.eqb y x then Some O
      else match index_of x l' with
           | Some i => Some (S i)
           | None => None
           end
  end.

(** The keys around position [i]:
    [range(max(0, i - 3), min(len(l), i + 3))] without [i] itself. *)
Definition neighbours (l : list string) (i : nat) : list string :=
  let start := (i - 3)%nat in
  let stop := Nat.min (List.length l) (i + 3) in
  flat_map (fun j => if Nat.eqb j i then []
                     else match nth_error l j with
                          | Some k => [k]
                          | None => []
                          end)
           (seq start (stop - start)).

(** [blocks[max(0, i-5):i] + blocks[i+1:min(len(blocks), i+6)]]. *)
Definition context_window {A : Type} (blocks : list A) (i : nat) : list A :=
  skipn (i - 5) (firstn i blocks) ++ firstn 5 (skipn (i + 1) blocks).

(** [sorted(...)[0]] and [min(..., key=...)]: the first of the least
    entries. *)
Fixpoint first_min (x : string * Q) (l : list (string * Q)) : string * Q :=
  match l with
  | [] => x
  | y :: l' => if Qltb (snd y) (snd x) then first_min y l' else first_min x l'
  end.

(** [sorted(...)[-1]] of a stable sort: the last of the greatest
    entries. *)
Fixpoint last_max (x : string * Q) (l : list (string * Q)) : string * Q :=
  match l with
  | [] => x
  | y :: l' => if Qgeb (snd y) (snd x) then last_max y l' else last_max x l'
  end.

(** Whether a list of strings has no repetition. *)
Fixpoint nodupb (l : list string) : bool :=
  match l with
  | [] => true
  | x :: l' => negb (existsb (String.eqb x) l') && nodupb l'
  end.

(** ** Interfaces ([core/interfaces]) *)

Module Interfaces.

(** [StorageTier] ([interfaces/storage.py]). *)
Inductive StorageTier : Type := HOT | WARM | COLD.

Definition StorageTier_eqb (a b : StorageTier) : bool :=
  match a, b with
  | HOT, HOT | WARM, WARM | COLD, COLD => true
  | _, _ => false
  end.

(** [StorageTier.value]. *)
Definition tier_value (t : StorageTier) : string :=
  match t with
  | HOT => "hot" | WARM => "warm" | COLD => "cold"
  end.

(** [MessageRole] ([interfaces/message.py]). *)
Inductive MessageRole : Type := USER | ASSISTANT | SYSTEM | TOOL.

Definition MessageRole_eqb (a b : MessageRole) : bool :=
  match a, b with
  | USER, USER | ASSISTANT, ASSISTANT | SYSTEM, SYSTEM | TOOL, TOOL => true
  | _, _ => false
  end.

(** [MessageRole.value]. *)
Definition role_value (r : MessageRole) : string :=
  match r with
  | USER => "user" | ASSISTANT => "assistant"
  | SYSTEM => "system" | TOOL => "tool"
  end.

(** [Decision] ([interfaces/evaluator.py]): the four members that the
    enumeration declares. *)
Inductive Decision : Type := RETAIN | DISCARD | REEVALUATE | COMPRESS.

Definition Decision_eqb (a b : Decision) : bool :=
  match a, b with
  | RETAIN, RETAIN | DISCARD, DISCARD
  | REEVALUATE, REEVALUATE | COMPRESS, COMPRESS => true
  | _, _ => false
  end.

(** [Decision.<name>] for the name of a member: the member that the
    enumeration declares under that name, and [AttributeError] for a
    name that it does not declare. *)
Definition Decision_getattr (name : string) : Res Decision :=
  if String.eqb name "RETAIN" then Ok RETAIN
  else if String.eqb name "DISCARD" then Ok DISCARD
  else if String.eqb name "REEVALUATE" then Ok REEVALUATE
  else if String.eqb name "COMPRESS" then Ok COMPRESS
  else Raise AttributeError.

(** [d == Decision.<name>]: the right-hand side is evaluated first to a
    member, then compared. *)
Definition decision_is (d : Decision) (name : string) : Res bool :=
  (member <- Decision_getattr name ;;
   Ok (Decision_eqb d member))%res.

Record RelevanceFactors : Type := mkFactors {
  semantic_alignment : Q;
  temporal_relevance : Q;
  goal_contribution : Q;
  information_quality : Q;
  factual_consistency : Q
}.

(** The explanation of a score.  The code formats it as text; the
    embedding keeps the parts the text is built from (scores are printed
    with two decimals in the text). *)
Inductive Explanation : Type :=
| ExplainKeep (overall : Q) (strongest : string * Q)
| ExplainReview (overall : Q) (weakest : string * Q)
| ExplainRemove (overall : Q) (weakest : string * Q)
| ExplainComposite (heuristic_weight llm_weight : Q)
                   (heuristic llm : Explanation)
| ExplainText (text : string).

Record RelevanceScore : Type := mkScore {
  overall_score : Q;
  factors : RelevanceFactors;
  decision : Decision;
  explanation : Explanation
}.

End Interfaces.

(** ** Entities ([core/entities]) *)

Module Entities.
Import Interfaces.

(** Points in time ([datetime]) are seconds on a common clock. *)
Definition datetime : Type := Z.

(** A message ([entities/message.py]), by the attributes that the
    modelled code reads. *)
Record Message : Type := mkMessage {
  role : MessageRole;
  msg_content : string;
  msg_timestamp : option datetime;
  msg_metadata : list (string * string)
}.

(** A conversation block ([entities/conversation_block.py]), by the
    declared fields that the modelled code reads or writes.  The other
    declared fields (the tool fields, [confidence_score],
    [quality_metrics], [relevance_tags], [evaluation_result],
    [compressed_size], the relationship fields, [processing_status],
    [evaluation_reason] and [correction_history]) keep their defaults
    throughout.  [relevance_score] is [None] until a score is given; no
    validation constrains it. *)
Record ConversationBlock : Type := mkBlock {
  block_id : string;
  sequence_number : Z;
  timestamp : datetime;
  session_id : string;
  content : string;
  content_type : string;
  source : string;
  message_id : string;
  relevance_score : option Q;
  memory_tier : StorageTier;
  access_count : Z;
  last_accessed : datetime;
  retention_priority : Q
}.

(** [ConversationBlock(block_id=..., ...)], the clock read at [now] for
    the two time stamps.  The fields [sequence_number], [session_id],
    [content], [source] and [message_id] have no default: the model
    class raises [ValidationError] when one of them is not given.  The
    other fields take their defaults, and a keyword that names no
    declared field (such as [messages] or [metadata]) is ignored. *)
Definition ConversationBlock_init (now : datetime) (block_id : string)
    (sequence_number : option Z)
    (session_id content source message_id : option string)
    (relevance_score : option Q) : Res ConversationBlock :=
  match sequence_number, session_id, content, source, message_id with
  | Some sequence_number, Some session_id, Some content, Some source,
    Some message_id =>
      Ok (mkBlock block_id sequence_number now session_id content "text"
                  source message_id relevance_score HOT 0 now 1)
  | _, _, _, _, _ => Raise ValidationError
  end.

(** [block.messages] and [block.created_at]: the class declares neither
    attribute, so that reading one raises [AttributeError], and
    assigning to one raises [ValueError]. *)
Definition messages (block : ConversationBlock) : Res (list Message) :=
  Raise AttributeError.

Definition created_at (block : ConversationBlock) : Res datetime :=
  Raise AttributeError.

Definition set_created_at (v : datetime) (block : ConversationBlock)
  : Res ConversationBlock :=
  Raise ValueError.

Definition set_last_accessed (v : datetime) (block : ConversationBlock)
  : ConversationBlock :=
  mkBlock (block_id block) (sequence_number block) (timestamp block)
          (session_id block) (content block) (content_type block)
          (source block) (message_id block) (relevance_score block)
          (memory_tier block) (access_count block) v
          (retention_priority block).

Definition set_access_count (v : Z) (block : ConversationBlock)
  : ConversationBlock :=
  mkBlock (block_id block) (sequence_number block) (timestamp block)
          (session_id block) (content block) (content_type block)
          (source block) (message_id block) (relevance_score block)
          (memory_tier block) v (last_accessed block)
          (retention_priority block).

(** [ConversationBlock.update_access], at time [now]. *)
Definition update_access (now : datetime) (self : ConversationBlock)
  : ConversationBlock :=
  mkBlock (block_id self) (sequence_number self) (timestamp self)
          (session_id self) (content self) (content_type self) (source self)
          (message_id self) (relevance_score self) (memory_tier self)
          (access_count self + 1) now (retention_priority self).

End Entities.

(** ** Retention of a block ([core/entities/conversation_block.py]) *)

Module Retention.
Import Interfaces Entities.

(** [self.relevance_score or 0.5]: a score that is undefined or zero
    gives way to 0.5. *)
Definition base_score (self : ConversationBlock) : Q :=
  match relevance_score self with
  | None => 5#10
  | Some score => if Qeq_bool score 0 then 5#10 else score
  end.

(** The boost for a recent access, which decays over 24 hours, the
    clock read at [now]. *)
Definition recency_boost (now : datetime) (self : ConversationBlock) : Q :=
  let time_since_access := inject_Z (now - last_accessed self) in
  py_max 0%Q (1 - time_since_access / 86400)%Q.

(** The boost for frequent access. *)
Definition access_boost (self : ConversationBlock) : Q :=
  py_min 1%Q (inject_Z (access_count self) / 10)%Q.

(** [ConversationBlock.calculate_retention_score], the clock read at
    [now]. *)
Definition calculate_retention_score (now : datetime)
    (self : ConversationBlock) : Q :=
  let retention_score :=
    (base_score self * (6#10) + recency_boost now self * (2#10)
     + access_boost self * (2#10))%Q in
  py_min 1%Q (retention_score * retention_priority self)%Q.

(** [(datetime.utcnow() - self.timestamp).total_seconds() / 3600]. *)
Definition age_hours (now : datetime) (self : ConversationBlock) : Q :=
  (inject_Z (now - timestamp self) / 3600)%Q.

(** [ConversationBlock.should_compress]; the clock is read at [now] for
    the age and at [now'] for the retention score. *)
Definition should_compress (age_threshold_hours : Z) (now now' : datetime)
    (self : ConversationBlock) : bool :=
  match memory_tier self with
  | HOT =>
      Qgtb (age_hours now self) (inject_Z age_threshold_hours)
      && (access_count self <? 3)
      && Qltb (calculate_retention_score now' self) (8#10)
  | _ => false
  end.

(** [ConversationBlock.should_archive]. *)
Definition should_archive (age_threshold_hours : Z) (now now' : datetime)
    (self : ConversationBlock) : bool :=
  match memory_tier self with
  | COLD => false
  | _ =>
      Qgtb (age_hours now self) (inject_Z age_threshold_hours)
      && (access_count self =? 0)
      && Qltb (calculate_retention_score now' self) (5#10)
  end.

End Retention.

(** ** Coroutines *)

(** The points at which a coroutine of the modelled code is suspended in
    the event loop: a completion request to the generation provider and
    [asyncio.sleep].  The other [await]s of the code call coroutines
    that run to their end without giving control back. *)
Module Coroutine.
Import Interfaces.

(** The text of the user message of a completion request, by the parts
    that the code puts into it. *)
Inductive Prompt : Type :=
| ImprovementPrompt (current_response recent_context : string)
                    (issue_identified : Explanation)
                    (main_problem improvement_needed : string)
| AlignmentPrompt (context_summary current_message : string)
| ContributionPrompt (goal message : string)
| ConsistencyPrompt (established_facts : list string)
                    (current_message : string).

Inductive Request : Type -> Type :=
| LLMComplete (system_message : string) (prompt : Prompt)
              (temperature : Q) (max_tokens : Z) : Request string
| Sleep (seconds : Z) : Request unit.

(** A coroutine that has run as far as it can: it is done, with a result
    or an exception, or it is suspended on a request and resumes, in the
    state it then finds, with the answer or with an exception thrown
    into it. *)
Inductive Step (S A : Type) : Type :=
| Done (r : Res A) (s : S)
| Await {X : Type} (req : Request X) (s : S) (k : Res X -> S -> Step S A).
Arguments Done {S A} r s.
Arguments Await {S A X} req s k.

Definition Coro (S A : Type) : Type := S -> Step S A.

Definition co_ret {S A : Type} (a : A) : Coro S A := fun s => Done (Ok a) s.

Definition co_raise {S A : Type} (e : exn) : Coro S A :=
  fun s => Done (Raise e) s.

Fixpoint step_bind {S A B : Type} (x : Step S A) (f : A -> Coro S B)
  : Step S B :=
  match x with
  | Done (Ok a) s => f a s
  | Done (Raise e) s => Done (Raise e) s
  | Await req s k => Await req s (fun r s' => step_bind (k r s') f)
  end.

Definition co_bind {S A B : Type} (c : Coro S A) (f : A -> Coro S B)
  : Coro S B :=
  fun s => step_bind (c s) f.

(** A computation that does not suspend. *)
Definition co_lift {S A : Type} (m : M S A) : Coro S A :=
  fun s => match m s with (r, s') => Done r s' end.

(** A step that may raise and touches no state. *)
Definition co_res {S A : Type} (r : Res A) : Coro S A := fun s => Done r s.

(** [await] of a request: the answer is returned, an exception thrown
    into the coroutine is raised at that point. *)
Definition co_await {S X : Type} (req : Request X) : Coro S X :=
  fun s => Await req s (fun r s' => Done r s').

(** [try: c  except Exception as e: handler e]. *)
Fixpoint step_try {S A : Type} (x : Step S A) (handler : exn -> Coro S A)
  : Step S A :=
  match x with
  | Done (Ok a) s => Done (Ok a) s
  | Done (Raise e) s => if is_Exception e then handler e s else Done (Raise e) s
  | Await req s k => Await req s (fun r s' => step_try (k r s') handler)
  end.

Definition co_try {S A : Type} (c : Coro S A) (handler : exn -> Coro S A)
  : Coro S A :=
  fun s => step_try (c s) handler.

(** [try: c  except: handler]: the bare clause catches every exception,
    [CancelledError] included. *)
Fixpoint step_try_any {S A : Type} (x : Step S A) (handler : Coro S A)
  : Step S A :=
  match x with
  | Done (Ok a) s => Done (Ok a) s
  | Done (Raise _) s => handler s
  | Await req s k => Await req s (fun r s' => step_try_any (k r s') handler)
  end.

Definition co_try_any {S A : Type} (c : Coro S A) (handler : Coro S A)
  : Coro S A :=
  fun s => step_try_any (c s) handler.

(** A coroutine on a part [T] of the state [S], such as an attribute
    that holds an object: it works on the part that it finds in the
    state, at its start and at each resumption, and leaves the rest of
    the state as it is. *)
Fixpoint step_zoom {S T A : Type} (part : S -> T) (update : T -> S -> S)
    (x : Step T A) (s : S) : Step S A :=
  match x with
  | Done r t => Done r (update t s)
  | Await req t k =>
      Await req (update t s)
            (fun r s' => step_zoom part update (k r (part s')) s')
  end.

Definition co_zoom {S T A : Type} (part : S -> T) (update : T -> S -> S)
    (c : Coro T A) : Coro S A :=
  fun s => step_zoom part update (c (part s)) s.

(** A coroutine that works on no state of its own. *)
Definition Task (A : Type) : Type := Coro unit A.

(** The call of a task from a coroutine on a state. *)
Definition co_call {S A : Type} (t : Task A) : Coro S A :=
  co_zoom (fun _ => tt) (fun _ s => s) t.

(** The answers of the environment to the requests. *)
Definition Env : Type := forall X : Type, Request X -> Res X.

(** A task driven to its end, each request answered by the
    environment. *)
Fixpoint run {S A : Type} (env : Env) (x : Step S A) : Res A * S :=
  match x with
  | Done r s => (r, s)
  | Await req s k => run env (k (env _ req) s)
  end.

(** [task.cancel()]: [CancelledError] is thrown into the coroutine at the
    point where it is suspended; a task that is done is left as it is. *)
Definition cancel {S A : Type} (x : Step S A) : Step S A :=
  match x with
  | Done r s => Done r s
  | Await _ s k => k (Raise CancelledError) s
  end.

(** The state that the rest of the program sees while the task is
    suspended, or when it is done. *)
Definition state_of {S A : Type} (x : Step S A) : S :=
  match x with
  | Done _ s => s
  | Await _ s _ => s
  end.

(** The rest of the program changes the state that a suspended task
    shares with it. *)
Definition with_state {S A : Type} (f : S -> S) (x : Step S A) : Step S A :=
  match x with
  | Done r s => Done r (f s)
  | Await req s k => Await req (f s) k
  end.

(** A task that cancellation ends at once, wherever it is suspended, as
    long as the states it works in satisfy [P]: the task keeps [P], and
    [CancelledError] thrown into it where it is suspended comes out of
    it with the state untouched, now and after any resumption in a state
    that satisfies [P]. *)
Fixpoint Abortable {S A : Type} (P : S -> Prop) (x : Step S A) : Prop :=
  match x with
  | Done _ s => P s
  | Await _ s k =>
      P s
      /\ (forall s', P s' ->
            k (Raise CancelledError) s' = Done (Raise CancelledError) s')
      /\ (forall r s', P s' -> Abortable P (k r s'))
  end.

(** The states that a task goes through: it resumes from a suspension
    with any answer, in any state satisfying [P] that the rest of the
    program has left. *)
Inductive Reaches {S A : Type} (P : S -> Prop) (x : Step S A)
  : Step S A -> Prop :=
| reaches_start : Reaches P x x
| reaches_resume X (req : Request X) s k r s' :
    Reaches P x (Await req s k) -> P s' -> Reaches P x (k r s').

(** A task that sleeps, resumed at the end of its sleep; a task in
    another state is left as it is. *)
Definition wake {S A : Type} (x : Step S A) : Step S A :=
  match x with
  | Done r s => Done r s
  | Await req s k =>
      match req in Request X return (Res X -> S -> Step S A) -> Step S A with
      | Sleep _ => fun k => k (Ok tt) s
      | LLMComplete system_message prompt temperature max_tokens =>
          fun k =>
            Await (LLMComplete system_message prompt temperature max_tokens)
                  s k
      end k
  end.

(** Whether a task is suspended on a request to the provider, and
    whether it is suspended on a sleep of the given length. *)
Definition awaiting_provider {S A : Type} (x : Step S A) : bool :=
  match x with
  | Await (LLMComplete _ _ _ _) _ _ => true
  | _ => false
  end.

Definition sleeping {S A : Type} (seconds : Z) (x : Step S A) : bool :=
  match x with
  | Await (Sleep n) _ _ => n =? seconds
  | _ => false
  end.

Declare Scope coro_scope.
Delimit Scope coro_scope with coro.
Notation "x <- c1 ;; c2" := (co_bind c1 (fun x => c2))
  (at level 61, c1 at next level, right associativity) : coro_scope.
Notation "c1 ;; c2" := (co_bind c1 (fun _ => c2))
  (at level 61, right associativity) : coro_scope.

End Coroutine.

(** ** Relevance evaluation ([core/evaluation/base.py]) *)

Module Evaluation.

Import Interfaces Entities Coroutine.

(** The [metadata] dictionary of an evaluation, by the keys the code
    reads. *)
Record Metadata : Type := mkMetadata {
  md_goal : option string;
  md_keep_threshold : option Q;
  md_review_threshold : option Q;
  md_force_llm : bool
}.

Definition no_metadata : Metadata := mkMetadata None None None false.

(** [self.weights], in the order of the dictionary. *)
Record Weights : Type := mkWeights {
  w_semantic_alignment : Q;
  w_temporal_relevance : Q;
  w_goal_contribution : Q;
  w_information_quality : Q;
  w_factual_consistency : Q
}.

Definition weights_sum (w : Weights) : Q :=
  (w_semantic_alignment w + w_temporal_relevance w + w_goal_contribution w
   + w_information_quality w + w_factual_consistency w)%Q.

(** [BaseRelevanceEvaluator.__init__]: the five weights divided by their
    total. *)
Definition BaseRelevanceEvaluator_init
    (semantic_weight temporal_weight goal_weight
     information_weight factual_weight : Q) : Res Weights :=
  let total_weight :=
    (semantic_weight + temporal_weight + goal_weight
     + information_weight + factual_weight)%Q in
  (ws <- py_div semantic_weight total_weight ;;
   wt <- py_div temporal_weight total_weight ;;
   wg <- py_div goal_weight total_weight ;;
   wi <- py_div information_weight total_weight ;;
   wf <- py_div factual_weight total_weight ;;
   Ok (mkWeights ws wt wg wi wf))%res.

(** The weighted sum of [evaluate]: [sum] starts from 0 and adds
    [factor * weight] in the order of [self.weights]. *)
Definition weighted_overall (w : Weights) (f : RelevanceFactors) : Q :=
  (0 + semantic_alignment f * w_semantic_alignment w
     + temporal_relevance f * w_temporal_relevance w
     + goal_contribution f * w_goal_contribution w
     + information_quality f * w_information_quality w
     + factual_consistency f * w_factual_consistency w)%Q.

(** [BaseRelevanceEvaluator._make_decision].  Each [return] names a
    member of [Decision]. *)
Definition _make_decision
    (overall_score : Q) (factors : RelevanceFactors) (metadata : Metadata)
  : Res Decision :=
  let keep_threshold := get_default (md_keep_threshold metadata) (7#10) in
  let review_threshold := get_default (md_review_threshold metadata) (4#10) in
  if Qltb (factual_consistency factors) (3#10) then Decision_getattr "REMOVE"
  else if Qltb (semantic_alignment factors) (2#10) then Decision_getattr "REMOVE"
  else if Qgeb overall_score keep_threshold then Decision_getattr "KEEP"
  else if Qgeb overall_score review_threshold then Decision_getattr "REVIEW"
  else Decision_getattr "REMOVE".

(** [BaseRelevanceEvaluator._generate_explanation]. *)
Definition _generate_explanation
    (overall_score : Q) (factors : RelevanceFactors) (decision : Decision)
  : Res Explanation :=
  let rest :=
    [("temporal relevance"%string, temporal_relevance factors);
     ("goal contribution"%string, goal_contribution factors);
     ("information quality"%string, information_quality factors);
     ("factual consistency"%string, factual_consistency factors)] in
  let first := ("semantic alignment"%string, semantic_alignment factors) in
  let weakest := first_min first rest in
  let strongest := last_max first rest in
  (keep <- decision_is decision "KEEP" ;;
   if keep : bool then Ok (ExplainKeep overall_score strongest)
   else
     review <- decision_is decision "REVIEW" ;;
     if review : bool then Ok (ExplainReview overall_score weakest)
     else Ok (ExplainRemove overall_score weakest))%res.

(** The abstract scoring methods of [BaseRelevanceEvaluator], with the
    weights set by the constructor.  A method is a coroutine: it may
    raise, and it may wait for the provider. *)
Record Evaluator : Type := mkEvaluator {
  weights : Weights;
  _evaluate_semantic_alignment :
    ConversationBlock -> list ConversationBlock -> Task Q;
  _evaluate_temporal_relevance :
    ConversationBlock -> list ConversationBlock -> Task Q;
  _evaluate_goal_contribution :
    ConversationBlock -> list ConversationBlock -> option string -> Task Q;
  _evaluate_information_quality : ConversationBlock -> Task Q;
  _evaluate_factual_consistency :
    ConversationBlock -> list ConversationBlock -> Task Q
}.

(** [BaseRelevanceEvaluator.evaluate]. *)
Definition evaluate (self : Evaluator) (block : ConversationBlock)
    (context : list ConversationBlock) (metadata : option Metadata)
  : Task RelevanceScore :=
  let metadata := get_default metadata no_metadata in
  (sa <- _evaluate_semantic_alignment self block context ;;
   tr <- _evaluate_temporal_relevance self block context ;;
   gc <- _evaluate_goal_contribution self block context (md_goal metadata) ;;
   iq <- _evaluate_information_quality self block ;;
   fc <- _evaluate_factual_consistency self block context ;;
   let factors := mkFactors sa tr gc iq fc in
   let overall_score := weighted_overall (weights self) factors in
   decision <- co_res (_make_decision overall_score factors metadata) ;;
   explanation <-
     co_res (_generate_explanation overall_score factors decision) ;;
   co_ret (mkScore overall_score factors decision explanation))%coro.

(** The [evaluate] method of an evaluator object, the clock read at the
    time given first. *)
Definition IRelevanceEvaluator : Type :=
  datetime -> ConversationBlock -> list ConversationBlock ->
  option Metadata -> Task RelevanceScore.

(** The loop of [batch_evaluate], from position [i] on. *)
Fixpoint batch_from (evaluate : IRelevanceEvaluator) (now : datetime)
    (blocks : list ConversationBlock) (i : nat)
    (rest : list ConversationBlock) (metadata : option Metadata)
  : Task (list RelevanceScore) :=
  match rest with
  | [] => co_ret []
  | block :: rest' =>
      (score <- evaluate now block (context_window blocks i) metadata ;;
       scores <- batch_from evaluate now blocks (S i) rest' metadata ;;
       co_ret (score :: scores))%coro
  end.

(** [BaseRelevanceEvaluator.batch_evaluate], for the [evaluate] method
    of the object. *)
Definition batch_evaluate (evaluate : IRelevanceEvaluator) (now : datetime)
    (blocks : list ConversationBlock) (metadata : option Metadata)
  : Task (list RelevanceScore) :=
  batch_from evaluate now blocks 0 blocks metadata.

(** [BaseRelevanceEvaluator.evaluate_correction]. *)
Definition evaluate_correction (evaluate : IRelevanceEvaluator)
    (now : datetime) (original_block corrected_block : ConversationBlock)
    (context : list ConversationBlock) : Task Q :=
  (original_score <- evaluate now original_block context None ;;
   corrected_score <- evaluate now corrected_block context None ;;
   co_ret (overall_score corrected_score - overall_score original_score)%Q)%coro.

End Evaluation.

(** ** The heuristic evaluator ([core/evaluation/heuristic_evaluator.py]) *)

Module Heuristic.
Import Interfaces Entities Coroutine Evaluation.

(** [" ".join([msg.content for msg in block.messages])] and its
    lower-case variant [" ".join([msg.content.lower() ...])]. *)
Definition block_text (block : ConversationBlock) : Res string :=
  (msgs <- messages block ;;
   Ok (join (map msg_content msgs)))%res.

Definition block_text_lower (block : ConversationBlock) : Res string :=
  (msgs <- messages block ;;
   Ok (join (map (fun msg => lower (msg_content msg)) msgs)))%res.

(** *** The keyword tables of [__init__] *)

Definition greeting_keywords : list string :=
  ["hello"; "hi"; "hey"; "greetings"; "good morning";
   "good afternoon"; "good evening"; "welcome"]%string.

Definition closing_keywords : list string :=
  ["bye"; "goodbye"; "farewell"; "see you"; "take care";
   "have a nice day"; "thank you"; "thanks"]%string.

Definition filler_phrases : list string :=
  ["i see"; "okay"; "alright"; "sure"; "got it";
   "understood"; "makes sense"; "right"; "yeah"; "yes"]%string.

Definition error_keywords : list string :=
  ["error"; "mistake"; "wrong"; "incorrect"; "sorry";
   "apologize"; "my bad"; "oops"; "fault"]%string.

(** [any(re.search(p, s) for p in self.question_patterns)]: a question
    mark anywhere, an interrogative word at the start, or a modal verb
    followed by a space and a pronoun anywhere. *)
Definition question_words : list string :=
  ["what"; "where"; "when"; "why"; "how"; "who"; "which"]%string.

Definition modal_verbs : list string :=
  ["can"; "could"; "would"; "should"; "may"; "might"]%string.

Definition pronouns : list string := ["you"; "i"; "we"]%string.

Definition matches_question (s : string) : bool :=
  contains "?" s
  || existsb (fun w => String.prefix w s) question_words
  || existsb (fun v =>
                existsb (fun p => contains (v ++ " " ++ p)%string s) pronouns)
             modal_verbs.

(** *** Keywords *)

Definition stopwords : list string :=
  ["the"; "a"; "an"; "and"; "or"; "but"; "in"; "on"; "at";
   "to"; "for"; "of"; "with"; "by"; "from"; "is"; "are";
   "was"; "were"; "be"; "been"; "being"; "have"; "has";
   "had"; "do"; "does"; "did"; "will"; "would"; "could";
   "should"; "may"; "might"; "must"; "shall"; "can"]%string.

(** [HeuristicRelevanceEvaluator._extract_keywords]: the set of the
    words of more than two characters that are not stop words, as a list
    without repetition. *)
Definition _extract_keywords (block : ConversationBlock)
  : Res (list string) :=
  (content <- block_text block ;;
   let words := findall_words (lower content) in
   Ok (distinct
         (filter (fun word =>
                    (2 <? Z.of_nat (String.length word))
                    && negb (mem word stopwords))
                 words)))%res.

(** The keywords of the context blocks, each added to the set in
    turn. *)
Fixpoint context_keywords (acc : list string)
    (context : list ConversationBlock) : Res (list string) :=
  match context with
  | [] => Ok acc
  | ctx_block :: rest =>
      (keywords <- _extract_keywords ctx_block ;;
       context_keywords (union acc keywords) rest)%res
  end.

(** The Jaccard similarity of two keyword sets. *)
Definition jaccard (a b : list string) : Q :=
  let u := union a b in
  match u with
  | [] => 0%Q
  | _ => (inject_Z (len (intersection a b)) / inject_Z (len u))%Q
  end.

(** *** The five factors *)

(** [HeuristicRelevanceEvaluator._evaluate_semantic_alignment]. *)
Definition _evaluate_semantic_alignment (block : ConversationBlock)
    (context : list ConversationBlock) : Res Q :=
  match context with
  | [] => Ok (8#10)
  | _ =>
      (block_keywords <- _extract_keywords block ;;
       context_keywords <- context_keywords [] (last_n 3 context) ;;
       match block_keywords, context_keywords with
       | [], _ | _, [] => Ok (5#10)
       | _, _ =>
           let similarity := jaccard block_keywords context_keywords in
           block_content <- block_text_lower block ;;
           let similarity :=
             if any_in greeting_keywords block_content
             then (similarity * (7#10))%Q else similarity in
           let similarity :=
             if any_in closing_keywords block_content
             then (similarity * (7#10))%Q else similarity in
           let similarity :=
             if any_in error_keywords block_content
             then py_max similarity (6#10) else similarity in
           Ok ((3#10) + similarity * (6#10))%Q
       end)%res
  end.

Definition temporal_refs : list string :=
  ["today"; "tomorrow"; "yesterday"; "now"; "currently";
   "this week"; "next"; "last"; "soon"; "recently"]%string.

(** [HeuristicRelevanceEvaluator._evaluate_temporal_relevance], the
    clock read at [now].  Durations are in seconds. *)
Definition _evaluate_temporal_relevance (now : datetime)
    (block : ConversationBlock) (context : list ConversationBlock) : Res Q :=
  (created <- created_at block ;;
   let age := now - created in
   let age_score : Q :=
     if age <? 300 then 1%Q
     else if age <? 3600 then 9#10
     else if age <? 21600 then 7#10
     else if age <? 86400 then 5#10
     else if age <? 604800 then 3#10
     else 1#10 in
   let access_score : Q :=
     if access_count block =? 0 then 5#10
     else if access_count block <? 3 then 7#10
     else if access_count block <? 10 then 9#10
     else 1%Q in
   let time_since_access := now - last_accessed block in
   let recency_bonus : Q :=
     if time_since_access <? 1800 then 2#10
     else if time_since_access <? 7200 then 1#10
     else 0%Q in
   let score :=
     (age_score * (5#10) + access_score * (3#10) + recency_bonus * (2#10))%Q in
   block_content <- block_text_lower block ;;
   if any_in temporal_refs block_content
   then Ok (py_min 1%Q (score * (12#10))%Q)
   else Ok score)%res.

Definition task_keywords : list string :=
  ["need"; "want"; "help"; "please"; "could"; "would";
   "should"; "must"; "have to"; "try"; "let's"; "will"]%string.

(** The content of the first of the blocks that asks a question, if
    any: the loop over [reversed(context[-5:])] and its [break]. *)
Fixpoint recent_question (blocks : list ConversationBlock)
  : Res (option string) :=
  match blocks with
  | [] => Ok None
  | ctx_block :: rest =>
      (ctx_content <- block_text ctx_block ;;
       if matches_question (lower ctx_content) then Ok (Some ctx_content)
       else recent_question rest)%res
  end.

(** [block.messages and block.messages[0].role == MessageRole.ASSISTANT]. *)
Definition starts_with_assistant (block : ConversationBlock) : Res bool :=
  (msgs <- messages block ;;
   match msgs with
   | [] => Ok false
   | first :: _ => Ok (MessageRole_eqb (role first) ASSISTANT)
   end)%res.

(** [HeuristicRelevanceEvaluator._evaluate_goal_contribution]. *)
Definition _evaluate_goal_contribution (block : ConversationBlock)
    (context : list ConversationBlock) (goal : option string) : Res Q :=
  (block_content <- block_text block ;;
   let is_question := matches_question (lower block_content) in
   recent_question <- recent_question (rev (last_n 5 context)) ;;
   is_answer <-
     (if truthy recent_question then
        match context with
        | [] => Ok false
        | first :: _ =>
            block_created <- created_at block ;;
            last_created <- created_at (List.last context first) ;;
            if last_created <? block_created
            then starts_with_assistant block
            else Ok false
        end
      else Ok false) ;;
   if is_question then Ok (9#10)
   else if is_answer : bool then Ok (95#100)
   else if truthy goal
           && contains (lower (get_default goal EmptyString)) (lower block_content)
   then Ok (85#100)
   else
     let task_score :=
       (inject_Z (count_in task_keywords (lower block_content))
        / inject_Z (len task_keywords))%Q in
     Ok ((5#10) + task_score * (4#10))%Q)%res.

Definition substance_markers : list string :=
  ["because"; "therefore"; "however"; "although"; "despite";
   "specifically"; "particularly"; "especially"; "exactly";
   "for example"; "such as"; "like"; "including";
   "first"; "second"; "finally"; "step"; "process"]%string.

Definition code_patterns : list string :=
  ["```"; "def "; "class "; "function"; "import"; "return"]%string.

(** [HeuristicRelevanceEvaluator._evaluate_information_quality]. *)
Definition _evaluate_information_quality (block : ConversationBlock) : Res Q :=
  (block_content <- block_text block ;;
   let word_count := len (split block_content) in
   let length_score : Q :=
     if word_count <? 3 then 2#10
     else if word_count <? 10 then 5#10
     else if word_count <? 50 then 8#10
     else if word_count <? 200 then 1%Q
     else if word_count <? 500 then 8#10
     else 6#10 in
   let filler_count := count_in filler_phrases (lower block_content) in
   let filler_penalty : Q :=
     if filler_count >=? 3 then 3#10
     else if filler_count >=? 1 then 1#10
     else 0%Q in
   let substance_score :=
     (inject_Z (count_in substance_markers (lower block_content))
      / inject_Z (len substance_markers))%Q in
   let has_code := any_in code_patterns block_content in
   let technical_bonus : Q := if has_code then 2#10 else 0%Q in
   let quality_score :=
     (length_score * (4#10) + substance_score * (4#10)
      + technical_bonus * (2#10) - filler_penalty)%Q in
   Ok (py_max 0%Q (py_min 1%Q quality_score)))%res.

Definition contradiction_markers : list string :=
  ["no, actually"; "that's wrong"; "incorrect";
   "not true"; "false"; "mistake"; "error"]%string.

Definition confidence_markers : list string :=
  ["definitely"; "certainly"; "absolutely"; "clearly";
   "obviously"; "without doubt"; "for sure"]%string.

Definition uncertainty_markers : list string :=
  ["maybe"; "perhaps"; "possibly"; "might be";
   "could be"; "not sure"; "uncertain"; "unclear"]%string.

(** [HeuristicRelevanceEvaluator._evaluate_factual_consistency]. *)
Definition _evaluate_factual_consistency (block : ConversationBlock)
    (context : list ConversationBlock) : Res Q :=
  match context with
  | [] => Ok (9#10)
  | _ =>
      (block_content <- block_text_lower block ;;
       if any_in contradiction_markers block_content then
         by_assistant <- starts_with_assistant block ;;
         if by_assistant : bool then Ok (8#10) else Ok (4#10)
       else if any_in error_keywords block_content then Ok (6#10)
       else
         let confidence_count := count_in confidence_markers block_content in
         let uncertainty_count := count_in uncertainty_markers block_content in
         if uncertainty_count >? confidence_count then Ok (7#10)
         else if confidence_count >? 0 then Ok (95#100)
         else Ok (85#100))%res
  end.

(** The heuristic evaluator with the weights that the constructor has
    normalized, as it evaluates when the clock reads [now].  None of its
    methods waits. *)
Definition evaluator (w : Weights) (now : datetime) : Evaluator :=
  mkEvaluator w
    (fun block context => co_res (_evaluate_semantic_alignment block context))
    (fun block context =>
       co_res (_evaluate_temporal_relevance now block context))
    (fun block context goal =>
       co_res (_evaluate_goal_contribution block context goal))
    (fun block => co_res (_evaluate_information_quality block))
    (fun block context =>
       co_res (_evaluate_factual_consistency block context)).

(** [HeuristicRelevanceEvaluator.__init__]: the normalized weights. *)
Definition HeuristicRelevanceEvaluator
    (semantic_weight temporal_weight goal_weight
     information_weight factual_weight : Q) : Res Weights :=
  BaseRelevanceEvaluator_init semantic_weight temporal_weight goal_weight
                              information_weight factual_weight.

(** [HeuristicRelevanceEvaluator.evaluate], inherited from the base
    class. *)
Definition evaluate (w : Weights) : IRelevanceEvaluator :=
  fun now => Evaluation.evaluate (evaluator w now).

End Heuristic.

(** ** The model-based evaluator ([core/evaluation/llm_evaluator.py]) *)

Module LLM.
Import Interfaces Entities Coroutine Evaluation.

(** What the evaluator computes outside the modelled code: the cosine
    similarity of the hash embeddings of two texts, and the number that
    [float] reads in an answer of the provider ([ValueError] for text
    that is no number). *)
Class Numerics : Type := mkNumerics {
  embedding_similarity : string -> string -> Q;
  parse_float : string -> Res Q
}.

(** [np.mean(l)] of a list that is not empty. *)
Definition mean (l : list Q) : Q :=
  (fold_left Qplus l 0 / inject_Z (len l))%Q.

Definition evaluator_system_message : string :=
  "You are a relevance evaluator. Respond only with numeric scores as requested.".

(** [LLMRelevanceEvaluator._query_llm]. *)
Definition _query_llm (prompt : Prompt) (temperature : Q) : Task string :=
  co_await (LLMComplete evaluator_system_message prompt temperature 10).

(** [" ".join([msg.content for msg in block.messages])]. *)
Definition block_text (block : ConversationBlock) : Res string :=
  (msgs <- messages block ;;
   Ok (join (map msg_content msgs)))%res.

(** [s[:200] + "..." if len(s) > 200 else s]. *)
Definition truncated (s : string) : string :=
  if (200 <? String.length s)%nat then (substring 0 200 s ++ "...")%string
  else s.

(** The lines of [_summarize_context]. *)
Fixpoint summaries (context : list ConversationBlock) : Res (list string) :=
  match context with
  | [] => Ok []
  | block :: rest =>
      (msgs <- messages block ;;
       let role :=
         match msgs with
         | first :: _ => role_value (role first)
         | [] => "unknown"%string
         end in
       content <- block_text block ;;
       lines <- summaries rest ;;
       Ok ((role ++ ": " ++ truncated content)%string :: lines))%res
  end.

(** [LLMRelevanceEvaluator._summarize_context]. *)
Definition _summarize_context (context : list ConversationBlock)
  : Res string :=
  match context with
  | [] => Ok "No prior context."%string
  | _ =>
      (lines <- summaries context ;;
       Ok (String.concat (String (Ascii.ascii_of_nat 10) EmptyString) lines))%res
  end.

Definition fact_patterns : list string :=
  [" is "; " are "; " was "; " were ";
   " has "; " have "; " equals "; " means "]%string.

(** [s.strip()]. *)
Fixpoint lstrip (s : string) : string :=
  match s with
  | String c s' => if is_space c then lstrip s' else s
  | EmptyString => EmptyString
  end.

Fixpoint rev_string (s acc : string) : string :=
  match s with
  | EmptyString => acc
  | String c s' => rev_string s' (String c acc)
  end.

Definition strip (s : string) : string :=
  rev_string (lstrip (rev_string (lstrip s) EmptyString)) EmptyString.

(** [content.split(".")]: the parts between the full stops. *)
Fixpoint split_sentences (s cur : string) : list string :=
  match s with
  | EmptyString => [cur]
  | String c s' =>
      if Ascii.eqb c "."%char then cur :: split_sentences s' EmptyString
      else split_sentences s' (cur ++ String c EmptyString)
  end.

(** The facts of the messages of a block. *)
Definition facts_of_messages (msgs : list Message) : list string :=
  flat_map
    (fun msg =>
       let content := lower (msg_content msg) in
       if any_in fact_patterns content then
         map strip
             (filter (fun sentence =>
                        (3 <? len (split sentence)) && (len (split sentence) <? 30))
                     (split_sentences content EmptyString))
       else [])
    msgs.

Fixpoint facts_of (context : list ConversationBlock) : Res (list string) :=
  match context with
  | [] => Ok []
  | block :: rest =>
      (msgs <- messages block ;;
       facts <- facts_of rest ;;
       Ok (facts_of_messages msgs ++ facts))%res
  end.

(** [LLMRelevanceEvaluator._extract_facts]. *)
Definition _extract_facts (context : list ConversationBlock)
  : Res (list string) :=
  (facts <- facts_of context ;;
   Ok (last_n 10 facts))%res.

Section Methods.
Context `{Numerics}.
Variable use_embeddings : bool.

(** The similarities of the text with the texts of the blocks. *)
Fixpoint similarities (block_content : string)
    (context : list ConversationBlock) : Res (list Q) :=
  match context with
  | [] => Ok []
  | ctx_block :: rest =>
      (ctx_content <- block_text ctx_block ;;
       sims <- similarities block_content rest ;;
       Ok (embedding_similarity block_content ctx_content :: sims))%res
  end.

(** The score that an answer of the provider gives, and the default of
    the bare [except] clause for anything that goes wrong. *)
Definition rated (prompt : Prompt) (default : Q) : Task Q :=
  co_try_any
    (response <- _query_llm prompt (1#10) ;;
     score <- co_res (parse_float response) ;;
     co_ret (py_max 0%Q (py_min 1%Q score)))%coro
    (co_ret default).

(** [LLMRelevanceEvaluator._evaluate_semantic_alignment]. *)
Definition _evaluate_semantic_alignment (block : ConversationBlock)
    (context : list ConversationBlock) : Task Q :=
  match context with
  | [] => co_ret (8#10)
  | _ =>
      (block_content <- co_res (block_text block) ;;
       if use_embeddings then
         similarities <-
           co_res (similarities block_content (last_n 3 context)) ;;
         let avg_similarity :=
           match similarities with
           | [] => 5#10
           | _ => mean similarities
           end in
         if Qltb avg_similarity (3#10) then co_ret (3#10)
         else if Qgtb avg_similarity (9#10) then co_ret (5#10)
         else co_ret (8#10)
       else
         context_summary <- co_res (_summarize_context (last_n 3 context)) ;;
         rated (AlignmentPrompt context_summary block_content) (7#10))%coro
  end.

Definition temporal_markers : list string :=
  ["today"; "yesterday"; "tomorrow"; "now"; "currently";
   "this week"; "last week"; "next week"; "recently"]%string.

(** [LLMRelevanceEvaluator._evaluate_temporal_relevance], the clock read
    at [now]. *)
Definition _evaluate_temporal_relevance (now : datetime)
    (block : ConversationBlock) (context : list ConversationBlock)
  : Task Q :=
  co_res
    (created <- created_at block ;;
     let block_age := now - created in
     let age_score : Q :=
       if block_age <? 300 then 1%Q
       else if block_age <? 3600 then 9#10
       else if block_age <? 21600 then 7#10
       else if block_age <? 86400 then 5#10
       else if block_age <? 604800 then 3#10
       else 1#10 in
     block_content <- block_text block ;;
     if any_in temporal_markers (lower block_content)
     then Ok (py_min 1%Q (age_score * (12#10))%Q)
     else
       let access_score := py_min 1%Q (inject_Z (access_count block) / 10)%Q in
       Ok (age_score * (7#10) + access_score * (3#10))%Q)%res.

(** The goal that the messages of a block suggest: the first question of
    the user. *)
Fixpoint question_of (msgs : list Message) : option string :=
  match msgs with
  | [] => None
  | msg :: rest =>
      if MessageRole_eqb (role msg) USER && contains "?" (msg_content msg)
      then Some ("Answer: " ++ msg_content msg)%string
      else question_of rest
  end.

(** The goal inferred from the blocks, the first that suggests one. *)
Fixpoint inferred_goal (blocks : list ConversationBlock)
  : Res (option string) :=
  match blocks with
  | [] => Ok None
  | ctx_block :: rest =>
      (msgs <- messages ctx_block ;;
       match question_of msgs with
       | Some goal => Ok (Some goal)
       | None => inferred_goal rest
       end)%res
  end.

(** [LLMRelevanceEvaluator._evaluate_goal_contribution]. *)
Definition _evaluate_goal_contribution (block : ConversationBlock)
    (context : list ConversationBlock) (goal : option string) : Task Q :=
  (block_content <- co_res (block_text block) ;;
   goal <- co_res
     (if negb (truthy goal)
         && match context with [] => false | _ => true end
      then inferred_goal (rev (last_n 5 context))
      else Ok goal) ;;
   if negb (truthy goal) then co_ret (7#10)
   else
     rated (ContributionPrompt (get_default goal EmptyString) block_content)
           (6#10))%coro.

Definition substantive_words : list string :=
  ["because"; "therefore"; "however"; "specifically";
   "example"; "means"; "important"; "explain"]%string.

(** [LLMRelevanceEvaluator._evaluate_information_quality]. *)
Definition _evaluate_information_quality (block : ConversationBlock)
  : Task Q :=
  co_res
    (block_content <- block_text block ;;
     let word_count := len (split block_content) in
     let length_score : Q :=
       if word_count <? 3 then 3#10
       else if word_count <? 10 then 7#10
       else if word_count <? 200 then 1%Q
       else if word_count <? 500 then 8#10
       else 6#10 in
     let has_substance := any_in substantive_words (lower block_content) in
     let substance_score : Q := if has_substance then 8#10 else 5#10 in
     let has_question := contains "?" block_content in
     let question_score : Q := if has_question then 9#10 else 7#10 in
     Ok (length_score * (4#10) + substance_score * (4#10)
         + question_score * (2#10))%Q)%res.

(** [LLMRelevanceEvaluator._evaluate_factual_consistency]. *)
Definition _evaluate_factual_consistency (block : ConversationBlock)
    (context : list ConversationBlock) : Task Q :=
  match context with
  | [] => co_ret (9#10)
  | _ =>
      (block_content <- co_res (block_text block) ;;
       context_facts <- co_res (_extract_facts context) ;;
       match context_facts with
       | [] => co_ret (9#10)
       | _ => rated (ConsistencyPrompt context_facts block_content) (8#10)
       end)%coro
  end.

(** The model-based evaluator with the weights that the constructor has
    normalized, as it evaluates when the clock reads [now]. *)
Definition evaluator (w : Weights) (now : datetime) : Evaluator :=
  mkEvaluator w
    _evaluate_semantic_alignment
    (_evaluate_temporal_relevance now)
    _evaluate_goal_contribution
    _evaluate_information_quality
    _evaluate_factual_consistency.

(** [LLMRelevanceEvaluator.evaluate], inherited from the base class. *)
Definition evaluate (w : Weights) : IRelevanceEvaluator :=
  fun now => Evaluation.evaluate (evaluator w now).

End Methods.

(** [LLMRelevanceEvaluator.__init__]: the normalized weights. *)
Definition LLMRelevanceEvaluator
    (semantic_weight temporal_weight goal_weight
     information_weight factual_weight : Q) : Res Weights :=
  BaseRelevanceEvaluator_init semantic_weight temporal_weight goal_weight
                              information_weight factual_weight.

End LLM.

(** ** The composite evaluator ([core/evaluation/composite_evaluator.py]) *)

Module Composite.
Import Interfaces Entities Coroutine Evaluation.

(** A composite evaluator: the blend weights that the constructor has
    normalized and the [evaluate] methods of the two evaluators that it
    holds. *)
Record CompositeRelevanceEvaluator : Type := mkComposite {
  use_llm : bool;
  llm_weight : Q;
  heuristic_weight : Q;
  heuristic_evaluator : IRelevanceEvaluator;
  llm_evaluator : option IRelevanceEvaluator
}.

(** [CompositeRelevanceEvaluator.__init__]: the constructor of the base
    class normalizes the five factor weights, the two blend weights are
    divided by their total, and the two evaluators are built with the
    factor weights as given, which their constructors normalize. *)
Definition CompositeRelevanceEvaluator_init `{LLM.Numerics}
    (use_llm : bool) (llm_weight heuristic_weight : Q)
    (semantic_weight temporal_weight goal_weight
     information_weight factual_weight : Q)
  : Res CompositeRelevanceEvaluator :=
  (_ <- BaseRelevanceEvaluator_init semantic_weight temporal_weight
          goal_weight information_weight factual_weight ;;
   let total := (llm_weight + heuristic_weight)%Q in
   lw <- py_div llm_weight total ;;
   hw <- py_div heuristic_weight total ;;
   heuristic <- Heuristic.HeuristicRelevanceEvaluator
                  semantic_weight temporal_weight goal_weight
                  information_weight factual_weight ;;
   llm <- (if use_llm
           then w <- LLM.LLMRelevanceEvaluator
                       semantic_weight temporal_weight goal_weight
                       information_weight factual_weight ;;
                Ok (Some (LLM.evaluate true w))
           else Ok None) ;;
   Ok (mkComposite use_llm lw hw (Heuristic.evaluate heuristic) llm))%res.

(** [CompositeRelevanceEvaluator._combine_scores]. *)
Definition _combine_scores (self : CompositeRelevanceEvaluator)
    (heuristic_score llm_score : RelevanceScore) : Res RelevanceScore :=
  let hw := heuristic_weight self in
  let lw := llm_weight self in
  let blend (h l : Q) : Q := (h * hw + l * lw)%Q in
  let hf := factors heuristic_score in
  let lf := factors llm_score in
  let overall :=
    blend (overall_score heuristic_score) (overall_score llm_score) in
  let factors :=
    mkFactors
      (blend (semantic_alignment hf) (semantic_alignment lf))
      (blend (temporal_relevance hf) (temporal_relevance lf))
      (blend (goal_contribution hf) (goal_contribution lf))
      (blend (information_quality hf) (information_quality lf))
      (blend (factual_consistency hf) (factual_consistency lf)) in
  (heuristic_removes <- decision_is (decision heuristic_score) "REMOVE" ;;
   removes <- (if heuristic_removes : bool then Ok true
               else decision_is (decision llm_score) "REMOVE") ;;
   decision <-
     (if removes : bool then Decision_getattr "REMOVE"
      else
        heuristic_reviews <- decision_is (decision heuristic_score) "REVIEW" ;;
        reviews <- (if heuristic_reviews : bool then Ok true
                    else decision_is (decision llm_score) "REVIEW") ;;
        if reviews : bool then Decision_getattr "REVIEW"
        else Decision_getattr "KEEP") ;;
   Ok (mkScore overall factors decision
         (ExplainComposite hw lw
            (explanation heuristic_score) (explanation llm_score))))%res.

(** The test that sends a block to the model-based evaluator: the
    heuristic score is low or borderline, or the metadata forces it. *)
Definition needs_llm (heuristic_score : RelevanceScore) (metadata : Metadata)
  : bool :=
  let o := overall_score heuristic_score in
  Qltb o (6#10) || (Qgtb o (4#10) && Qltb o (7#10)) || md_force_llm metadata.

(** [CompositeRelevanceEvaluator.evaluate].  The [except Exception]
    clause around the model-based call does not catch what is not an
    [Exception]. *)
Definition evaluate (self : CompositeRelevanceEvaluator)
  : IRelevanceEvaluator :=
  fun now block context metadata =>
    let metadata := get_default metadata no_metadata in
    (heuristic_score <-
       heuristic_evaluator self now block context (Some metadata) ;;
     match use_llm self, llm_evaluator self with
     | true, Some llm =>
         if needs_llm heuristic_score metadata then
           co_try
             (llm_score <- llm now block context (Some metadata) ;;
              co_res (_combine_scores self heuristic_score llm_score))
             (fun _ => co_ret heuristic_score)
         else co_ret heuristic_score
     | _, _ => co_ret heuristic_score
     end)%coro.

End Composite.

(** ** The evaluation service ([core/evaluation/service.py]) *)

Module Service.
Import Interfaces Entities Coroutine Evaluation.

(** The settings that the service reads
    ([infrastructure/config/settings.py]). *)
Record Settings : Type := mkSettings {
  llm_provider : string
}.

(** [getattr(settings, "evaluation_mode", "composite")]: the settings
    declare no such attribute, so that the default is taken. *)
Definition evaluation_mode (settings : Settings) : string := "composite".

Record RelevanceEvaluationService : Type := mkService {
  _evaluator : option IRelevanceEvaluator;
  _evaluation_cache : dict RelevanceScore;
  _cache_size : Z
}.

(** [RelevanceEvaluationService.__init__]. *)
Definition RelevanceEvaluationService_init : RelevanceEvaluationService :=
  mkService None [] 1000.

Definition with_evaluator (e : option IRelevanceEvaluator)
    (self : RelevanceEvaluationService) :=
  mkService e (_evaluation_cache self) (_cache_size self).

Definition with_cache (c : dict RelevanceScore)
    (self : RelevanceEvaluationService) :=
  mkService (_evaluator self) c (_cache_size self).

(** [f"{block.block_id}:{len(context)}"]. *)
Definition cache_key (block : ConversationBlock)
    (context : list ConversationBlock) : string :=
  (block_id block ++ ":"
   ++ DecimalString.NilZero.string_of_uint (Nat.to_uint (List.length context)))%string.

(** [RelevanceEvaluationService._cache_evaluation].  ([next(iter(...))]
    on an empty cache raises [StopIteration], which comes out of the
    coroutine that called as a [RuntimeError]; with the size of 1000
    that the constructor sets, and with any size of at least one, a
    cache that has reached its size is not empty.) *)
Definition _cache_evaluation (key : string) (score : RelevanceScore)
  : M RelevanceEvaluationService unit :=
  (self <- get ;;
   (if len (_evaluation_cache self) >=? _cache_size self then
      match _evaluation_cache self with
      | [] => raise RuntimeError
      | (oldest_key, _) :: _ =>
          modify (with_cache (dict_pop (_evaluation_cache self) oldest_key))
      end
    else ret tt) ;;
   modify (fun self =>
             with_cache (dict_set (_evaluation_cache self) key score) self))%py.

(** [RelevanceEvaluationService.clear_cache]. *)
Definition clear_cache : M RelevanceEvaluationService unit :=
  modify (with_cache []).

(** [RelevanceEvaluationService.set_evaluator]. *)
Definition set_evaluator (evaluator : IRelevanceEvaluator)
  : M RelevanceEvaluationService unit :=
  (modify (with_evaluator (Some evaluator)) ;;
   clear_cache)%py.

(** [RelevanceEvaluationService.get_evaluator]. *)
Definition get_evaluator (self : RelevanceEvaluationService)
  : option IRelevanceEvaluator :=
  _evaluator self.

(** A suggestion of [suggest_corrections]. *)
Inductive SuggestionType : Type := Remove | Rephrase | Expand | Verify.

Record Suggestion : Type := mkSuggestion {
  sg_type : SuggestionType;
  sg_block_id : string;
  sg_reason : Explanation;
  sg_suggestion : option string;
  sg_score : Q
}.

(** The weakest factor of a score: the first of the least. *)
Definition weakest_factor (score : RelevanceScore) : string * Q :=
  let f := factors score in
  first_min
    ("semantic_alignment"%string, semantic_alignment f)
    [("temporal_relevance"%string, temporal_relevance f);
     ("goal_contribution"%string, goal_contribution f);
     ("information_quality"%string, information_quality f);
     ("factual_consistency"%string, factual_consistency f)].

Section Operations.
Context `{LLM.Numerics}.
Variable settings : Settings.

(** The evaluator that [initialize] builds from the settings, each
    constructor with its default weights. *)
Definition configured : Res IRelevanceEvaluator :=
  let evaluation_mode := evaluation_mode settings in
  (if String.eqb evaluation_mode "heuristic" then
     w <- Heuristic.HeuristicRelevanceEvaluator
            (3#10) (2#10) (25#100) (15#100) (1#10) ;;
     Ok (Heuristic.evaluate w)
   else if String.eqb evaluation_mode "llm" then
     w <- LLM.LLMRelevanceEvaluator (3#10) (2#10) (25#100) (15#100) (1#10) ;;
     Ok (LLM.evaluate true w)
   else
     let use_llm := negb (String.eqb (llm_provider settings) "mock") in
     composite <- Composite.CompositeRelevanceEvaluator_init
                    use_llm (7#10) (3#10)
                    (3#10) (2#10) (25#100) (15#100) (1#10) ;;
     Ok (Composite.evaluate composite))%res.

(** [RelevanceEvaluationService.initialize]. *)
Definition initialize : M RelevanceEvaluationService unit :=
  (evaluator <- lift_res configured ;;
   modify (with_evaluator (Some evaluator)))%py.

(** [if not self._evaluator: await self.initialize()]. *)
Definition ensure_evaluator : M RelevanceEvaluationService unit :=
  (self <- get ;;
   match _evaluator self with
   | None => initialize
   | Some _ => ret tt
   end)%py.

(** [self._evaluator.evaluate(block, context, metadata)]; an evaluator
    that is [None] has no such method. *)
Definition call_evaluator (now : datetime) (block : ConversationBlock)
    (context : list ConversationBlock) (metadata : option Metadata)
  : Coro RelevanceEvaluationService RelevanceScore :=
  fun self =>
    match _evaluator self with
    | Some evaluator => co_call (evaluator now block context metadata) self
    | None => Done (Raise AttributeError) self
    end.

(** The logging of significant decisions at the end of
    [evaluate_block]: the two comparisons with members of [Decision]. *)
Definition log_decision (score : RelevanceScore) : Res unit :=
  (removes <- decision_is (decision score) "REMOVE" ;;
   if removes : bool then Ok tt
   else
     reviews <- decision_is (decision score) "REVIEW" ;;
     Ok tt)%res.

(** [RelevanceEvaluationService.evaluate_block], the clock read at
    [now]. *)
Definition evaluate_block (now : datetime) (block : ConversationBlock)
    (context : list ConversationBlock) (metadata : option Metadata)
    (use_cache : bool) : Coro RelevanceEvaluationService RelevanceScore :=
  (co_lift ensure_evaluator ;;
   self <- co_lift get ;;
   let cache_key := cache_key block context in
   match (if use_cache then dict_get (_evaluation_cache self) cache_key
          else None) with
   | Some score => co_ret score
   | None =>
       score <- call_evaluator now block context metadata ;;
       co_lift (if use_cache then _cache_evaluation cache_key score
                else ret tt) ;;
       co_res (log_decision score) ;;
       co_ret score
   end)%coro.

(** The loop of [evaluate_conversation], from position [i] on. *)
Fixpoint evaluate_from (now : datetime) (blocks : list ConversationBlock)
    (i : nat) (rest : list ConversationBlock) (metadata : option Metadata)
  : Coro RelevanceEvaluationService
         (list (ConversationBlock * RelevanceScore)) :=
  match rest with
  | [] => co_ret []
  | block :: rest' =>
      (score <- evaluate_block now block (context_window blocks i)
                               metadata true ;;
       results <- evaluate_from now blocks (S i) rest' metadata ;;
       co_ret ((block, score) :: results))%coro
  end.

(** [RelevanceEvaluationService.evaluate_conversation]. *)
Definition evaluate_conversation (now : datetime)
    (blocks : list ConversationBlock) (metadata : option Metadata)
  : Coro RelevanceEvaluationService
         (list (ConversationBlock * RelevanceScore)) :=
  (co_lift ensure_evaluator ;;
   evaluate_from now blocks 0 blocks metadata)%coro.

(** The filter of [find_irrelevant_blocks]:
    [score.overall_score < threshold or score.decision == Decision.REMOVE]
    for each scored block in turn. *)
Fixpoint irrelevant_of (threshold : Q)
    (evaluated : list (ConversationBlock * RelevanceScore))
  : Res (list (ConversationBlock * RelevanceScore)) :=
  match evaluated with
  | [] => Ok []
  | (block, score) :: rest =>
      (keep <- (if Qltb (overall_score score) threshold then Ok true
                else decision_is (decision score) "REMOVE") ;;
       irrelevant <- irrelevant_of threshold rest ;;
       Ok (if keep : bool then (block, score) :: irrelevant else irrelevant))%res
  end.

(** [RelevanceEvaluationService.find_irrelevant_blocks]. *)
Definition find_irrelevant_blocks (now : datetime)
    (blocks : list ConversationBlock) (threshold : Q)
    (metadata : option Metadata)
  : Coro RelevanceEvaluationService
         (list (ConversationBlock * RelevanceScore)) :=
  (evaluated <- evaluate_conversation now blocks metadata ;;
   co_res (irrelevant_of threshold evaluated))%coro.

(** The suggestion, if any, that [suggest_corrections] makes for a
    scored block. *)
Definition suggestion_for (block : ConversationBlock) (score : RelevanceScore)
  : Res (list Suggestion) :=
  (removes <- decision_is (decision score) "REMOVE" ;;
   if removes : bool then
     Ok [mkSuggestion Remove (block_id block) (explanation score) None
                      (overall_score score)]
   else
     reviews <- decision_is (decision score) "REVIEW" ;;
     if reviews : bool then
       let weakest_factor := fst (weakest_factor score) in
       if String.eqb weakest_factor "semantic_alignment" then
         Ok [mkSuggestion Rephrase (block_id block)
               (ExplainText "Poor semantic alignment with conversation")
               (Some "Rephrase to better connect with the conversation context"%string)
               (overall_score score)]
       else if String.eqb weakest_factor "information_quality" then
         Ok [mkSuggestion Expand (block_id block)
               (ExplainText "Low information quality")
               (Some "Add more specific details or examples"%string)
               (overall_score score)]
       else if String.eqb weakest_factor "factual_consistency" then
         Ok [mkSuggestion Verify (block_id block)
               (ExplainText "Potential factual inconsistency")
               (Some "Verify facts and correct any errors"%string)
               (overall_score score)]
       else Ok []
     else Ok [])%res.

(** The loop of [suggest_corrections]. *)
Fixpoint suggestions_of
    (evaluated : list (ConversationBlock * RelevanceScore))
  : Res (list Suggestion) :=
  match evaluated with
  | [] => Ok []
  | (block, score) :: rest =>
      (suggested <- suggestion_for block score ;;
       suggestions <- suggestions_of rest ;;
       Ok (suggested ++ suggestions))%res
  end.

(** [RelevanceEvaluationService.suggest_corrections]. *)
Definition suggest_corrections (now : datetime)
    (blocks : list ConversationBlock) (metadata : option Metadata)
  : Coro RelevanceEvaluationService (list Suggestion) :=
  (evaluated <- evaluate_conversation now blocks metadata ;;
   co_res (suggestions_of evaluated))%coro.

End Operations.

(** The cache holds at most as many scores as its size. *)
Definition cache_within (self : RelevanceEvaluationService) : Prop :=
  len (_evaluation_cache self) <= _cache_size self.

End Service.

(** ** The in-memory store ([infrastructure/storage/memory_store.py]) *)

Module Store.
Import Interfaces Entities.
Open Scope py_scope.

(** The dictionary that [_serialize_block] builds and [json.dumps]
    writes. *)
Record BlockData : Type := mkBlockData {
  bd_block_id : string;
  bd_messages : list Message;
  bd_relevance_score : option Q;
  bd_created_at : datetime;
  bd_last_accessed : datetime;
  bd_access_count : Z
}.

(** Sizes in bytes of the JSON text of a serialized block and of its
    gzip compression; the store only compares and records them. *)
Class Codec : Type := mkCodec {
  json_len : BlockData -> Z;
  gzip_len : BlockData -> Z
}.

(** The [bytes] kept in the warm tier: the JSON text itself, or its gzip
    compression. *)
Inductive Payload : Type :=
| Raw (d : BlockData)
| Gz (d : BlockData).

(** [json.loads(gzip.decompress(data))]: text that was stored without
    compression does not start with the gzip magic number. *)
Definition gunzip (p : Payload) : Res BlockData :=
  match p with
  | Gz d => Ok d
  | Raw _ => Raise BadGzipFile
  end.

Record WarmMeta : Type := mkWarmMeta {
  original_size : Z;
  compressed_size : Z;
  compression_ratio : Q;
  wm_created_at : datetime;
  wm_access_count : Z
}.

(** The summary kept in the cold tier. *)
Record Summary : Type := mkSummary {
  summary : string;
  message_count : Z;
  total_length : Z;
  roles : list string;
  sm_relevance_score : option Q;
  sm_created_at : option datetime
}.

Record Stats : Type := mkStats {
  total_stored : Z;
  total_retrieved : Z;
  total_compressed : Z;
  total_evicted : Z;
  bytes_saved : Z
}.

Record InMemoryStore : Type := mkStore {
  hot_capacity : Z;
  warm_capacity : Z;
  cold_capacity : Z;
  compression_threshold : Z;
  _hot_store : dict ConversationBlock;
  _warm_store : dict (Payload * WarmMeta);
  _cold_store : dict Summary;
  _session_index : dict (list string);
  _tier_index : dict StorageTier;
  _stats : Stats
}.

(** [InMemoryStore.__init__]. *)
Definition InMemoryStore_init
    (hot_capacity warm_capacity cold_capacity compression_threshold : Z)
  : InMemoryStore :=
  mkStore hot_capacity warm_capacity cold_capacity compression_threshold
          [] [] [] [] [] (mkStats 0 0 0 0 0).

Definition default_store : InMemoryStore := InMemoryStore_init 100 500 2000 1024.

Definition set_hot (h : dict ConversationBlock) (st : InMemoryStore) :=
  mkStore (hot_capacity st) (warm_capacity st) (cold_capacity st)
          (compression_threshold st) h (_warm_store st) (_cold_store st)
          (_session_index st) (_tier_index st) (_stats st).

Definition set_warm (w : dict (Payload * WarmMeta)) (st : InMemoryStore) :=
  mkStore (hot_capacity st) (warm_capacity st) (cold_capacity st)
          (compression_threshold st) (_hot_store st) w (_cold_store st)
          (_session_index st) (_tier_index st) (_stats st).

Definition set_cold (c : dict Summary) (st : InMemoryStore) :=
  mkStore (hot_capacity st) (warm_capacity st) (cold_capacity st)
          (compression_threshold st) (_hot_store st) (_warm_store st) c
          (_session_index st) (_tier_index st) (_stats st).

Definition set_session_index (x : dict (list string)) (st : InMemoryStore) :=
  mkStore (hot_capacity st) (warm_capacity st) (cold_capacity st)
          (compression_threshold st) (_hot_store st) (_warm_store st)
          (_cold_store st) x (_tier_index st) (_stats st).

Definition set_tier_index (x : dict StorageTier) (st : InMemoryStore) :=
  mkStore (hot_capacity st) (warm_capacity st) (cold_capacity st)
          (compression_threshold st) (_hot_store st) (_warm_store st)
          (_cold_store st) (_session_index st) x (_stats st).

Definition set_stats (x : Stats) (st : InMemoryStore) :=
  mkStore (hot_capacity st) (warm_capacity st) (cold_capacity st)
          (compression_threshold st) (_hot_store st) (_warm_store st)
          (_cold_store st) (_session_index st) (_tier_index st) x.

(** The name [MessageRole] in [memory_store.py]: the module imports
    [ConversationBlock], [Message], [IStorage] and [StorageTier] and
    defines no [MessageRole], so that evaluating the name raises
    [NameError]. *)
Definition MessageRole_name : Res unit := Raise NameError.

(** [InMemoryStore._serialize_block]: the dictionary is built entry by
    entry, and reads [block.messages] and [block.created_at]. *)
Definition _serialize_block (block : ConversationBlock) : Res BlockData :=
  (msgs <- messages block ;;
   created <- created_at block ;;
   Ok (mkBlockData (block_id block) msgs (relevance_score block)
                   created (last_accessed block) (access_count block)))%res.

(** [InMemoryStore._deserialize_block], the clock read at [now]: the
    first message, if any, needs the name [MessageRole]; the block is
    then built from the identifier and the score, the messages being no
    field of it; the time stamps and the access count are set on the
    block. *)
Definition _deserialize_block (now : datetime) (data : BlockData)
  : Res ConversationBlock :=
  (match bd_messages data with
   | [] => Ok tt
   | _ :: _ => MessageRole_name
   end ;;
   block <- ConversationBlock_init now (bd_block_id data) None None None
                                   None None (bd_relevance_score data) ;;
   block <- set_created_at (bd_created_at data) block ;;
   let block := set_last_accessed (bd_last_accessed data) block in
   Ok (set_access_count (bd_access_count data) block))%res.

(** [InMemoryStore._create_summary]. *)
Definition _create_summary (block_data : BlockData) : Summary :=
  let messages := bd_messages block_data in
  let roles := map (fun msg => role_value (role msg)) messages in
  let total_length :=
    fold_left (fun n msg => n + Z.of_nat (String.length (msg_content msg)))
              messages 0 in
  let text :=
    match messages with
    | [] => "Empty conversation block"%string
    | first :: _ =>
        let last := List.last messages first in
        (role_value (role first) ++ ": "
         ++ substring 0 100 (msg_content first) ++ "... → "
         ++ role_value (role last) ++ ": "
         ++ substring 0 100 (msg_content last) ++ "...")%string
    end in
  mkSummary text (len messages) total_length (distinct roles)
            (bd_relevance_score block_data)
            (Some (bd_created_at block_data)).

Section Operations.
Context `{Codec}.

(** The permanent eviction of [_store_cold]: the entry leaves the cold
    tier and the tier index, and is counted. *)
Definition evict_cold (oldest_key : string) (st : InMemoryStore)
  : InMemoryStore :=
  let st := set_cold (dict_pop (_cold_store st) oldest_key) st in
  let st := set_tier_index (dict_pop (_tier_index st) oldest_key) st in
  let x := _stats st in
  set_stats (mkStats (total_stored x) (total_retrieved x)
                     (total_compressed x) (total_evicted x + 1)
                     (bytes_saved x)) st.

(** The entry of [_store_cold]: last in the cold tier, indexed there. *)
Definition put_cold (key : string) (s : Summary) (st : InMemoryStore)
  : InMemoryStore :=
  let st := set_cold (od_put (_cold_store st) key s) st in
  set_tier_index (dict_set (_tier_index st) key COLD) st.

(** [InMemoryStore._store_cold]: [value] is a block, or a summary made
    already.  ([next(iter(...))] on an empty tier raises
    [StopIteration], which comes out of the coroutine as a
    [RuntimeError].) *)
Definition _store_cold (key : string) (value : ConversationBlock + Summary)
  : M InMemoryStore unit :=
  st <- get ;;
  (if len (_cold_store st) >=? cold_capacity st then
     match _cold_store st with
     | [] => raise RuntimeError
     | (oldest_key, _) :: _ => modify (evict_cold oldest_key)
     end
   else ret tt) ;;
  summary <- match value with
             | inl block =>
                 block_data <- lift_res (_serialize_block block) ;;
                 ret (_create_summary block_data)
             | inr summary => ret summary
             end ;;
  modify (put_cold key summary).

(** What [_store_warm] keeps of a block: its serialized text, compressed
    when it is longer than the threshold, and the metadata. *)
Definition warm_entry (block_data : BlockData) (created : datetime)
    (access_count : Z) (st : InMemoryStore) : Payload * WarmMeta :=
  let serialized := json_len block_data in
  let compress := serialized >? compression_threshold st in
  let compressed := if compress then Gz block_data else Raw block_data in
  let compressed_len := if compress then gzip_len block_data else serialized in
  (compressed,
   mkWarmMeta serialized compressed_len
     (if compressed_len =? 0 then 1
      else (inject_Z serialized / inject_Z compressed_len)%Q)
     created access_count).

(** The statistics of a compression. *)
Definition count_compressed (block_data : BlockData) (st : InMemoryStore)
  : InMemoryStore :=
  let serialized := json_len block_data in
  let x := _stats st in
  if serialized >? compression_threshold st then
    set_stats
      (mkStats (total_stored x) (total_retrieved x) (total_compressed x + 1)
               (total_evicted x)
               (bytes_saved x + (serialized - gzip_len block_data))) st
  else st.

(** The entry of [_store_warm]: last in the warm tier, indexed there. *)
Definition put_warm (key : string) (entry : Payload * WarmMeta)
    (st : InMemoryStore) : InMemoryStore :=
  let st := set_warm (od_put (_warm_store st) key entry) st in
  set_tier_index (dict_set (_tier_index st) key WARM) st.

(** [InMemoryStore._store_warm]. *)
Definition _store_warm (key : string) (value : ConversationBlock)
  : M InMemoryStore unit :=
  st <- get ;;
  (if len (_warm_store st) >=? warm_capacity st then
     match popitem_first (_warm_store st) with
     | None => raise KeyError
     | Some ((oldest_key, (compressed_data, _)), rest) =>
         modify (set_warm rest) ;;
         block_data <- lift_res (gunzip compressed_data) ;;
         _store_cold oldest_key (inr (_create_summary block_data))
     end
   else ret tt) ;;
  block_data <- lift_res (_serialize_block value) ;;
  modify (count_compressed block_data) ;;
  created <- lift_res (created_at value) ;;
  modify (fun st =>
            put_warm key (warm_entry block_data created (access_count value) st)
                     st).

(** The entry of [_store_hot]: last in the hot tier. *)
Definition put_hot (key : string) (value : ConversationBlock)
    (st : InMemoryStore) : InMemoryStore :=
  set_hot (od_put (_hot_store st) key value) st.

(** [InMemoryStore._store_hot]. *)
Definition _store_hot (key : string) (value : ConversationBlock)
  : M InMemoryStore unit :=
  st <- get ;;
  (if len (_hot_store st) >=? hot_capacity st then
     match popitem_first (_hot_store st) with
     | None => raise KeyError
     | Some ((oldest_key, oldest_value), rest) =>
         modify (set_hot rest) ;;
         _store_warm oldest_key oldest_value
     end
   else ret tt) ;;
  modify (put_hot key value).

(** [self._session_index[session_id]] of a [defaultdict(set)]. *)
Definition session_set (st : InMemoryStore) (session_id : string)
  : list string :=
  match dict_get (_session_index st) session_id with
  | Some s => s
  | None => []
  end.

(** The index updates of [store]. *)
Definition index_stored (key : string) (tier : StorageTier)
    (session_id : string) (st : InMemoryStore) : InMemoryStore :=
  let st :=
    set_session_index
      (dict_set (_session_index st) session_id
                (set_add (session_set st session_id) key)) st in
  let st := set_tier_index (dict_set (_tier_index st) key tier) st in
  let x := _stats st in
  set_stats (mkStats (total_stored x + 1) (total_retrieved x)
                     (total_compressed x) (total_evicted x)
                     (bytes_saved x)) st.

(** [InMemoryStore.store]; [session_id] is
    [metadata.get("session_id", "default")]. *)
Definition store (key : string) (value : ConversationBlock)
    (tier : StorageTier) (session_id : string) : M InMemoryStore unit :=
  match tier with
  | HOT => _store_hot key value
  | WARM => _store_warm key value
  | COLD => _store_cold key (inl value)
  end ;;
  modify (index_stored key tier session_id).

(** The block that [retrieve] builds from a cold summary, the clock read
    at [now]: its message needs the name [MessageRole]. *)
Definition summary_block (key : string) (s : Summary) (now : datetime)
  : Res ConversationBlock :=
  (MessageRole_name ;;
   ConversationBlock_init now key None None None None None
                          (sm_relevance_score s))%res.

(** [self._stats["total_retrieved"] += 1]. *)
Definition count_retrieved (st : InMemoryStore) : InMemoryStore :=
  let x := _stats st in
  set_stats (mkStats (total_stored x) (total_retrieved x + 1)
                     (total_compressed x) (total_evicted x)
                     (bytes_saved x)) st.

(** A hot block after an access at time [now]. *)
Definition accessed (block : ConversationBlock) (now : datetime)
  : ConversationBlock :=
  set_access_count (access_count block + 1) (set_last_accessed now block).

(** [self._warm_store.pop(key, None)]. *)
Definition pop_warm (key : string) (st : InMemoryStore) : InMemoryStore :=
  set_warm (dict_pop (_warm_store st) key) st.

(** [InMemoryStore.retrieve], at time [now].  (The text of a [bytes]
    value is longer than the value, so the warm branch always
    decompresses.) *)
Definition retrieve (key : string) (now : datetime)
  : M InMemoryStore (option ConversationBlock) :=
  modify count_retrieved ;;
  st <- get ;;
  match dict_get (_tier_index st) key with
  | None => ret None
  | Some HOT =>
      match dict_get (_hot_store st) key with
      | None => ret None
      | Some block =>
          modify (put_hot key (accessed block now)) ;;
          ret (Some (accessed block now))
      end
  | Some WARM =>
      match dict_get (_warm_store st) key with
      | None => ret None
      | Some (compressed, _) =>
          block_data <- lift_res (gunzip compressed) ;;
          block <- lift_res (_deserialize_block now block_data) ;;
          (if access_count block >? 5 then
             _store_hot key block ;;
             modify (pop_warm key)
           else ret tt) ;;
          ret (Some block)
      end
  | Some COLD =>
      match dict_get (_cold_store st) key with
      | None => ret None
      | Some s =>
          block <- lift_res (summary_block key s now) ;;
          ret (Some block)
      end
  end.

(** The removal of [delete]: the entry leaves the tier that the index
    names, the tier index and the session's set. *)
Definition removed (key : string) (tier : StorageTier) (session_id : string)
    (st : InMemoryStore) : InMemoryStore :=
  let st :=
    match tier with
    | HOT => set_hot (dict_pop (_hot_store st) key) st
    | WARM => set_warm (dict_pop (_warm_store st) key) st
    | COLD => set_cold (dict_pop (_cold_store st) key) st
    end in
  let st := set_tier_index (dict_pop (_tier_index st) key) st in
  set_session_index
    (dict_set (_session_index st) session_id
              (set_discard (session_set st session_id) key)) st.

(** [InMemoryStore.delete]; [session_id] is
    [metadata.get("session_id", "default")]. *)
Definition delete (key : string) (session_id : string)
  : M InMemoryStore bool :=
  st <- get ;;
  match dict_get (_tier_index st) key with
  | None => ret false
  | Some tier => modify (removed key tier session_id) ;; ret true
  end.

(** [InMemoryStore.list_keys] without a prefix: the keys of the tier
    index, of one session if a session is given. *)
Definition list_keys (session : option string) (st : InMemoryStore)
  : list string :=
  let all_keys := dict_keys (_tier_index st) in
  match session with
  | None => all_keys
  | Some session_id =>
      let session_keys := session_set st session_id in
      filter (set_mem session_keys) all_keys
  end.

(** A caller that stores blocks one after the other, each under its
    identifier, and stops at the first store that raises. *)
Fixpoint store_each (blocks : list ConversationBlock) (tier : StorageTier)
    (session_id : string) : M InMemoryStore unit :=
  match blocks with
  | [] => ret tt
  | block :: rest =>
      store (block_id block) block tier session_id ;;
      store_each rest tier session_id
  end.

(** A caller that retrieves a key [n] times; the results, and the state
    after the last retrieval. *)
Fixpoint retrieve_times (n : nat) (key : string) (now : datetime)
    (st : InMemoryStore)
  : list (Res (option ConversationBlock)) * InMemoryStore :=
  match n with
  | O => ([], st)
  | S n' =>
      let (r, st') := retrieve key now st in
      let (rs, st'') := retrieve_times n' key now st' in
      (r :: rs, st'')
  end.

(** The [tier_distribution] of [InMemoryStore.get_stats]. *)
Definition tier_distribution (st : InMemoryStore) : Z * Z * Z :=
  (len (_hot_store st), len (_warm_store st), len (_cold_store st)).

End Operations.

(** *** Properties of stores *)

(** Each tier holds at most its capacity. *)
Definition within_capacity (st : InMemoryStore) : Prop :=
  len (_hot_store st) <= hot_capacity st
  /\ len (_warm_store st) <= warm_capacity st
  /\ len (_cold_store st) <= cold_capacity st.

(** [k] is nowhere in the store. *)
Definition absent (k : string) (st : InMemoryStore) : Prop :=
  ~ In k (dict_keys (_hot_store st))
  /\ ~ In k (dict_keys (_warm_store st))
  /\ ~ In k (dict_keys (_cold_store st))
  /\ ~ In k (dict_keys (_tier_index st)).

(** Nothing is kept outside the hot tier, and the other tiers have room:
    the states that the operations reach from a new store whose
    capacities are positive. *)
Definition hot_only (st : InMemoryStore) : Prop :=
  _warm_store st = [] /\ _cold_store st = []
  /\ 0 < warm_capacity st /\ 0 < cold_capacity st.

(** [k] is in no tier structure. *)
Definition in_no_tier (k : string) (st : InMemoryStore) : Prop :=
  dict_get (_hot_store st) k = None
  /\ dict_get (_warm_store st) k = None
  /\ dict_get (_cold_store st) k = None.

(** A relevance score that is undefined or in [[0,1]]. *)
Definition in_range (score : option Q) : Prop :=
  match score with
  | None => True
  | Some q => (0 <= q)%Q /\ (q <= 1)%Q
  end.



(** The hot entry of a block. *)
Definition entry (block : ConversationBlock) : string * ConversationBlock :=
  (block_id block, block).

End Store.

(** ** The storage manager ([infrastructure/storage/manager.py]) *)

Module Manager.
Import Interfaces Entities.
Open Scope py_scope.

Record MigrationStats : Type := mkMigrationStats {
  promotions : Z;
  demotions : Z;
  evictions : Z
}.

Record MemoryStorageManager : Type := mkManager {
  relevance_threshold : Q;
  promotion_threshold : Q;
  _store : Store.InMemoryStore;
  _tier_assignments : dict StorageTier;
  _migration_stats : MigrationStats
}.

(** [MemoryStorageManager.__init__]. *)
Definition MemoryStorageManager_init
    (hot_capacity warm_capacity cold_capacity : Z)
    (relevance_threshold promotion_threshold : Q) : MemoryStorageManager :=
  mkManager relevance_threshold promotion_threshold
            (Store.InMemoryStore_init hot_capacity warm_capacity cold_capacity 1024)
            [] (mkMigrationStats 0 0 0).

Definition default_manager : MemoryStorageManager :=
  MemoryStorageManager_init 100 500 2000 (4#10) (7#10).

Definition set_store (s : Store.InMemoryStore) (m : MemoryStorageManager) :=
  mkManager (relevance_threshold m) (promotion_threshold m) s
            (_tier_assignments m) (_migration_stats m).

Definition set_tier_assignments (x : dict StorageTier)
    (m : MemoryStorageManager) :=
  mkManager (relevance_threshold m) (promotion_threshold m) (_store m)
            x (_migration_stats m).

Definition set_migration_stats (x : MigrationStats)
    (m : MemoryStorageManager) :=
  mkManager (relevance_threshold m) (promotion_threshold m) (_store m)
            (_tier_assignments m) x.

(** A call on [self._store]. *)
Definition on_store {A : Type} (c : M Store.InMemoryStore A)
  : M MemoryStorageManager A :=
  fun m =>
    match c (_store m) with
    | (r, s) => (r, set_store s m)
    end.

(** [session_id or "default"]. *)
Definition session_or_default (session_id : option string) : string :=
  match session_id with
  | None => "default"
  | Some s => if String.eqb s EmptyString then "default" else s
  end.

(** [{"session_id": session_id} if session_id else None]. *)
Definition session_filter (session_id : option string) : option string :=
  match session_id with
  | None => None
  | Some s => if String.eqb s EmptyString then None else Some s
  end.

(** [a.value < b.value] on tiers: the values are the strings ["hot"],
    ["warm"] and ["cold"], compared as strings. *)
Definition tier_value_ltb (a b : StorageTier) : bool :=
  match a, b with
  | COLD, HOT | COLD, WARM | HOT, WARM => true
  | _, _ => false
  end.

Section Operations.
Context `{Store.Codec}.

(** [block.relevance_score > threshold]: an undefined score cannot be
    compared with a number. *)
Definition score_gt {S : Type} (score : option Q) (threshold : Q) : M S bool :=
  match score with
  | None => raise TypeError
  | Some x => ret (Qgtb x threshold)
  end.

(** [MemoryStorageManager._determine_tier]. *)
Definition _determine_tier (block : ConversationBlock)
  : M MemoryStorageManager StorageTier :=
  self <- get ;;
  hot <- score_gt (relevance_score block) (promotion_threshold self) ;;
  if hot then ret HOT
  else
    warm <- score_gt (relevance_score block) (relevance_threshold self) ;;
    if warm then ret WARM else ret COLD.

(** [self._tier_assignments[block_id] = tier]. *)
Definition assigned (block_id : string) (tier : StorageTier)
    (self : MemoryStorageManager) : MemoryStorageManager :=
  set_tier_assignments (dict_set (_tier_assignments self) block_id tier) self.

(** [MemoryStorageManager.store_block]. *)
Definition store_block (block : ConversationBlock)
    (tier : option StorageTier) (session_id : option string)
  : M MemoryStorageManager unit :=
  tier <- match tier with
          | Some t => ret t
          | None => _determine_tier block
          end ;;
  on_store (Store.store (block_id block) block tier
                        (session_or_default session_id)) ;;
  modify (assigned (block_id block) tier).

(** The bookkeeping of a successful [delete_block]: the assignment is
    dropped and an eviction is counted. *)
Definition forgotten (block_id : string) (self : MemoryStorageManager)
  : MemoryStorageManager :=
  let self :=
    set_tier_assignments (dict_pop (_tier_assignments self) block_id) self in
  let x := _migration_stats self in
  set_migration_stats
    (mkMigrationStats (promotions x) (demotions x) (evictions x + 1)) self.

(** [MemoryStorageManager.delete_block]. *)
Definition delete_block (block_id : string) (session_id : option string)
  : M MemoryStorageManager bool :=
  success <- on_store (Store.delete block_id (session_or_default session_id)) ;;
  (if success : bool then modify (forgotten block_id) else ret tt) ;;
  ret success.

(** [MemoryStorageManager.list_blocks]. *)
Definition list_blocks (tier : option StorageTier)
    (session_id : option string) (self : MemoryStorageManager)
  : list string :=
  let all_keys := Store.list_keys (session_filter session_id) (_store self) in
  match tier with
  | Some t =>
      filter (fun key =>
                match dict_get (_tier_assignments self) key with
                | Some t' => StorageTier_eqb t' t
                | None => false
                end) all_keys
  | None => all_keys
  end.

(** The statistics of [migrate_tier]: the tier is compared with the
    assignment that [store_block] has just made. *)
Definition count_migration (block_id : string) (to_tier : StorageTier)
    (self : MemoryStorageManager) : MemoryStorageManager :=
  match dict_get (_tier_assignments self) block_id with
  | None => self
  | Some current_tier =>
      let x := _migration_stats self in
      set_migration_stats
        (if tier_value_ltb to_tier current_tier
         then mkMigrationStats (promotions x + 1) (demotions x) (evictions x)
         else mkMigrationStats (promotions x) (demotions x + 1) (evictions x))
        self
  end.

(** [MemoryStorageManager.migrate_tier], given the [retrieve_block] it
    calls. *)
Definition migrate_tier_with
    (retrieve_block : string -> option string -> datetime ->
                      M MemoryStorageManager (option ConversationBlock))
    (block_id : string) (to_tier : StorageTier)
    (session_id : option string) (now : datetime)
  : M MemoryStorageManager bool :=
  block <- retrieve_block block_id session_id now ;;
  match block with
  | None => ret false
  | Some block =>
      delete_block block_id session_id ;;
      store_block block (Some to_tier) session_id ;;
      modify (count_migration block_id to_tier) ;;
      ret true
  end.

(** [MemoryStorageManager.retrieve_block], with [_promote_block] in
    line.  [retrieve_block] and [migrate_tier] call each other;
    [depth] is the number of nested calls of [retrieve_block] that the
    interpreter's recursion limit still allows, and the call that
    exceeds it raises [RecursionError]. *)
Fixpoint retrieve_block (depth : nat) (block_id : string)
    (session_id : option string) (now : datetime)
  : M MemoryStorageManager (option ConversationBlock) :=
  match depth with
  | O => raise RecursionError
  | S depth' =>
      block <- on_store (Store.retrieve block_id now) ;;
      match block with
      | None => ret None
      | Some b =>
          self <- get ;;
          match dict_get (_tier_assignments self) block_id with
          | None => ret tt
          | Some HOT => ret tt
          | Some current_tier =>
              promote <-
                (if access_count b >? 5 then ret true
                 else score_gt (relevance_score b) (promotion_threshold self)) ;;
              if promote : bool then
                let to_tier :=
                  match current_tier with COLD => WARM | _ => HOT end in
                migrate_tier_with (retrieve_block depth')
                                  (Entities.block_id b) to_tier session_id now ;;
                ret tt
              else ret tt
          end ;;
          ret (Some b)
      end
  end.

(** [MemoryStorageManager.migrate_tier]. *)
Definition migrate_tier (depth : nat) (block_id : string)
    (to_tier : StorageTier) (session_id : option string) (now : datetime)
  : M MemoryStorageManager bool :=
  migrate_tier_with (retrieve_block depth) block_id to_tier session_id now.

(** A caller that stores blocks one after the other in a tier, and
    stops at the first store that raises. *)
Fixpoint store_block_each (blocks : list ConversationBlock)
    (tier : StorageTier) (session_id : option string)
  : M MemoryStorageManager unit :=
  match blocks with
  | [] => ret tt
  | block :: rest =>
      store_block block (Some tier) session_id ;;
      store_block_each rest tier session_id
  end.

End Operations.

(** The tier that [_determine_tier] gives to a score. *)
Definition tier_for (score : Q) (m : MemoryStorageManager)
  : StorageTier :=
  if Qgtb score (promotion_threshold m) then HOT
  else if Qgtb score (relevance_threshold m) then WARM
  else COLD.

End Manager.

(** ** The self-correction loop ([core/correction/self_corrector.py]) *)

Module Correction.
Import Interfaces Entities Coroutine.

(** An entry of the correction history: a removal, or an improvement. *)
Inductive Correction : Type :=
| Removal (block_id : string) (reason : Explanation) (timestamp : datetime)
| Improvement (original_block_id new_block_id : string)
              (reason : Explanation) (timestamp : datetime).

(** A corrector with the objects that its methods work on: its own
    attributes, among them the storage manager, and the evaluation
    service of the program ([relevance_service], a global of
    [core/evaluation/service.py]). *)
Record SelfCorrector : Type := mkCorrector {
  storage_manager : Manager.MemoryStorageManager;
  correction_threshold : Q;
  review_threshold : Q;
  max_corrections_per_cycle : Z;
  enable_auto_correction : bool;
  _correction_history : list Correction;
  _active : bool;
  relevance_service : Service.RelevanceEvaluationService
}.

(** [SelfCorrector.__init__], in a program whose evaluation service is
    [relevance_service]. *)
Definition SelfCorrector_init (storage_manager : Manager.MemoryStorageManager)
    (correction_threshold review_threshold : Q)
    (max_corrections_per_cycle : Z) (enable_auto_correction : bool)
    (relevance_service : Service.RelevanceEvaluationService)
  : SelfCorrector :=
  mkCorrector storage_manager correction_threshold review_threshold
              max_corrections_per_cycle enable_auto_correction [] false
              relevance_service.

Definition default_corrector (storage_manager : Manager.MemoryStorageManager)
  : SelfCorrector :=
  SelfCorrector_init storage_manager (4#10) (6#10) 3 true
                     Service.RelevanceEvaluationService_init.

Definition set_storage_manager (m : Manager.MemoryStorageManager)
    (self : SelfCorrector) :=
  mkCorrector m (correction_threshold self) (review_threshold self)
              (max_corrections_per_cycle self) (enable_auto_correction self)
              (_correction_history self) (_active self)
              (relevance_service self).

Definition set_correction_history (h : list Correction) (self : SelfCorrector) :=
  mkCorrector (storage_manager self) (correction_threshold self)
              (review_threshold self) (max_corrections_per_cycle self)
              (enable_auto_correction self) h (_active self)
              (relevance_service self).

Definition set_active (a : bool) (self : SelfCorrector) :=
  mkCorrector (storage_manager self) (correction_threshold self)
              (review_threshold self) (max_corrections_per_cycle self)
              (enable_auto_correction self) (_correction_history self) a
              (relevance_service self).

Definition set_relevance_service (s : Service.RelevanceEvaluationService)
    (self : SelfCorrector) :=
  mkCorrector (storage_manager self) (correction_threshold self)
              (review_threshold self) (max_corrections_per_cycle self)
              (enable_auto_correction self) (_correction_history self)
              (_active self) s.

(** A call on [self.storage_manager]. *)
Definition on_manager {A : Type} (c : M Manager.MemoryStorageManager A)
  : M SelfCorrector A :=
  fun self =>
    match c (storage_manager self) with
    | (r, m) => (r, set_storage_manager m self)
    end.

(** A call on [relevance_service]. *)
Definition on_service {A : Type}
    (c : Coro Service.RelevanceEvaluationService A) : Coro SelfCorrector A :=
  co_zoom relevance_service set_relevance_service c.

(** The block that a correction acted on. *)
Definition subject (c : Correction) : string :=
  match c with
  | Removal block_id _ _ => block_id
  | Improvement original_block_id _ _ _ => original_block_id
  end.

Section Operations.
Context `{Store.Codec} `{LLM.Numerics}.
Variable settings : Service.Settings.

(** The number of nested calls of [retrieve_block] that the recursion
    limit allows. *)
Variable depth : nat.

(** The blocks found when the identifiers are retrieved in turn. *)
Fixpoint retrieve_all (ids : list string) (session_id : string)
    (now : datetime) : M SelfCorrector (list ConversationBlock) :=
  match ids with
  | [] => ret []
  | block_id :: ids' =>
      (block <- on_manager
                  (Manager.retrieve_block depth block_id (Some session_id) now) ;;
       blocks <- retrieve_all ids' session_id now ;;
       ret match block with
           | Some b => b :: blocks
           | None => blocks
           end)%py
  end.

(** [SelfCorrector.analyze_conversation], the clock read at [now]. *)
Definition analyze_conversation (session_id : string) (window_size : Z)
    (now : datetime)
  : Coro SelfCorrector (list (ConversationBlock * RelevanceScore)) :=
  (self <- co_lift get ;;
   let block_ids :=
     Manager.list_blocks None (Some session_id) (storage_manager self) in
   let recent_ids := recent window_size block_ids in
   blocks <- co_lift (retrieve_all recent_ids session_id now) ;;
   match blocks with
   | [] => co_ret []
   | _ =>
       evaluated <-
         on_service (Service.evaluate_conversation settings now blocks None) ;;
       co_ret (filter (fun bs => Qltb (overall_score (snd bs))
                                      (review_threshold self))
                      evaluated)
   end)%coro.

(** The guidance of [_create_improvement_prompt] for a weak factor. *)
Definition guidance (weak_factor : string) : string :=
  if String.eqb weak_factor "semantic_alignment" then
    "Make the response more relevant to the conversation topic and context."
  else if String.eqb weak_factor "temporal_relevance" then
    "Update any time-sensitive information and remove outdated references."
  else if String.eqb weak_factor "goal_contribution" then
    "Focus on addressing the user's actual question or goal."
  else if String.eqb weak_factor "information_quality" then
    "Provide more specific, detailed, and useful information."
  else if String.eqb weak_factor "factual_consistency" then
    "Correct any factual errors or inconsistencies."
  else "Improve overall quality".

(** [SelfCorrector._create_improvement_prompt]: the parts of the prompt
    text. *)
Definition _create_improvement_prompt (block : ConversationBlock)
    (context : list ConversationBlock) (weak_factor : string)
    (explanation : Explanation) : Prompt :=
  let block_content := (upper (source block) ++ ": " ++ content block)%string in
  let context_summary :=
    match context with
    | [] => "No context available"%string
    | _ =>
        String.concat (String (Ascii.ascii_of_nat 10) EmptyString)
          (map (fun ctx => ("- " ++ substring 0 100 (content ctx) ++ "...")%string)
               (last_n 3 context))
    end in
  ImprovementPrompt block_content context_summary explanation
                    (underscores_to_spaces weak_factor) (guidance weak_factor).

(** The replacement block that [_improve_block] builds from the
    provider's answer, the clock read at [now]; the [metadata] keyword
    of the call names no field of the block. *)
Definition improved_block (block : ConversationBlock) (score : RelevanceScore)
    (response_content : string) (now : datetime) : Res ConversationBlock :=
  ConversationBlock_init now
    (block_id block ++ "_improved")%string
    (Some (sequence_number block))
    (Some (session_id block))
    (Some response_content)
    (Some (source block))
    (Some (message_id block ++ "_improved")%string)
    (Some (overall_score score * (3#2))%Q).

(** The context blocks of [_improve_block]: the neighbours of the block
    in the session's list, retrieved in turn. *)
Definition gather_context (block : ConversationBlock) (session_id : string)
    (now : datetime) : M SelfCorrector (list ConversationBlock) :=
  (self <- get ;;
   let block_ids :=
     Manager.list_blocks None (Some session_id) (storage_manager self) in
   match index_of (block_id block) block_ids with
   | None => ret []
   | Some block_index =>
       retrieve_all (neighbours block_ids block_index) session_id now
   end)%py.

Definition improver_system_message : string :=
  "You are a conversation improver. Improve the given response to address the identified issues while maintaining the original intent.".

(** [SelfCorrector._improve_block], the clock read at [now]. *)
Definition _improve_block (block : ConversationBlock) (score : RelevanceScore)
    (session_id : string) (now : datetime)
  : Coro SelfCorrector (option ConversationBlock) :=
  (context_blocks <- co_lift (gather_context block session_id now) ;;
   let improvement_prompt :=
     _create_improvement_prompt block context_blocks
                                (fst (Service.weakest_factor score))
                                (explanation score) in
   co_try
     (response <- co_await (LLMComplete improver_system_message
                                         improvement_prompt (7#10) 500) ;;
      improved_block <- co_res (improved_block block score response now) ;;
      co_ret (Some improved_block))
     (fun _ => co_ret None))%coro.

(** The loop of [SelfCorrector.correct_conversation], the clock read at
    [now]. *)
Fixpoint correct_each
    (problematic_blocks : list (ConversationBlock * RelevanceScore))
    (session_id : string) (now : datetime)
    (corrections : list Correction) (correction_count : Z)
  : Coro SelfCorrector (list Correction) :=
  match problematic_blocks with
  | [] => co_ret corrections
  | (block, score) :: rest =>
      (self <- co_lift get ;;
       if correction_count >=? max_corrections_per_cycle self then
         co_ret corrections
       else
         removes <- co_res (decision_is (decision score) "REMOVE") ;;
         if removes : bool then
           success <- co_lift (on_manager
                        (Manager.delete_block (block_id block)
                                              (Some session_id))) ;;
           if success : bool then
             correct_each rest session_id now
               (corrections ++ [Removal (block_id block) (explanation score) now])
               (correction_count + 1)
           else correct_each rest session_id now corrections correction_count
         else
           reviews <- co_res (decision_is (decision score) "REVIEW") ;;
           if (reviews : bool) && enable_auto_correction self then
             improved <- _improve_block block score session_id now ;;
             match improved with
             | Some improved_block =>
                 co_lift (on_manager
                   (Manager.delete_block (block_id block) (Some session_id))) ;;
                 co_lift (on_manager
                   (Manager.store_block improved_block None (Some session_id))) ;;
                 correct_each rest session_id now
                   (corrections ++
                    [Improvement (block_id block) (block_id improved_block)
                                 (explanation score) now])
                   (correction_count + 1)
             | None =>
                 correct_each rest session_id now corrections correction_count
             end
           else correct_each rest session_id now corrections correction_count)%coro
  end.

(** The history after a call that made [corrections]: they are added,
    and the last 100 entries are kept. *)
Definition recorded (corrections : list Correction) (self : SelfCorrector)
  : SelfCorrector :=
  match corrections with
  | [] => self
  | _ =>
      let history := (_correction_history self ++ corrections)%list in
      set_correction_history
        (if len history >? 100 then last_n 100 history else history) self
  end.

(** [SelfCorrector.correct_conversation]. *)
Definition correct_conversation (session_id : string)
    (problematic_blocks : list (ConversationBlock * RelevanceScore))
    (now : datetime) : Coro SelfCorrector (list Correction) :=
  (corrections <- correct_each problematic_blocks session_id now [] 0 ;;
   co_lift (modify (recorded corrections)) ;;
   co_ret corrections)%coro.


(** The sessions of the stored blocks: the part of an identifier before
    its first underscore, for the identifiers that have one.  (The code
    collects them in a [set], which Python iterates in an order of its
    own; the list has them in the order of [distinct].) *)
Definition sessions_of (all_blocks : list string) : list string :=
  distinct (map before_underscore (filter has_underscore all_blocks)).

(** The [for session_id in sessions] loop of [_correction_loop]. *)
Fixpoint sweep_sessions (sessions : list string) (now : datetime)
  : Coro SelfCorrector unit :=
  match sessions with
  | [] => co_ret tt
  | session_id :: rest =>
      (self <- co_lift get ;;
       if negb (_active self) then co_ret tt
       else
         problematic <- analyze_conversation session_id 10 now ;;
         match problematic with
         | [] => co_ret tt
         | _ => correct_conversation session_id problematic now ;; co_ret tt
         end ;;
         sweep_sessions rest now)%coro
  end.

(** One turn of the [while] loop of [_correction_loop]: the body of the
    [try] and its [except Exception] clause. *)
Definition correction_cycle (now : datetime) : Coro SelfCorrector unit :=
  co_try
    (co_await (Sleep 60) ;;
     self <- co_lift get ;;
     let all_blocks := Manager.list_blocks None None (storage_manager self) in
     sweep_sessions (sessions_of all_blocks) now)%coro
    (fun _ => co_await (Sleep 5)).

(** [SelfCorrector._correction_loop], for at most [turns] turns of the
    [while] loop. *)
Fixpoint _correction_loop (turns : nat) (now : datetime)
  : Coro SelfCorrector unit :=
  match turns with
  | O => co_ret tt
  | S turns' =>
      (self <- co_lift get ;;
       if _active self then
         correction_cycle now ;; _correction_loop turns' now
       else co_ret tt)%coro
  end.

(** [SelfCorrector.start]: the corrector is active and, when
    auto-correction is enabled, the background task is created and runs
    to its first suspension. *)
Definition start (turns : nat) (now : datetime) (self : SelfCorrector)
  : SelfCorrector * option (Step SelfCorrector unit) :=
  let self := set_active true self in
  if enable_auto_correction self
  then (self, Some (_correction_loop turns now self))
  else (self, None).

(** [SelfCorrector.stop], called while the task is in the state [task]:
    the corrector is made inactive, the task is cancelled and awaited,
    and a [CancelledError] that comes out of it is dropped.  [env]
    answers the requests that the task would still make. *)
Definition stop (env : Env) (task : Step SelfCorrector unit)
  : Res unit * SelfCorrector :=
  let task := with_state (set_active false) task in
  match run env (cancel task) with
  | (Raise CancelledError, self) => (Ok tt, self)
  | (r, self) => (r, self)
  end.

(** [SelfCorrector.get_correction_history]. *)
Definition get_correction_history (limit : Z) (self : SelfCorrector)
  : list Correction :=
  suffix limit (_correction_history self).

End Operations.

(** *** Properties of correctors *)


(** The store of a corrector. *)
Definition store_of (self : SelfCorrector) : Store.InMemoryStore :=
  Manager._store (storage_manager self).

(** The evaluator of the service, when one is set, ends at once when it
    is cancelled, wherever it waits. *)
Definition evaluator_abortable (service : Service.RelevanceEvaluationService)
  : Prop :=
  forall evaluator, Service._evaluator service = Some evaluator ->
  forall now block context metadata,
    Abortable (fun _ => True) (evaluator now block context metadata tt).

(** The corrector works in a program whose evaluator cancellation
    ends. *)
Definition cancellable (self : SelfCorrector) : Prop :=
  evaluator_abortable (relevance_service self).

End Correction.

(** ** Sample objects *)

Module Samples.
Import Interfaces Entities Coroutine Evaluation.

(** A codec under which every serialized block has 200 bytes, and 120
    when it is compressed. *)
Definition short_texts : Store.Codec :=
  Store.mkCodec (fun _ => 200) (fun _ => 120).

(** Numerics under which all texts are half similar and every answer of
    the provider reads as 0.5. *)
Definition half_numerics : LLM.Numerics :=
  LLM.mkNumerics (fun _ _ => 1#2) (fun _ => Ok (1#2)).

(** The settings of a program that uses the default provider. *)
Definition local_settings : Service.Settings := Service.mkSettings "ollama".

(** A block of a session as the agent builds one for an answer: numbered
    [n] in the session, created at time 0, with a score. *)
Definition sample_block (session : string) (n : nat) (score : Q)
  : ConversationBlock :=
  let id := (session ++ "_"
             ++ DecimalString.NilZero.string_of_uint (Nat.to_uint n))%string in
  mkBlock id (Z.of_nat n) 0 session ("content of " ++ id)%string "text" "agent"
          ("m" ++ id)%string (Some score) HOT 0 0 1.

(** The blocks numbered [0] to [n - 1] of session ["s"], scored 0.9 as
    the agent scores its answers. *)
Definition sample_blocks (n : nat) : list ConversationBlock :=
  map (fun i => sample_block "s" i (9#10)) (seq 0 n).

(** A block that has never been accessed. *)
Definition unread_block : ConversationBlock := sample_block "s" 0 (9#10).

(** A block with a middling score, and one with no score. *)
Definition middling_block : ConversationBlock := sample_block "s" 1 (5#10).

Definition unscored_block : ConversationBlock :=
  mkBlock "s_2" 2 0 "s" "content of s_2" "text" "agent" "ms_2" None HOT 0 0 1.

(** A block with a low score that was made at time 0 and never
    accessed. *)
Definition idle_block : ConversationBlock := sample_block "s" 3 (2#10).

(** A block that has been accessed six times, the last time at 50. *)
Definition busy_block : ConversationBlock :=
  mkBlock "s_7" 7 0 "s" "content of s_7" "text" "agent" "ms_7" (Some (5#10))
          HOT 6 50 1.

(** Factor values, all the same, and a score built from them with a
    member of [Decision]. *)
Definition even_factors (v : Q) : RelevanceFactors := mkFactors v v v v v.

Definition even_score (overall : Q) (decision : Decision) : RelevanceScore :=
  mkScore overall (even_factors overall) decision (ExplainText "as given").

(** An evaluator of the program's user that gives every block the same
    score without waiting, and one that asks the provider first. *)
Definition steady : IRelevanceEvaluator :=
  fun _ _ _ _ => co_ret (even_score (5#10) REEVALUATE).

Definition asking : IRelevanceEvaluator :=
  fun _ block _ _ =>
    (answer <- co_await (LLMComplete "Rate the message."
                           (AlignmentPrompt EmptyString (content block)) 0 10) ;;
     co_ret (mkScore (5#10) (even_factors (5#10)) REEVALUATE
                     (ExplainText answer)))%coro.

(** A provider that answers every request, and one that fails on every
    request. *)
Definition answering : Env :=
  fun X req =>
    match req in Request X return Res X with
    | LLMComplete _ _ _ _ => Ok "a better answer"%string
    | Sleep _ => Ok tt
    end.


(** The default manager holding [unread_block] in its hot tier, and a
    default corrector on it. *)
Definition small_manager : Manager.MemoryStorageManager :=
  snd (@Manager.store_block short_texts unread_block (Some HOT)
                            (Some "s"%string) Manager.default_manager).

Definition small_corrector : Correction.SelfCorrector :=
  Correction.default_corrector small_manager.

(** The default manager holding ten blocks in its hot tier, a default
    corrector on it, and the ten blocks with a score of 0.1 that decides
    to discard. *)
Definition ten_manager : Manager.MemoryStorageManager :=
  snd (@Manager.store_block_each short_texts (sample_blocks 10) HOT
                                 (Some "s"%string) Manager.default_manager).

Definition ten_corrector : Correction.SelfCorrector :=
  Correction.default_corrector ten_manager.

Definition ten_discards : list (ConversationBlock * RelevanceScore) :=
  map (fun b => (b, even_score (1#10) DISCARD)) (sample_blocks 10).

(** A service whose evaluator the user has set. *)
Definition service_with (evaluator : IRelevanceEvaluator)
  : Service.RelevanceEvaluationService :=
  snd (Service.set_evaluator evaluator Service.RelevanceEvaluationService_init).

(** [small_corrector] in a program whose evaluator asks the provider. *)
Definition asking_corrector : Correction.SelfCorrector :=
  Correction.set_relevance_service (service_with asking) small_corrector.

(** The background task of [small_corrector], for one turn of its loop,
    as [start] creates it at time 100: suspended in the sleep that
    begins the cycle. *)
Definition sleeping_task : Step Correction.SelfCorrector unit :=
  match @Correction.start short_texts half_numerics local_settings 100 1 100
                          small_corrector with
  | (_, Some task) => task
  | (self, None) => Done (Ok tt) self
  end.

(** The background task of [asking_corrector], resumed at the end of
    that sleep: suspended in the request of the evaluator. *)
Definition asking_task : Step Correction.SelfCorrector unit :=
  match @Correction.start short_texts half_numerics local_settings 100 1 100
                          asking_corrector with
  | (_, Some task) => wake task
  | (self, None) => Done (Ok tt) self
  end.

End Samples.

(** ** Comparisons *)

Lemma Qltb_lt x y : Qltb x y = true <-> (x < y)%Q.
Proof.
  unfold Qltb. rewrite negb_true_iff, <- not_true_iff_false, Qle_bool_iff.
  split; [apply Qnot_le_lt | apply Qlt_not_le].
Qed.

Lemma Qltb_ge x y : Qltb x y = false <-> (y <= x)%Q.
Proof.
  unfold Qltb. rewrite negb_false_iff. apply Qle_bool_iff.
Qed.

Lemma Qgeb_ge x y : Qgeb x y = true <-> (y <= x)%Q.
Proof. apply Qle_bool_iff. Qed.

Lemma Qgeb_lt x y : Qgeb x y = false <-> (x < y)%Q.
Proof.
  unfold Qgeb. rewrite <- not_true_iff_false, Qle_bool_iff.
  split; [apply Qnot_le_lt | apply Qlt_not_le].
Qed.

Lemma Qgtb_gt x y : Qgtb x y = true <-> (y < x)%Q.
Proof.
  unfold Qgtb. rewrite negb_true_iff, <- not_true_iff_false, Qle_bool_iff.
  split; [apply Qnot_le_lt | apply Qlt_not_le].
Qed.

Lemma Qgtb_le x y : Qgtb x y = false <-> (x <= y)%Q.
Proof.
  unfold Qgtb. rewrite negb_false_iff. apply Qle_bool_iff.
Qed.


(** ** Dictionaries *)

Section DictFacts.
Context {V : Type}.
Implicit Types (d : dict V) (k : string) (v : V).

Lemma dict_get_None d k : dict_get d k = None <-> ~ In k (dict_keys d).
Proof.
  induction d as [|[k' v'] d IH]; cbn; [tauto|].
  destruct (String.eqb_spec k' k) as [->|Hne].
  - split; [discriminate | intros Hn; exfalso; apply Hn; now left].
  - rewrite IH. tauto.
Qed.

Lemma dict_get_In d k v : dict_get d k = Some v -> In k (dict_keys d).
Proof.
  intros Hg. destruct (in_dec string_dec k (dict_keys d)) as [Hi|Hn];
    [exact Hi|].
  apply dict_get_None in Hn. congruence.
Qed.

Lemma dict_get_set_same d k v : dict_get (dict_set d k v) k = Some v.
Proof.
  induction d as [|[k' v'] d IH]; cbn.
  - now rewrite String.eqb_refl.
  - destruct (String.eqb_spec k' k) as [->|Hne]; cbn.
    + now rewrite String.eqb_refl.
    + destruct (String.eqb_spec k' k); [contradiction | exact IH].
Qed.

Lemma dict_get_set_other d k k' v :
  k' <> k -> dict_get (dict_set d k v) k' = dict_get d k'.
Proof.
  intros Hne. induction d as [|[k0 v0] d IH]; cbn.
  - destruct (String.eqb_spec k k'); [congruence | reflexivity].
  - destruct (String.eqb_spec k0 k) as [->|Hk]; cbn.
    + destruct (String.eqb_spec k k'); [congruence | reflexivity].
    + destruct (String.eqb_spec k0 k'); [reflexivity | exact IH].
Qed.

Lemma dict_get_pop_same d k : dict_get (dict_pop d k) k = None.
Proof.
  induction d as [|[k' v'] d IH]; cbn; [reflexivity|].
  destruct (String.eqb_spec k' k) as [->|Hne]; [exact IH|].
  cbn. destruct (String.eqb_spec k' k); [contradiction | exact IH].
Qed.

Lemma dict_get_pop_other d k k' :
  k' <> k -> dict_get (dict_pop d k) k' = dict_get d k'.
Proof.
  intros Hne. induction d as [|[k0 v0] d IH]; cbn; [reflexivity|].
  destruct (String.eqb_spec k0 k) as [->|Hk]; cbn.
  - destruct (String.eqb_spec k k'); [congruence | exact IH].
  - destruct (String.eqb_spec k0 k'); [reflexivity | exact IH].
Qed.

Lemma dict_pop_absent d k : ~ In k (dict_keys d) -> dict_pop d k = d.
Proof.
  induction d as [|[k' v'] d IH]; cbn; [reflexivity|].
  intros Hn. destruct (String.eqb_spec k' k) as [->|Hne].
  - exfalso. apply Hn. now left.
  - f_equal. apply IH. tauto.
Qed.

Lemma dict_keys_pop d k k' :
  In k' (dict_keys (dict_pop d k)) <-> k' <> k /\ In k' (dict_keys d).
Proof.
  induction d as [|[k0 v0] d IH]; cbn; [tauto|].
  destruct (String.eqb_spec k0 k) as [->|Hne]; cbn.
  - rewrite IH. split; [tauto|]. intros [Hk [He|Hi]]; [congruence | tauto].
  - rewrite IH. split.
    + intros [->|[Hk Hi]]; [split; [exact Hne | now left] | tauto].
    + tauto.
Qed.

Lemma dict_keys_set d k v k' :
  In k' (dict_keys (dict_set d k v)) <-> k' = k \/ In k' (dict_keys d).
Proof.
  induction d as [|[k0 v0] d IH]; cbn.
  - intuition congruence.
  - destruct (String.eqb_spec k0 k) as [->|Hne]; cbn.
    + intuition congruence.
    + rewrite IH. intuition congruence.
Qed.

Lemma dict_keys_app (d1 d2 : dict V) :
  dict_keys (d1 ++ d2) = dict_keys d1 ++ dict_keys d2.
Proof. apply map_app. Qed.

Lemma dict_keys_od_put d k v k' :
  In k' (dict_keys (od_put d k v)) <-> k' = k \/ In k' (dict_keys d).
Proof.
  unfold od_put. rewrite dict_keys_app, in_app_iff, dict_keys_pop. cbn.
  destruct (string_dec k' k) as [->|Hne]; intuition congruence.
Qed.

Lemma dict_get_app d1 d2 k :
  dict_get (d1 ++ d2) k =
    match dict_get d1 k with Some v => Some v | None => dict_get d2 k end.
Proof.
  induction d1 as [|[k0 v0] d1 IH]; cbn; [reflexivity|].
  destruct (String.eqb k0 k); [reflexivity | exact IH].
Qed.

Lemma dict_get_od_put_same d k v : dict_get (od_put d k v) k = Some v.
Proof.
  unfold od_put. rewrite dict_get_app, dict_get_pop_same. cbn.
  now rewrite String.eqb_refl.
Qed.

Lemma dict_get_od_put_other d k k' v :
  k' <> k -> dict_get (od_put d k v) k' = dict_get d k'.
Proof.
  intros Hne. unfold od_put.
  rewrite dict_get_app, dict_get_pop_other by exact Hne. cbn.
  destruct (String.eqb_spec k k'); [congruence|].
  now destruct (dict_get d k').
Qed.

Lemma length_dict_pop d k : (List.length (dict_pop d k) <= List.length d)%nat.
Proof.
  induction d as [|[k' v'] d IH]; cbn; [lia|].
  destruct (String.eqb k' k); cbn; lia.
Qed.

Lemma length_dict_pop_In d k :
  In k (dict_keys d) -> (List.length (dict_pop d k) < List.length d)%nat.
Proof.
  induction d as [|[k' v'] d IH]; cbn; [tauto|].
  intros Hi. destruct (String.eqb_spec k' k) as [->|Hne].
  - pose proof (length_dict_pop d k). lia.
  - cbn. destruct Hi as [He|Hi]; [congruence|]. specialize (IH Hi). lia.
Qed.

Lemma len_od_put d k v : len (od_put d k v) <= len d + 1.
Proof.
  unfold len, od_put. rewrite length_app. cbn.
  pose proof (length_dict_pop d k). lia.
Qed.

Lemma len_od_put_In d k v : In k (dict_keys d) -> len (od_put d k v) <= len d.
Proof.
  intros Hi. unfold len, od_put. rewrite length_app. cbn.
  pose proof (length_dict_pop_In d k Hi). lia.
Qed.

Lemma len_dict_pop d k : len (dict_pop d k) <= len d.
Proof. unfold len. pose proof (length_dict_pop d k). lia. Qed.

Lemma NoDup_dict_pop d k : NoDup (dict_keys d) -> NoDup (dict_keys (dict_pop d k)).
Proof.
  induction d as [|[k' v'] d IH]; cbn; [trivial|].
  intros Hnd. inversion Hnd as [|? ? Hn Hd]; subst.
  destruct (String.eqb k' k); [now apply IH|].
  cbn. constructor; [|now apply IH].
  intros Hi. apply (proj1 (dict_keys_pop d k k')) in Hi. tauto.
Qed.

Lemma NoDup_od_put d k v : NoDup (dict_keys d) -> NoDup (dict_keys (od_put d k v)).
Proof.
  intros Hnd. unfold od_put. rewrite dict_keys_app. cbn.
  apply NoDup_Add with (a := k) (l := dict_keys (dict_pop d k)).
  - rewrite <- (app_nil_r (dict_keys (dict_pop d k))) at 1. apply Add_app.
  - split; [now apply NoDup_dict_pop|].
    intros Hi. apply (proj1 (dict_keys_pop d k k)) in Hi. tauto.
Qed.

End DictFacts.

(** ** Lists *)

Lemma in_firstn {A : Type} (n : nat) (l : list A) (x : A) :
  In x (firstn n l) -> In x l.
Proof.
  intros Hi. rewrite <- (firstn_skipn n l). apply in_or_app. now left.
Qed.

Lemma in_skipn {A : Type} (n : nat) (l : list A) (x : A) :
  In x (skipn n l) -> In x l.
Proof.
  intros Hi. rewrite <- (firstn_skipn n l). apply in_or_app. now right.
Qed.

Lemma NoDup_app_disjoint {A : Type} (l1 l2 : list A) (x : A) :
  NoDup (l1 ++ l2) -> In x l1 -> ~ In x l2.
Proof.
  induction l1 as [|y l1 IH]; cbn; [tauto|].
  intros Nd [-> | Hi] H2; inversion Nd as [|? ? Hn Nd']; subst.
  - apply Hn. apply in_or_app. now right.
  - now apply IH.
Qed.

Lemma NoDup_map_split {A B : Type} (f : A -> B) (n : nat) (l : list A) (x : A) :
  NoDup (map f l) -> In x (skipn n l) -> ~ In (f x) (map f (firstn n l)).
Proof.
  intros Nd Hs Hf. rewrite <- (firstn_skipn n l), map_app in Nd.
  apply (NoDup_app_disjoint _ _ (f x) Nd Hf). now apply in_map.
Qed.

Lemma nodupb_sound (l : list string) :
  nodupb l = true -> NoDup l.
Proof.
  induction l as [|x l IH]; cbn; [constructor|].
  rewrite andb_true_iff, negb_true_iff. intros [Hx Hl].
  constructor; [|now apply IH].
  intros Hi. apply not_true_iff_false in Hx. apply Hx.
  apply existsb_exists. exists x. split; [exact Hi | apply String.eqb_refl].
Qed.

(** ** Strings *)

Lemma length_append (s1 s2 : string) :
  String.length (s1 ++ s2) = (String.length s1 + String.length s2)%nat.
Proof. induction s1 as [|c s1 IH]; cbn; [reflexivity | now rewrite IH]. Qed.

Lemma append_nonempty_neq (s suffix : string) :
  suffix <> EmptyString -> s <> (s ++ suffix)%string.
Proof.
  intros Hs E. apply (f_equal String.length) in E.
  rewrite length_append in E. destruct suffix; [congruence | cbn in E; lia].
Qed.

(** ** Sets, ratios and the Python minimum and maximum *)

Lemma distinct_In (l : list string) (x : string) :
  In x (distinct l) <-> In x l.
Proof.
  induction l as [|y l IH]; cbn; [tauto|].
  destruct (existsb (String.eqb y) l) eqn:E.
  - rewrite IH. split; [tauto|]. intros [->|Hi]; [|exact Hi].
    apply existsb_exists in E. destruct E as (z & Hz & Ez).
    apply String.eqb_eq in Ez. now subst.
  - cbn. rewrite IH. tauto.
Qed.

Lemma distinct_NoDup (l : list string) : NoDup (distinct l).
Proof.
  induction l as [|y l IH]; cbn; [constructor|].
  destruct (existsb (String.eqb y) l) eqn:E; [exact IH|].
  constructor; [|exact IH].
  rewrite distinct_In. intros Hi.
  apply not_true_iff_false in E. apply E.
  apply existsb_exists. exists y. split; [exact Hi | apply String.eqb_refl].
Qed.

Lemma set_mem_add (s : list string) (key : string) :
  set_mem (set_add s key) key = true.
Proof.
  unfold set_mem, set_add.
  destruct (existsb (String.eqb key) s) eqn:E; [exact E|].
  rewrite existsb_app. cbn. rewrite String.eqb_refl.
  now rewrite orb_true_r.
Qed.

Lemma len_nonneg {A : Type} (l : list A) : 0 <= len l.
Proof. unfold len. lia. Qed.

Lemma len_filter {A : Type} (f : A -> bool) (l : list A) :
  len (filter f l) <= len l.
Proof.
  unfold len. apply inj_le.
  induction l as [|x l IH]; cbn; [lia|]. destruct (f x); cbn; lia.
Qed.

(** A part of a whole, as a fraction. *)
Lemma ratio_range (n m : Z) :
  0 <= n <= m -> 0 < m -> (0 <= inject_Z n / inject_Z m <= 1)%Q.
Proof.
  intros [Hn Hm] Hpos.
  assert (Pm : (0 < inject_Z m)%Q)
    by (change 0%Q with (inject_Z 0); now rewrite <- Zlt_Qlt).
  split.
  - apply Qle_shift_div_l; [exact Pm|]. rewrite Qmult_0_l.
    change 0%Q with (inject_Z 0). now rewrite <- Zle_Qle.
  - apply Qle_shift_div_r; [exact Pm|]. rewrite Qmult_1_l.
    now rewrite <- Zle_Qle.
Qed.

(** Decides the comparisons of a goal and leaves the arithmetic. *)
Ltac compare_all :=
  repeat match goal with
         | |- context [Qgtb ?a ?b] =>
             let E := fresh "E" in
             destruct (Qgtb a b) eqn:E;
             [apply Qgtb_gt in E | apply Qgtb_le in E]
         | |- context [Qltb ?a ?b] =>
             let E := fresh "E" in
             destruct (Qltb a b) eqn:E;
             [apply Qltb_lt in E | apply Qltb_ge in E]
         end.

Lemma py_max_spec (a b : Q) :
  (a <= py_max a b)%Q /\ (b <= py_max a b)%Q
  /\ (py_max a b = a \/ py_max a b = b).
Proof. unfold py_max. compare_all; repeat split; try lra; tauto. Qed.

Lemma py_min_spec (a b : Q) :
  (py_min a b <= a)%Q /\ (py_min a b <= b)%Q
  /\ (py_min a b = a \/ py_min a b = b).
Proof. unfold py_min. compare_all; repeat split; try lra; tauto. Qed.

(** ** Coroutines *)

Module CoroutineSpec.
Import Coroutine.

Section Facts.
Context {S : Type}.

(** A task driven to its end behaves as a computation on the state. *)
Lemma run_bind {A B : Type} (env : Env) (x : Step S A) (f : A -> Coro S B) :
  run env (step_bind x f) =
    match run env x with
    | (Ok a, s) => run env (f a s)
    | (Raise e, s) => (Raise e, s)
    end.
Proof.
  induction x as [[a|e] s | X req s k IH]; cbn; try reflexivity.
  apply IH.
Qed.


Lemma run_lift {A : Type} (env : Env) (m : M S A) (s : S) :
  run env (co_lift m s) = m s.
Proof. unfold co_lift. now destruct (m s). Qed.

Lemma run_await {X : Type} (env : Env) (req : Request X) (s : S) :
  run env (co_await req s) = (env X req, s).
Proof. reflexivity. Qed.

(** A coroutine on a part of the state, driven to its end, leaves the
    rest of the state as it was. *)
Lemma run_zoom {T A : Type} (env : Env) (part : S -> T) (update : T -> S -> S)
    (x : Step T A) (s : S) :
  (forall t s, part (update t s) = t) ->
  (forall t t' s, update t' (update t s) = update t' s) ->
  run env (step_zoom part update x s) =
    (fst (run env x), update (snd (run env x)) s).
Proof.
  intros Hget Hput. revert s.
  induction x as [r t | X req t k IH]; intros s; cbn; [reflexivity|].
  rewrite Hget, IH. now rewrite Hput.
Qed.

Lemma run_call {A : Type} (env : Env) (t : Task A) (s : S) :
  run env (co_call t s) = (fst (run env (t tt)), s).
Proof.
  unfold co_call, co_zoom. rewrite run_zoom; [reflexivity | |];
    intros; try reflexivity. now destruct t0.
Qed.

Lemma abortable_ret (P : S -> Prop) {A : Type} (a : A) (s : S) :
  P s -> Abortable P (co_ret a s).
Proof. trivial. Qed.

Lemma abortable_res (P : S -> Prop) {A : Type} (r : Res A) (s : S) :
  P s -> Abortable P (co_res r s).
Proof. trivial. Qed.

Lemma abortable_lift (P : S -> Prop) {A : Type} (m : M S A) (s : S) :
  P (snd (m s)) -> Abortable P (co_lift m s).
Proof. unfold co_lift. now destruct (m s). Qed.

Lemma abortable_await (P : S -> Prop) {X : Type} (req : Request X) (s : S) :
  P s -> Abortable P (co_await req s).
Proof. cbn. intros Hs. split; [exact Hs|]. split; [reflexivity | trivial]. Qed.

Lemma abortable_bind (P : S -> Prop) {A B : Type} (x : Step S A)
    (f : A -> Coro S B) :
  Abortable P x ->
  (forall a s, P s -> Abortable P (f a s)) ->
  Abortable P (step_bind x f).
Proof.
  intros Hx Hf. induction x as [[a|e] s | X req s k IH]; cbn.
  - now apply Hf.
  - exact Hx.
  - destruct Hx as (Hs & Hc & Hk). split; [exact Hs|]. split.
    + intros s' Hs'. now rewrite Hc.
    + intros r s' Hs'. now apply IH, Hk.
Qed.

Lemma abortable_try (P : S -> Prop) {A : Type} (x : Step S A)
    (handler : exn -> Coro S A) :
  Abortable P x ->
  (forall e s, P s -> Abortable P (handler e s)) ->
  Abortable P (step_try x handler).
Proof.
  intros Hx Hh. induction x as [[a|e] s | X req s k IH]; cbn.
  - exact Hx.
  - destruct (is_Exception e); [now apply Hh | exact Hx].
  - destruct Hx as (Hs & Hc & Hk). split; [exact Hs|]. split.
    + intros s' Hs'. now rewrite Hc.
    + intros r s' Hs'. now apply IH, Hk.
Qed.

(** A coroutine on a part of the state is abortable when it is so on
    the part. *)
Lemma abortable_zoom (P : S -> Prop) {T A : Type} (Q : T -> Prop)
    (part : S -> T) (update : T -> S -> S) (x : Step T A) (s : S) :
  (forall s, update (part s) s = s) ->
  (forall s, P s -> Q (part s)) ->
  (forall t s, Q t -> P s -> P (update t s)) ->
  Abortable Q x -> P s ->
  Abortable P (step_zoom part update x s).
Proof.
  intros Hsame Hpart Hupdate. revert s.
  induction x as [r t | X req t k IH]; intros s Hx Hs; cbn.
  - now apply Hupdate.
  - destruct Hx as (Ht & Hc & Hk). split; [now apply Hupdate|]. split.
    + intros s' Hs'. rewrite Hc by now apply Hpart. cbn. now rewrite Hsame.
    + intros r s' Hs'. apply IH; [|exact Hs']. apply Hk. now apply Hpart.
Qed.

Lemma abortable_call (P : S -> Prop) {A : Type} (t : Task A) (s : S) :
  Abortable (fun _ => True) (t tt) -> P s -> Abortable P (co_call t s).
Proof.
  intros Ht Hs. unfold co_call, co_zoom.
  apply (abortable_zoom P (fun _ => True)); trivial.
Qed.

Lemma abortable_reaches (P : S -> Prop) {A : Type} (x y : Step S A) :
  Abortable P x -> Reaches P x y -> Abortable P y.
Proof.
  intros Hx Hr. induction Hr as [|X req s k r s' Hr IH Hs']; [exact Hx|].
  now apply IH.
Qed.

(** Cancelling an abortable task ends it in the state it was suspended
    in. *)
Lemma cancel_abortable (P : S -> Prop) {A : Type} (env : Env)
    (req_type : Type) (req : Request req_type) (s : S)
    (k : Res req_type -> S -> Step S A) :
  Abortable P (Await req s k) ->
  run env (cancel (Await req s k)) = (Raise CancelledError, s).
Proof. intros (Hs & Hc & _). cbn. now rewrite Hc. Qed.

End Facts.

End CoroutineSpec.

(** ** Relevance evaluation *)

Module EvaluationSpec.
Import Interfaces Entities Coroutine Evaluation.
Import CoroutineSpec.

(** *** The members of [Decision] *)

(** The enumeration declares none of the three names that the evaluation
    code asks for. *)
Lemma getattr_undeclared :
  Decision_getattr "KEEP" = Raise AttributeError
  /\ Decision_getattr "REVIEW" = Raise AttributeError
  /\ Decision_getattr "REMOVE" = Raise AttributeError.
Proof. repeat split. Qed.

(** The names that the enumeration declares are those of its four
    members. *)
Lemma getattr_declared name member :
  Decision_getattr name = Ok member <->
  (name = "RETAIN"%string /\ member = RETAIN)
  \/ (name = "DISCARD"%string /\ member = DISCARD)
  \/ (name = "REEVALUATE"%string /\ member = REEVALUATE)
  \/ (name = "COMPRESS"%string /\ member = COMPRESS).
Proof.
  unfold Decision_getattr. split.
  - destruct (String.eqb_spec name "RETAIN") as [->|_];
      [intros [= <-]; tauto|].
    destruct (String.eqb_spec name "DISCARD") as [->|_];
      [intros [= <-]; tauto|].
    destruct (String.eqb_spec name "REEVALUATE") as [->|_];
      [intros [= <-]; tauto|].
    destruct (String.eqb_spec name "COMPRESS") as [->|_];
      [intros [= <-]; tauto | discriminate].
  - intros [[-> ->]|[[-> ->]|[[-> ->]|[-> ->]]]]; reflexivity.
Qed.

Lemma decision_is_undeclared d :
  decision_is d "KEEP" = Raise AttributeError
  /\ decision_is d "REVIEW" = Raise AttributeError
  /\ decision_is d "REMOVE" = Raise AttributeError.
Proof. repeat split. Qed.

(** *** The decision *)

Lemma make_decision_always_raises overall_score factors metadata :
  _make_decision overall_score factors metadata = Raise AttributeError.
Proof.
  unfold _make_decision.
  destruct (Qltb (factual_consistency factors) (3#10)); [reflexivity|].
  destruct (Qltb (semantic_alignment factors) (2#10)); [reflexivity|].
  destruct (Qgeb overall_score _); [reflexivity|].
  destruct (Qgeb overall_score _); reflexivity.
Qed.

Lemma generate_explanation_raises overall_score factors decision :
  _generate_explanation overall_score factors decision = Raise AttributeError.
Proof. reflexivity. Qed.

(** The evaluation of the base class never returns a score, whatever
    the scoring methods do: it ends with the exception of the first
    method that raises, or with the [AttributeError] of the decision. *)
Lemma evaluate_never_returns env self block context metadata :
  exists e,
    fst (run env (evaluate self block context metadata tt)) = Raise e.
Proof.
  unfold evaluate, co_bind.
  do 5 (rewrite run_bind;
          match goal with
          | |- context [run env ?x] =>
              destruct (run env x) as [[?|?] []]; [|eexists; reflexivity]
          end).
  rewrite run_bind. unfold co_res. cbn [run].
  rewrite make_decision_always_raises. eexists; reflexivity.
Qed.

(** C1. The decision function, applied to a five-factor score, returns
    no decision: each of its five [return] statements names a member
    ([KEEP], [REVIEW] or [REMOVE]) that the enumeration [Decision] does
    not declare, so that it raises [AttributeError] for every overall
    score, every factor vector and every metadata, also for a factual
    consistency of 0.1 with all other factors at 0.9; and an evaluation
    of the base class, which ends with this decision, raises whatever
    its scoring methods return. *)
Theorem make_decision_raises :
  (forall overall_score factors metadata,
     _make_decision overall_score factors metadata = Raise AttributeError)
  /\ _make_decision (82#100) (mkFactors (9#10) (9#10) (9#10) (9#10) (1#10))
                    no_metadata = Raise AttributeError
  /\ (forall env self block context metadata,
        exists e,
          fst (run env (evaluate self block context metadata tt)) = Raise e).
Proof.
  split; [exact make_decision_always_raises|].
  split; [reflexivity|].
  exact evaluate_never_returns.
Qed.

(** *** The heuristic and the model-based evaluator *)

Lemma heuristic_evaluate_raises w now block context metadata :
  Heuristic.evaluate w now block context metadata tt
  = Done (Raise AttributeError) tt.
Proof. destruct context; reflexivity. Qed.

Lemma llm_evaluate_raises `{LLM.Numerics} use_embeddings w now block context
    metadata :
  LLM.evaluate use_embeddings w now block context metadata tt
  = Done (Raise AttributeError) tt.
Proof. destruct context; reflexivity. Qed.

(** X18. The scoring methods of the heuristic evaluator read
    [block.messages] or [block.created_at], which a conversation block
    does not have, on every path but the shortcuts for an empty context:
    without context the semantic alignment is 0.8 and the factual
    consistency 0.9, with a context both raise [AttributeError], and
    the temporal relevance, the goal contribution and the information
    quality raise [AttributeError] for every block and context. *)
Theorem heuristic_factors_raise :
  (forall block,
     Heuristic._evaluate_semantic_alignment block [] = Ok (8#10)
     /\ Heuristic._evaluate_factual_consistency block [] = Ok (9#10))
  /\ (forall block ctx_block context,
        Heuristic._evaluate_semantic_alignment block (ctx_block :: context)
        = Raise AttributeError
        /\ Heuristic._evaluate_factual_consistency block (ctx_block :: context)
           = Raise AttributeError)
  /\ (forall now block context goal,
        Heuristic._evaluate_temporal_relevance now block context
        = Raise AttributeError
        /\ Heuristic._evaluate_goal_contribution block context goal
           = Raise AttributeError
        /\ Heuristic._evaluate_information_quality block
           = Raise AttributeError).
Proof. repeat split. Qed.

(** X19. No evaluation by the heuristic or by the model-based evaluator
    returns a score: for every block, context, metadata and weights the
    evaluation raises [AttributeError], without waiting for the
    provider; and a batch evaluation returns the empty list for no
    blocks and raises [AttributeError] for one block or more. *)
Theorem builtin_evaluations_raise :
  (forall w now block context metadata,
     Heuristic.evaluate w now block context metadata tt
     = Done (Raise AttributeError) tt)
  /\ (forall (numerics : LLM.Numerics) use_embeddings w now block context
             metadata,
        LLM.evaluate use_embeddings w now block context metadata tt
        = Done (Raise AttributeError) tt)
  /\ (forall evaluate now metadata,
        batch_evaluate evaluate now [] metadata tt = Done (Ok []) tt)
  /\ (forall w now block blocks metadata,
        batch_evaluate (Heuristic.evaluate w) now (block :: blocks) metadata tt
        = Done (Raise AttributeError) tt).
Proof.
  split; [exact heuristic_evaluate_raises|].
  split; [intros; apply llm_evaluate_raises|].
  split; [reflexivity|].
  intros w now block blocks metadata.
  unfold batch_evaluate. cbn [batch_from]. unfold co_bind.
  now rewrite heuristic_evaluate_raises.
Qed.

(** *** The composite evaluator *)

Lemma combine_scores_raises self heuristic_score llm_score :
  Composite._combine_scores self heuristic_score llm_score
  = Raise AttributeError.
Proof. reflexivity. Qed.

(** The composite evaluator that the constructor builds holds a
    heuristic evaluator. *)
Lemma init_heuristic `{LLM.Numerics} use_llm lw hw sw tw gw iw fw self :
  Composite.CompositeRelevanceEvaluator_init use_llm lw hw sw tw gw iw fw
  = Ok self ->
  exists w, Composite.heuristic_evaluator self = Heuristic.evaluate w.
Proof.
  unfold Composite.CompositeRelevanceEvaluator_init.
  destruct (BaseRelevanceEvaluator_init sw tw gw iw fw) as [w0|]; [|discriminate].
  cbn [res_bind].
  destruct (py_div lw (lw + hw)) as [lw'|]; [|discriminate]. cbn [res_bind].
  destruct (py_div hw (lw + hw)) as [hw'|]; [|discriminate]. cbn [res_bind].
  destruct (Heuristic.HeuristicRelevanceEvaluator sw tw gw iw fw) as [w|];
    [|discriminate].
  cbn [res_bind].
  destruct use_llm.
  - destruct (LLM.LLMRelevanceEvaluator sw tw gw iw fw); [|discriminate].
    cbn. intros [= <-]. now exists w.
  - cbn. intros [= <-]. now exists w.
Qed.

Lemma composite_evaluate_raises `{LLM.Numerics} use_llm lw hw sw tw gw iw fw
    self :
  Composite.CompositeRelevanceEvaluator_init use_llm lw hw sw tw gw iw fw
  = Ok self ->
  forall now block context metadata,
    Composite.evaluate self now block context metadata tt
    = Done (Raise AttributeError) tt.
Proof.
  intros E now block context metadata.
  destruct (init_heuristic _ _ _ _ _ _ _ _ _ E) as [w Hw].
  unfold Composite.evaluate, co_bind. rewrite Hw.
  now rewrite heuristic_evaluate_raises.
Qed.

(** C10. An evaluation by a composite evaluator that the constructor has
    built returns no score and propagates an exception to its caller:
    for every block, context and metadata the heuristic evaluation,
    which is made first and outside the [try], raises [AttributeError],
    so that the model-based evaluation is not reached; and
    [_combine_scores] raises [AttributeError] for every pair of scores,
    as the decisions it compares with and returns are no members of
    [Decision]. *)
Theorem composite_evaluation_raises :
  (forall (numerics : LLM.Numerics) use_llm llm_weight heuristic_weight
          semantic_weight temporal_weight goal_weight information_weight
          factual_weight self,
     Composite.CompositeRelevanceEvaluator_init
       use_llm llm_weight heuristic_weight semantic_weight temporal_weight
       goal_weight information_weight factual_weight = Ok self ->
     forall now block context metadata,
       Composite.evaluate self now block context metadata tt
       = Done (Raise AttributeError) tt)
  /\ (forall self heuristic_score llm_score,
        Composite._combine_scores self heuristic_score llm_score
        = Raise AttributeError).
Proof.
  split; [|exact combine_scores_raises].
  intros numerics use_llm lw hw sw tw gw iw fw self E.
  now apply (composite_evaluate_raises use_llm lw hw sw tw gw iw fw).
Qed.

Lemma composite_evaluation_raises_witness :
  exists self,
    @Composite.CompositeRelevanceEvaluator_init Samples.half_numerics
       true (7#10) (3#10) (3#10) (2#10) (25#100) (15#100) (1#10) = Ok self
    /\ Composite.evaluate self 100 Samples.unread_block [Samples.busy_block]
                          None tt
       = Done (Raise AttributeError) tt.
Proof.
  eexists. split; [reflexivity|].
  apply (proj1 composite_evaluation_raises Samples.half_numerics
               true (7#10) (3#10) (3#10) (2#10) (25#100) (15#100) (1#10) _
               eq_refl).
Defined.

(** X21. The constructors divide by the total of the weights they are
    given, whatever it is: with five factor weights of zero the
    constructor of the base class raises [ZeroDivisionError], and with
    two blend weights of zero so does the constructor of the composite
    evaluator, with or without the model-based evaluator; with the
    default weights both return. *)
Theorem zero_weights_raise :
  BaseRelevanceEvaluator_init 0 0 0 0 0 = Raise ZeroDivisionError
  /\ (forall (numerics : LLM.Numerics) use_llm,
        Composite.CompositeRelevanceEvaluator_init
          use_llm 0 0 (3#10) (2#10) (25#100) (15#100) (1#10)
        = Raise ZeroDivisionError)
  /\ (exists w,
        BaseRelevanceEvaluator_init (3#10) (2#10) (25#100) (15#100) (1#10)
        = Ok w)
  /\ (forall (numerics : LLM.Numerics) use_llm,
        exists composite,
          Composite.CompositeRelevanceEvaluator_init
            use_llm (7#10) (3#10) (3#10) (2#10) (25#100) (15#100) (1#10)
          = Ok composite).
Proof.
  split; [reflexivity|]. split; [reflexivity|].
  split; [eexists; reflexivity|].
  intros numerics use_llm. destruct use_llm; eexists; reflexivity.
Qed.

End EvaluationSpec.

(** ** The in-memory store *)

Module StoreSpec.
Import Interfaces Entities Store.

(** Unfolds the combinators of the state monad. *)
Ltac monad :=
  unfold bind, get, modify, ret, raise, lift_res in *; cbn beta iota in *.

(** Computes the fields of the store after the state updates. *)
Ltac fields :=
  cbn [put_cold evict_cold put_hot put_warm index_stored count_retrieved
       pop_warm removed set_hot set_warm set_cold set_tier_index
       set_session_index set_stats hot_capacity warm_capacity cold_capacity
       compression_threshold _hot_store _warm_store _cold_store
       _session_index _tier_index _stats] in *.

(** *** Serialization *)

(** No block can be serialized: the dictionary needs [block.messages]. *)
Lemma serialize_raises block : _serialize_block block = Raise AttributeError.
Proof. reflexivity. Qed.

(** No block can be built from serialized data: data with messages
    needs the name [MessageRole], and data without messages gives the
    constructor none of the fields it requires. *)
Lemma deserialize_raises now data :
  _deserialize_block now data
  = Raise match bd_messages data with
          | [] => ValidationError
          | _ :: _ => NameError
          end.
Proof. unfold _deserialize_block. now destruct (bd_messages data). Qed.

Section Facts.
Context `{Codec}.

(** *** The operations, case by case *)

(** A computation whose continuation always raises, raises. *)
Lemma bind_raises {S A B : Type} (m : M S A) (f : A -> M S B) (s : S) :
  (forall a s1, exists e s2, f a s1 = (Raise e, s2)) ->
  exists e s2, bind m f s = (Raise e, s2).
Proof.
  intros Hf. unfold bind. destruct (m s) as [[a|e] s1]; [apply Hf|].
  now exists e, s1.
Qed.

(** A store into the warm tier never returns: when it has made room, or
    had room, it raises on the serialization of the block. *)
Lemma store_warm_never_returns key value st :
  exists e st', _store_warm key value st = (Raise e, st').
Proof.
  unfold _store_warm. apply bind_raises. intros st0 s1.
  apply bind_raises. intros _ s2. do 2 eexists. reflexivity.
Qed.

Lemma store_cold_never_returns key value st :
  exists e st', _store_cold key (inl value) st = (Raise e, st').
Proof.
  unfold _store_cold. apply bind_raises. intros st0 s1.
  apply bind_raises. intros _ s2. do 2 eexists. reflexivity.
Qed.

Lemma store_warm_raises key value st :
  hot_only st -> _store_warm key value st = (Raise AttributeError, st).
Proof.
  intros (Hw & _ & Hc & _). unfold _store_warm. monad. rewrite Hw.
  change (len (@nil (string * (Payload * WarmMeta)))) with 0.
  destruct (Z.geb_spec 0 (warm_capacity st)); [lia | reflexivity].
Qed.

Lemma store_cold_raises key value st :
  hot_only st -> _store_cold key (inl value) st = (Raise AttributeError, st).
Proof.
  intros (_ & Hc & _ & Hk). unfold _store_cold. monad. rewrite Hc.
  change (len (@nil (string * Summary))) with 0.
  destruct (Z.geb_spec 0 (cold_capacity st)); [lia | reflexivity].
Qed.

Lemma store_hot_eq key value st :
  _store_hot key value st =
    if len (_hot_store st) >=? hot_capacity st then
      match _hot_store st with
      | [] => (Raise KeyError, st)
      | (oldest_key, oldest_value) :: rest =>
          match _store_warm oldest_key oldest_value (set_hot rest st) with
          | (Ok _, st1) => (Ok tt, put_hot key value st1)
          | (Raise e, st1) => (Raise e, st1)
          end
      end
    else (Ok tt, put_hot key value st).
Proof.
  unfold _store_hot. unfold bind at 1. unfold get at 1. unfold bind at 1.
  destruct (len (_hot_store st) >=? hot_capacity st); [|reflexivity].
  destruct (_hot_store st) as [|[oldest_key oldest_value] rest];
    [reflexivity|].
  cbn [popitem_first]. unfold bind at 1. unfold modify at 1.
  destruct (_store_warm _ _ _) as [[[]|e] st1]; reflexivity.
Qed.

Lemma store_eq key value tier session_id st :
  store key value tier session_id st =
    match (match tier with
           | HOT => _store_hot key value st
           | WARM => _store_warm key value st
           | COLD => _store_cold key (inl value) st
           end) with
    | (Ok _, st1) => (Ok tt, index_stored key tier session_id st1)
    | (Raise e, st1) => (Raise e, st1)
    end.
Proof.
  unfold store. unfold bind at 1.
  destruct tier.
  - now destruct (_store_hot key value st) as [[[]|e] st1].
  - now destruct (_store_warm key value st) as [[[]|e] st1].
  - now destruct (_store_cold key (inl value) st) as [[[]|e] st1].
Qed.

Lemma delete_eq key session_id st :
  delete key session_id st =
    match dict_get (_tier_index st) key with
    | None => (Ok false, st)
    | Some tier => (Ok true, removed key tier session_id st)
    end.
Proof.
  unfold delete. monad. now destruct (dict_get (_tier_index st) key).
Qed.

(** A retrieval from a store that keeps nothing outside the hot tier. *)
Lemma retrieve_eq key now st :
  hot_only st ->
  retrieve key now st =
    match dict_get (_tier_index st) key with
    | Some HOT =>
        match dict_get (_hot_store st) key with
        | Some block =>
            (Ok (Some (accessed block now)),
             put_hot key (accessed block now) (count_retrieved st))
        | None => (Ok None, count_retrieved st)
        end
    | _ => (Ok None, count_retrieved st)
    end.
Proof.
  intros (Hw & Hc & _). unfold retrieve. monad. fields.
  destruct (dict_get (_tier_index st) key) as [[]|]; try reflexivity.
  - now destruct (dict_get (_hot_store st) key).
  - now rewrite Hw.
  - now rewrite Hc.
Qed.

(** A retrieval of a key that the index gives to the hot tier, from any
    store. *)
Lemma retrieve_hot key now st :
  dict_get (_tier_index st) key = Some HOT ->
  retrieve key now st =
    match dict_get (_hot_store st) key with
    | Some block =>
        (Ok (Some (accessed block now)),
         put_hot key (accessed block now) (count_retrieved st))
    | None => (Ok None, count_retrieved st)
    end.
Proof.
  intros Hi. unfold retrieve. monad. fields. rewrite Hi.
  now destruct (dict_get (_hot_store st) key).
Qed.

Lemma retrieve_unknown key now st :
  dict_get (_tier_index st) key = None ->
  retrieve key now st = (Ok None, count_retrieved st).
Proof. intros Hi. unfold retrieve. monad. fields. now rewrite Hi. Qed.

(** *** Stores *)

Lemma store_hot_room key value session_id st :
  len (_hot_store st) < hot_capacity st ->
  store key value HOT session_id st
  = (Ok tt, index_stored key HOT session_id (put_hot key value st)).
Proof.
  intros Room. rewrite store_eq, store_hot_eq.
  destruct (Z.geb_spec (len (_hot_store st)) (hot_capacity st));
    [lia | reflexivity].
Qed.

(** A store into a full hot tier takes the least recently used entry
    out of the tier and raises when it serializes it for the warm tier:
    the entry is in no tier then, and the new block is not stored. *)
Lemma store_hot_full key value session_id st oldest rest :
  hot_only st ->
  _hot_store st = oldest :: rest ->
  hot_capacity st <= len (_hot_store st) ->
  store key value HOT session_id st = (Raise AttributeError, set_hot rest st).
Proof.
  intros Only Hot Full. rewrite store_eq, store_hot_eq.
  destruct (Z.geb_spec (len (_hot_store st)) (hot_capacity st)); [|lia].
  rewrite Hot. destruct oldest as [oldest_key oldest_value].
  now rewrite store_warm_raises.
Qed.

Lemma store_outside_hot key value tier session_id st :
  hot_only st -> tier <> HOT ->
  store key value tier session_id st = (Raise AttributeError, st).
Proof.
  intros Only Ht. rewrite store_eq. destruct tier; [easy | |].
  - now rewrite store_warm_raises.
  - now rewrite store_cold_raises.
Qed.

(** The stores that return are those into a hot tier with room. *)
Lemma store_returned key value tier session_id st st' :
  store key value tier session_id st = (Ok tt, st') ->
  tier = HOT
  /\ len (_hot_store st) < hot_capacity st
  /\ st' = index_stored key HOT session_id (put_hot key value st).
Proof.
  rewrite store_eq. destruct tier.
  - rewrite store_hot_eq.
    destruct (Z.geb_spec (len (_hot_store st)) (hot_capacity st)).
    + destruct (_hot_store st) as [|[oldest_key oldest_value] rest];
        [discriminate|].
      destruct (store_warm_never_returns oldest_key oldest_value
                                         (set_hot rest st)) as (e & st1 & ->).
      discriminate.
    + intros [= <-]. repeat split. assumption.
  - destruct (store_warm_never_returns key value st) as (e & st1 & ->).
    discriminate.
  - destruct (store_cold_never_returns key value st) as (e & st1 & ->).
    discriminate.
Qed.

Lemma store_indexed key value tier session_id st st' :
  store key value tier session_id st = (Ok tt, st') ->
  dict_get (_tier_index st') key = Some HOT
  /\ dict_get (_hot_store st') key = Some value.
Proof.
  intros Hs. destruct (store_returned _ _ _ _ _ _ Hs) as (-> & _ & ->).
  fields. split; [apply dict_get_set_same | apply dict_get_od_put_same].
Qed.

(** *** What the operations keep *)

Lemma hot_only_store key value tier session_id st r st' :
  hot_only st ->
  store key value tier session_id st = (r, st') -> hot_only st'.
Proof.
  intros Only. destruct tier.
  - rewrite store_eq, store_hot_eq.
    destruct (len (_hot_store st) >=? hot_capacity st).
    + destruct (_hot_store st) as [|[oldest_key oldest_value] rest].
      * now intros [= <- <-].
      * rewrite store_warm_raises by exact Only. now intros [= <- <-].
    + now intros [= <- <-].
  - rewrite store_outside_hot by easy. now intros [= <- <-].
  - rewrite store_outside_hot by easy. now intros [= <- <-].
Qed.

Lemma hot_only_retrieve key now st r st' :
  hot_only st -> retrieve key now st = (r, st') -> hot_only st'.
Proof.
  intros Only. rewrite retrieve_eq by exact Only.
  destruct (dict_get (_tier_index st) key) as [[]|];
    try (now intros [= <- <-]).
  destruct (dict_get (_hot_store st) key); now intros [= <- <-].
Qed.

Lemma hot_only_removed key tier session_id st :
  hot_only st -> hot_only (removed key tier session_id st).
Proof.
  intros (Hw & Hc & Kw & Kc). unfold hot_only.
  destruct tier; fields; rewrite ?Hw, ?Hc; repeat split; assumption.
Qed.

Lemma hot_only_delete key session_id st r st' :
  hot_only st -> delete key session_id st = (r, st') -> hot_only st'.
Proof.
  intros Only. rewrite delete_eq.
  destruct (dict_get (_tier_index st) key); intros [= <- <-];
    [now apply hot_only_removed | exact Only].
Qed.

Lemma store_each_app blocks1 blocks2 tier session_id st :
  store_each (blocks1 ++ blocks2) tier session_id st =
    match store_each blocks1 tier session_id st with
    | (Ok _, st1) => store_each blocks2 tier session_id st1
    | (Raise e, st1) => (Raise e, st1)
    end.
Proof.
  revert st. induction blocks1 as [|b blocks1 IH]; intros st; cbn.
  - reflexivity.
  - unfold bind.
    destruct (store (block_id b) b tier session_id st) as [[[]|e] st1];
      [apply IH | reflexivity].
Qed.

(** Distinct blocks stored into a hot tier that has room for them all
    are appended to it in turn, and indexed in turn; the other tiers
    and the capacities are not touched. *)
Lemma store_each_room blocks session_id st :
  NoDup (map block_id blocks) ->
  (forall b, In b blocks -> ~ In (block_id b) (dict_keys (_hot_store st))) ->
  (forall b, In b blocks -> ~ In (block_id b) (dict_keys (_tier_index st))) ->
  len (_hot_store st) + len blocks <= hot_capacity st ->
  exists st',
    store_each blocks HOT session_id st = (Ok tt, st')
    /\ hot_capacity st' = hot_capacity st
    /\ warm_capacity st' = warm_capacity st
    /\ cold_capacity st' = cold_capacity st
    /\ _hot_store st' = _hot_store st ++ map entry blocks
    /\ _warm_store st' = _warm_store st
    /\ _cold_store st' = _cold_store st
    /\ _tier_index st'
       = _tier_index st ++ map (fun b => (block_id b, HOT)) blocks.
Proof.
  revert st. induction blocks as [|b blocks IH]; intros st Nd Fresh Fresh' Room.
  - exists st. cbn. rewrite !app_nil_r. repeat split.
  - cbn [store_each]. unfold bind.
    unfold len in Room. cbn [List.length] in Room.
    rewrite store_hot_room by (unfold len; lia).
    set (st1 := index_stored (block_id b) HOT session_id
                             (put_hot (block_id b) b st)).
    assert (Hot1 : _hot_store st1 = _hot_store st ++ [entry b]).
    { subst st1. fields. unfold od_put.
      rewrite dict_pop_absent by (apply Fresh; now left). reflexivity. }
    assert (Idx1 : _tier_index st1 = _tier_index st ++ [(block_id b, HOT)]).
    { subst st1. fields.
      assert (Hn : ~ In (block_id b) (dict_keys (_tier_index st)))
        by (apply Fresh'; now left).
      revert Hn. generalize (_tier_index st) as d.
      induction d as [|[k v] d IHd]; cbn; [reflexivity|].
      intros Hn. destruct (String.eqb_spec k (block_id b)) as [->|Hne];
        [exfalso; apply Hn; now left|].
      rewrite IHd; [reflexivity|]. intros Hi. apply Hn. now right. }
    inversion Nd as [|? ? Hn Nd']; subst.
    destruct (IH st1 Nd') as (st' & E & C1 & C2 & C3 & Hh & Hw & Hc & Hi).
    + intros b' Hb'. rewrite Hot1, dict_keys_app, in_app_iff. cbn.
      intros [Hi | [He | []]].
      * apply (Fresh b'); [now right | exact Hi].
      * apply Hn. rewrite He. now apply in_map.
    + intros b' Hb'. rewrite Idx1, dict_keys_app, in_app_iff. cbn.
      intros [Hi | [He | []]].
      * apply (Fresh' b'); [now right | exact Hi].
      * apply Hn. rewrite He. now apply in_map.
    + rewrite Hot1. unfold len in *. rewrite length_app. cbn [List.length].
      change (hot_capacity st1) with (hot_capacity st). lia.
    + exists st'. split; [exact E|].
      rewrite C1, C2, C3, Hh, Hw, Hc, Hi, Hot1, Idx1, <- !app_assoc.
      repeat split.
Qed.

(** One block more than the hot tier holds. *)
Lemma store_one_over capacity blocks last warm_capacity cold_capacity
    threshold session_id :
  1 <= capacity ->
  len blocks = capacity ->
  NoDup (map block_id (blocks ++ [last])) ->
  0 < warm_capacity -> 0 < cold_capacity ->
  exists st st',
    store_each blocks HOT session_id
      (InMemoryStore_init capacity warm_capacity cold_capacity threshold)
    = (Ok tt, st)
    /\ tier_distribution st = (capacity, 0, 0)
    /\ store (block_id last) last HOT session_id st = (Raise AttributeError, st')
    /\ store_each (blocks ++ [last]) HOT session_id
         (InMemoryStore_init capacity warm_capacity cold_capacity threshold)
       = (Raise AttributeError, st')
    /\ st' = set_hot (tl (map entry blocks)) st
    /\ dict_keys (_tier_index st') = map block_id blocks
    /\ hot_only st'
    /\ _stats st' = _stats st.
Proof.
  intros Cap Len Nd Wc Cc.
  set (st0 := InMemoryStore_init capacity warm_capacity cold_capacity threshold).
  rewrite map_app in Nd. cbn [map] in Nd.
  destruct (store_each_room blocks session_id st0)
    as (st1 & E & C1 & C2 & C3 & Hh & Hw & Hc & Hi).
  { eapply NoDup_app_remove_r. exact Nd. }
  { intros b _ []. }
  { intros b _ []. }
  { cbn. lia. }
  cbn in C1, C2, C3, Hh, Hw, Hc, Hi.
  assert (Only : hot_only st1).
  { unfold hot_only. rewrite Hw, Hc, C2, C3. repeat split; assumption. }
  assert (D : tier_distribution st1 = (capacity, 0, 0)).
  { unfold tier_distribution. rewrite Hh, Hw, Hc. unfold len in *.
    now rewrite length_map, Len. }
  exists st1.
  destruct blocks as [|b0 blocks].
  - unfold len in Len. cbn in Len. lia.
  - exists (set_hot (tl (map entry (b0 :: blocks))) st1).
    assert (F : store (block_id last) last HOT session_id st1
                = (Raise AttributeError,
                   set_hot (tl (map entry (b0 :: blocks))) st1)).
    { apply (store_hot_full _ _ _ _ (entry b0)); [exact Only | exact Hh |].
      rewrite C1, Hh. unfold len in *. rewrite length_map. lia. }
    split; [exact E|]. split; [exact D|]. split; [exact F|].
    split.
    { rewrite store_each_app, E. cbn [store_each]. unfold bind.
      now rewrite F. }
    split; [reflexivity|]. split.
    { fields. rewrite Hi. unfold dict_keys. rewrite map_map. reflexivity. }
    split; [|reflexivity].
    destruct Only as (O1 & O2 & O3 & O4). unfold hot_only. fields.
    repeat split; assumption.
Qed.

(** C2. Inserting into a full hot tier demotes nothing: the store takes
    the least recently used entry out of the hot tier and then raises
    [AttributeError], when it serializes that entry for the warm tier
    and reads [block.messages].  The entry is left in no tier, the warm
    tier is as it was, and the new block is neither stored nor indexed
    nor counted.  In particular, of 101 distinct blocks stored into the
    default store the first 100 are stored, and the store of the 101st
    raises and leaves the tier sizes Hot = 99 and Warm = 0: the hot
    tier holds the second to the hundredth block, the index still names
    the first hundred. *)
Theorem hot_eviction_raises :
  (forall key value session_id st oldest rest,
     hot_only st ->
     _hot_store st = oldest :: rest ->
     hot_capacity st <= len (_hot_store st) ->
     store key value HOT session_id st
     = (Raise AttributeError, set_hot rest st))
  /\ (forall blocks last session_id,
        List.length blocks = 100%nat ->
        NoDup (map block_id (blocks ++ [last])) ->
        exists st st',
          store_each blocks HOT session_id default_store = (Ok tt, st)
          /\ tier_distribution st = (100, 0, 0)
          /\ store (block_id last) last HOT session_id st
             = (Raise AttributeError, st')
          /\ store_each (blocks ++ [last]) HOT session_id default_store
             = (Raise AttributeError, st')
          /\ tier_distribution st' = (99, 0, 0)
          /\ dict_keys (_hot_store st') = map block_id (tl blocks)
          /\ dict_keys (_tier_index st') = map block_id blocks).
Proof.
  split.
  - intros key value session_id st oldest rest. apply store_hot_full.
  - intros blocks last session_id Len Nd.
    destruct (store_one_over 100 blocks last 500 2000 1024 session_id)
      as (st & st' & E & D & F & E' & -> & Hi & Only & _);
      try lia; try assumption.
    { unfold len. now rewrite Len. }
    exists st, (set_hot (tl (map entry blocks)) st).
    split; [exact E|]. split; [exact D|]. split; [exact F|].
    split; [exact E'|].
    destruct Only as (Ow & Oc & _). fields.
    split; [|split; [|exact Hi]].
    + unfold tier_distribution. fields. rewrite Ow, Oc.
      destruct blocks as [|b0 blocks]; [discriminate Len|].
      cbn [map tl]. unfold len. rewrite length_map.
      cbn [List.length] in *. repeat f_equal. lia.
    + destruct blocks as [|b0 blocks]; [reflexivity|].
      cbn [map tl]. unfold dict_keys. now rewrite map_map.
Qed.

(** C3. No block enters the warm tier, and none is promoted from it: a
    store into the warm tier raises [AttributeError] when it serializes
    the block and reads [block.messages], and leaves the store as it
    was; [_deserialize_block], by which a retrieval from the warm tier
    would rebuild the block, raises for all data.  In particular, after
    a block with access count 0 was stored into the warm tier of the
    default store, six retrievals of its key each find nothing, and the
    block is in no tier, not in the hot tier either. *)
Theorem warm_store_raises :
  (forall key value session_id st,
     hot_only st ->
     store key value WARM session_id st = (Raise AttributeError, st))
  /\ (forall now data, exists e, _deserialize_block now data = Raise e)
  /\ (forall key value session_id now,
        let st := snd (store key value WARM session_id default_store) in
        fst (store key value WARM session_id default_store)
        = Raise AttributeError
        /\ st = default_store
        /\ fst (retrieve_times 6 key now st)
           = [Ok None; Ok None; Ok None; Ok None; Ok None; Ok None]
        /\ in_no_tier key (snd (retrieve_times 6 key now st))
        /\ tier_distribution (snd (retrieve_times 6 key now st)) = (0, 0, 0)).
Proof.
  split; [|split].
  - intros key value session_id st Only. now apply store_outside_hot.
  - intros now data. rewrite deserialize_raises. now eexists.
  - intros key value session_id now. repeat split.
Qed.

End Facts.

(** *** Instances *)

Lemma hot_eviction_raises_witness :
  (exists st',
     @store Samples.short_texts "s_1" Samples.middling_block HOT "s"
            (snd (@store Samples.short_texts "s_0" Samples.unread_block HOT "s"
                         (InMemoryStore_init 1 500 2000 1024)))
     = (Raise AttributeError, st')
     /\ tier_distribution st' = (0, 0, 0)
     /\ dict_keys (_tier_index st') = ["s_0"%string])
  /\ (exists st',
        @store_each Samples.short_texts (Samples.sample_blocks 101) HOT "s"
                    default_store = (Raise AttributeError, st')
        /\ tier_distribution st' = (99, 0, 0)
        /\ dict_get (_hot_store st') "s_0" = None
        /\ dict_get (_hot_store st') "s_100" = None
        /\ dict_get (_tier_index st') "s_0" = Some HOT).
Proof.
  destruct (@hot_eviction_raises Samples.short_texts) as [Full Scenario].
  split.
  - eexists. split.
    + apply (Full "s_1"%string Samples.middling_block "s"%string
                  (snd (@store Samples.short_texts "s_0" Samples.unread_block
                               HOT "s" (InMemoryStore_init 1 500 2000 1024)))
                  ("s_0"%string, Samples.unread_block) []).
      * unfold hot_only. cbn. repeat split; lia.
      * reflexivity.
      * vm_compute. discriminate.
    + split; reflexivity.
  - destruct (Scenario (Samples.sample_blocks 100)
                       (Samples.sample_block "s" 100 (9#10)) "s"%string)
      as (st & st' & _ & _ & _ & E & D & Hh & Hi).
    + reflexivity.
    + apply nodupb_sound. vm_compute. reflexivity.
    + exists st'.
      assert (E101 : Samples.sample_blocks 101
                     = (Samples.sample_blocks 100
                        ++ [Samples.sample_block "s" 100 (9#10)])%list)
        by (vm_compute; reflexivity).
      rewrite E101. split; [exact E|]. split; [exact D|].
      assert (Est : st' = snd (@store_each Samples.short_texts
                                 (Samples.sample_blocks 100
                                  ++ [Samples.sample_block "s" 100 (9#10)])
                                 HOT "s" default_store))
        by now rewrite E.
      rewrite Est. repeat split; vm_compute; reflexivity.
Defined.

Lemma warm_store_raises_witness :
  @store Samples.short_texts "s_0" Samples.unread_block WARM "s" default_store
  = (Raise AttributeError, default_store)
  /\ fst (@retrieve_times Samples.short_texts 6 "s_0" 100 default_store)
     = [Ok None; Ok None; Ok None; Ok None; Ok None; Ok None].
Proof.
  destruct (@warm_store_raises Samples.short_texts) as (Raises & _ & Scenario).
  split.
  - apply Raises. unfold hot_only. cbn. repeat split; lia.
  - destruct (Scenario "s_0"%string Samples.unread_block "s"%string 100)
      as (_ & _ & Hr & _).
    exact Hr.
Defined.

End StoreSpec.

(** ** Round trips through the store *)

Module StoreRoundTrips.
Import Interfaces Entities Store.
Import StoreSpec.

Section Facts.
Context `{Codec}.

(** X1. A block stored in the hot tier comes back from the next
    retrieval of its key with its access count one higher and the time
    of the retrieval as its last access, all other attributes as they
    were stored; the hot tier keeps the block so updated. *)
Theorem hot_round_trip key value session_id now st st' :
  store key value HOT session_id st = (Ok tt, st') ->
  exists st'',
    retrieve key now st' = (Ok (Some (accessed value now)), st'')
    /\ dict_get (_hot_store st'') key = Some (accessed value now)
    /\ access_count (accessed value now) = access_count value + 1
    /\ last_accessed (accessed value now) = now
    /\ block_id (accessed value now) = block_id value
    /\ content (accessed value now) = content value
    /\ relevance_score (accessed value now) = relevance_score value
    /\ sequence_number (accessed value now) = sequence_number value
    /\ timestamp (accessed value now) = timestamp value
    /\ Entities.session_id (accessed value now) = Entities.session_id value
    /\ content_type (accessed value now) = content_type value
    /\ source (accessed value now) = source value
    /\ message_id (accessed value now) = message_id value
    /\ memory_tier (accessed value now) = memory_tier value
    /\ retention_priority (accessed value now) = retention_priority value.
Proof.
  intros Hs. destruct (store_indexed _ _ _ _ _ _ Hs) as [Hi Hh].
  rewrite (retrieve_hot _ _ _ Hi), Hh.
  eexists. split; [reflexivity|]. split.
  - fields. apply dict_get_od_put_same.
  - cbn. repeat split.
Qed.

(** X5. Deleting a key that the tier index does not know returns
    [False] and changes nothing; after a deletion that returned [True]
    the key is no longer listed, a retrieval of it finds nothing and a
    second deletion returns [False]. *)
Theorem delete_forgets :
  (forall key session_id st,
     dict_get (_tier_index st) key = None ->
     delete key session_id st = (Ok false, st))
  /\ (forall key session_id now st st',
        delete key session_id st = (Ok true, st') ->
        retrieve key now st' = (Ok None, count_retrieved st')
        /\ delete key session_id st' = (Ok false, st')
        /\ ~ In key (list_keys None st')
        /\ ~ In key (list_keys (Some session_id) st')).
Proof.
  split.
  - intros key session_id st Hn. rewrite delete_eq. now rewrite Hn.
  - intros key session_id now st st' Hd. rewrite delete_eq in Hd.
    destruct (dict_get (_tier_index st) key) as [tier|] eqn:Ht;
      [|discriminate].
    injection Hd as <-.
    assert (Hi : dict_get (_tier_index (removed key tier session_id st)) key
                 = None).
    { fields. destruct tier; fields; apply dict_get_pop_same. }
    split; [|split; [|split]].
    + now apply retrieve_unknown.
    + rewrite delete_eq. now rewrite Hi.
    + unfold list_keys. now apply dict_get_None.
    + unfold list_keys. intros Hin. apply filter_In in Hin.
      destruct Hin as [Hin _]. revert Hin. now apply dict_get_None.
Qed.

(** X6. A key whose store has returned is listed afterwards, among all
    keys and among the keys of the session it was stored under,
    whatever the tier that was asked for. *)
Theorem stored_key_is_listed key value tier session_id st st' :
  store key value tier session_id st = (Ok tt, st') ->
  In key (list_keys None st')
  /\ In key (list_keys (Some session_id) st').
Proof.
  intros Hs. destruct (store_indexed _ _ _ _ _ _ Hs) as [Hi _].
  assert (Hk : In key (dict_keys (_tier_index st')))
    by (eapply dict_get_In; exact Hi).
  split; [exact Hk|].
  unfold list_keys. apply filter_In. split; [exact Hk|].
  destruct (store_returned _ _ _ _ _ _ Hs) as (_ & _ & ->).
  unfold session_set. fields.
  rewrite dict_get_set_same. apply set_mem_add.
Qed.

(** X2. No store outside the hot tier returns: from any state of the
    store, a store into the warm or into the cold tier raises; from a
    store that keeps nothing outside the hot tier it raises
    [AttributeError] and leaves the store as it was, the block neither
    kept nor indexed nor counted. *)
Theorem store_outside_hot_raises :
  (forall key value tier session_id st,
     tier <> HOT ->
     exists e st', store key value tier session_id st = (Raise e, st'))
  /\ (forall key value tier session_id st,
        tier <> HOT -> hot_only st ->
        store key value tier session_id st = (Raise AttributeError, st)).
Proof.
  split.
  - intros key value tier session_id st Ht. rewrite store_eq.
    destruct tier; [easy | |].
    + destruct (store_warm_never_returns key value st) as (e & st' & ->).
      now exists e, st'.
    + destruct (store_cold_never_returns key value st) as (e & st' & ->).
      now exists e, st'.
  - intros key value tier session_id st Ht Only. now apply store_outside_hot.
Qed.

(** X3. The warm and the cold tier stay empty: from a store that keeps
    nothing outside the hot tier, as a new store with positive
    capacities does, every store, retrieval and deletion leaves a store
    that keeps nothing outside the hot tier, whether it returns or
    raises. *)
Theorem nothing_leaves_hot_tier :
  (forall hot_capacity warm_capacity cold_capacity threshold,
     0 < warm_capacity -> 0 < cold_capacity ->
     hot_only (InMemoryStore_init hot_capacity warm_capacity cold_capacity
                                  threshold))
  /\ (forall st, hot_only st ->
        (forall key value tier session_id r st',
           store key value tier session_id st = (r, st') -> hot_only st')
        /\ (forall key now r st',
              retrieve key now st = (r, st') -> hot_only st')
        /\ (forall key session_id r st',
              delete key session_id st = (r, st') -> hot_only st')).
Proof.
  split.
  - intros hc wc cc th Hw Hc. unfold hot_only. cbn. repeat split; assumption.
  - intros st Only. split; [|split]; intros.
    + eapply hot_only_store; eassumption.
    + eapply hot_only_retrieve; eassumption.
    + eapply hot_only_delete; eassumption.
Qed.

(** X7. A failed store into a full hot tier makes room: when the store
    is repeated it returns, and the hot tier then holds the entries that
    were left, in their order, and the new block last; the entry that
    the failed store took out is in no tier, and a retrieval of its key
    finds nothing although the index still names it. *)
Theorem failed_store_makes_room key value session_id now st
    oldest_key oldest_value rest :
  hot_only st ->
  _hot_store st = (oldest_key, oldest_value) :: rest ->
  len (_hot_store st) = hot_capacity st ->
  NoDup (dict_keys (_hot_store st)) ->
  ~ In key (dict_keys (_hot_store st)) ->
  dict_get (_tier_index st) oldest_key = Some HOT ->
  exists st' st'',
    store key value HOT session_id st = (Raise AttributeError, st')
    /\ store key value HOT session_id st' = (Ok tt, st'')
    /\ _hot_store st'' = rest ++ [(key, value)]
    /\ in_no_tier oldest_key st''
    /\ dict_get (_tier_index st'') oldest_key = Some HOT
    /\ retrieve oldest_key now st'' = (Ok None, count_retrieved st'').
Proof.
  intros Only Hot Full Nd Fresh Hi.
  assert (Ne : oldest_key <> key).
  { intros ->. apply Fresh. rewrite Hot. now left. }
  assert (Fresh' : ~ In key (dict_keys rest)).
  { intros Hin. apply Fresh. rewrite Hot. now right. }
  assert (Gone : dict_get rest oldest_key = None).
  { apply dict_get_None. rewrite Hot in Nd. cbn in Nd.
    now inversion Nd. }
  exists (set_hot rest st). eexists.
  split; [apply (store_hot_full _ _ _ _ (oldest_key, oldest_value));
          [exact Only | exact Hot | lia]|].
  split.
  { apply store_hot_room. fields. rewrite <- Full, Hot.
    unfold len. cbn [List.length]. lia. }
  destruct Only as (Ow & Oc & _).
  assert (Hp : od_put rest key value = rest ++ [(key, value)])
    by (unfold od_put; now rewrite (dict_pop_absent _ _ Fresh')).
  fields. rewrite Hp.
  assert (Hi' : dict_get (dict_set (_tier_index st) key HOT) oldest_key
                = Some HOT).
  { rewrite dict_get_set_other by (intros E; apply Ne; now symmetry). exact Hi. }
  assert (Hg : dict_get (rest ++ [(key, value)]) oldest_key = None).
  { rewrite dict_get_app, Gone. cbn.
    destruct (String.eqb_spec key oldest_key) as [E|_]; [|reflexivity].
    exfalso. apply Ne. now symmetry. }
  split; [reflexivity|]. split.
  { unfold in_no_tier. fields. rewrite Hp, Ow, Oc. repeat split. exact Hg. }
  split; [exact Hi'|].
  rewrite retrieve_hot by (fields; exact Hi'). fields. now rewrite Hp, Hg.
Qed.

End Facts.

(** *** Instances *)

Lemma hot_round_trip_witness :
  exists st'',
    @retrieve Samples.short_texts "s_0"%string 100
      (snd (@store Samples.short_texts "s_0"%string Samples.unread_block HOT
                   "s"%string default_store))
    = (Ok (Some (accessed Samples.unread_block 100)), st'')
    /\ access_count (accessed Samples.unread_block 100) = 1.
Proof.
  destruct (@hot_round_trip Samples.short_texts "s_0"%string
              Samples.unread_block "s"%string 100 default_store _ eq_refl)
    as (st'' & Hr & _ & Ha & _).
  exists st''. split; [exact Hr | exact Ha].
Defined.

Lemma delete_forgets_witness :
  delete "s_9"%string "s"%string default_store = (Ok false, default_store)
  /\ fst (@retrieve Samples.short_texts "s_0"%string 100
            (snd (delete "s_0"%string "s"%string
                    (snd (@store Samples.short_texts "s_0"%string
                                 Samples.unread_block HOT "s"%string
                                 default_store)))))
     = Ok None.
Proof.
  destruct (@delete_forgets Samples.short_texts) as [Unknown Known].
  split.
  - apply Unknown. reflexivity.
  - destruct (Known "s_0"%string "s"%string 100
                (snd (@store Samples.short_texts "s_0"%string
                             Samples.unread_block HOT "s"%string default_store))
                _ eq_refl) as (Hr & _).
    exact (f_equal fst Hr).
Defined.

Lemma stored_key_is_listed_witness :
  In "s_0"%string
     (list_keys (Some "s"%string)
        (snd (@store Samples.short_texts "s_0" Samples.unread_block HOT
                     "s"%string default_store))).
Proof.
  apply (@stored_key_is_listed Samples.short_texts "s_0"%string
           Samples.unread_block HOT "s"%string default_store _ eq_refl).
Defined.

Lemma store_outside_hot_raises_witness :
  @store Samples.short_texts "s_1" Samples.middling_block COLD "s"
         (snd (@store Samples.short_texts "s_0" Samples.unread_block HOT "s"
                      default_store))
  = (Raise AttributeError,
     snd (@store Samples.short_texts "s_0" Samples.unread_block HOT "s"
                 default_store)).
Proof.
  destruct (@store_outside_hot_raises Samples.short_texts) as [_ Unchanged].
  apply Unchanged; [discriminate|].
  unfold hot_only. cbn. repeat split; lia.
Defined.

Lemma nothing_leaves_hot_tier_witness :
  hot_only default_store
  /\ hot_only
       (snd (@store Samples.short_texts "s_1" Samples.middling_block WARM "s"
                    (snd (@store Samples.short_texts "s_0" Samples.unread_block
                                 HOT "s" default_store)))).
Proof.
  destruct (@nothing_leaves_hot_tier Samples.short_texts) as [New Kept].
  assert (Only : hot_only default_store) by (apply New; lia).
  split; [exact Only|].
  destruct (Kept default_store Only) as (Stored & _).
  destruct (Kept (snd (@store Samples.short_texts "s_0" Samples.unread_block
                              HOT "s" default_store))) as (Stored' & _).
  - apply (Stored "s_0"%string Samples.unread_block HOT "s"%string
                  (fst (@store Samples.short_texts "s_0" Samples.unread_block
                               HOT "s" default_store))).
    apply surjective_pairing.
  - apply (Stored' "s_1"%string Samples.middling_block WARM "s"%string
                   (fst (@store Samples.short_texts "s_1"
                                Samples.middling_block WARM "s"
                                (snd (@store Samples.short_texts "s_0"
                                             Samples.unread_block HOT "s"
                                             default_store))))).
    apply surjective_pairing.
Defined.

Lemma failed_store_makes_room_witness :
  exists st' st'',
    @store Samples.short_texts "s_1" Samples.middling_block HOT "s"
           (snd (@store Samples.short_texts "s_0" Samples.unread_block HOT "s"
                        (InMemoryStore_init 1 500 2000 1024)))
    = (Raise AttributeError, st')
    /\ @store Samples.short_texts "s_1" Samples.middling_block HOT "s" st'
       = (Ok tt, st'')
    /\ dict_keys (_hot_store st'') = ["s_1"%string]
    /\ fst (@retrieve Samples.short_texts "s_0" 100 st'') = Ok None.
Proof.
  destruct (@failed_store_makes_room Samples.short_texts "s_1"%string
              Samples.middling_block "s"%string 100
              (snd (@store Samples.short_texts "s_0" Samples.unread_block HOT
                           "s" (InMemoryStore_init 1 500 2000 1024)))
              "s_0"%string Samples.unread_block [])
    as (st' & st'' & E1 & E2 & Hh & _ & _ & Hr).
  - unfold hot_only. cbn. repeat split; lia.
  - reflexivity.
  - reflexivity.
  - vm_compute. repeat constructor. intros [].
  - vm_compute. intros [E|[]]. discriminate E.
  - reflexivity.
  - exists st', st''. split; [exact E1|]. split; [exact E2|].
    split; [now rewrite Hh | now rewrite Hr].
Defined.

End StoreRoundTrips.

(** ** The storage manager *)

Module ManagerSpec.
Import Interfaces Entities Manager.
Import StoreSpec.

(** Computes the fields of the manager after the state updates. *)
Ltac manager_fields :=
  cbn [forgotten assigned set_store set_tier_assignments set_migration_stats
       _store _tier_assignments _migration_stats relevance_threshold
       promotion_threshold] in *.

Lemma set_store_same (self : MemoryStorageManager) :
  set_store (_store self) self = self.
Proof. now destruct self. Qed.

Section Facts.
Context `{Store.Codec}.

Lemma delete_block_eq block_id session_id self :
  delete_block block_id session_id self =
    match dict_get (Store._tier_index (_store self)) block_id with
    | None => (Ok false, set_store (_store self) self)
    | Some tier =>
        (Ok true,
         forgotten block_id
           (set_store (Store.removed block_id tier
                         (session_or_default session_id) (_store self)) self))
    end.
Proof.
  unfold delete_block, on_store. monad. rewrite delete_eq.
  now destruct (dict_get (Store._tier_index (_store self)) block_id).
Qed.

Lemma store_block_eq block tier session_id self :
  store_block block (Some tier) session_id self =
    match Store.store (block_id block) block tier
                      (session_or_default session_id) (_store self) with
    | (Ok _, st) => (Ok tt, assigned (block_id block) tier (set_store st self))
    | (Raise e, st) => (Raise e, set_store st self)
    end.
Proof.
  unfold store_block, on_store. monad.
  now destruct (Store.store _ _ _ _ _) as [[[]|e] st].
Qed.

Lemma determine_tier_eq block score self :
  relevance_score block = Some score ->
  _determine_tier block self = (Ok (tier_for score self), self).
Proof.
  intros E. unfold _determine_tier, score_gt, tier_for. monad. rewrite E. monad.
  destruct (Qgtb score (promotion_threshold self)); [reflexivity|].
  now destruct (Qgtb score (relevance_threshold self)).
Qed.

Lemma store_block_auto_eq block score session_id self :
  relevance_score block = Some score ->
  store_block block None session_id self =
    store_block block (Some (tier_for score self)) session_id self.
Proof.
  intros E. unfold store_block at 1. unfold bind at 1.
  rewrite (determine_tier_eq _ _ _ E). reflexivity.
Qed.

(** A retrieval through the manager of a block in the hot tier that the
    manager has assigned to the hot tier, or has not assigned. *)
Lemma retrieve_block_hot depth block_id session_id now self block :
  dict_get (Store._tier_index (_store self)) block_id = Some HOT ->
  dict_get (Store._hot_store (_store self)) block_id = Some block ->
  dict_get (_tier_assignments self) block_id <> Some WARM ->
  dict_get (_tier_assignments self) block_id <> Some COLD ->
  retrieve_block (S depth) block_id session_id now self
  = (Ok (Some (Store.accessed block now)),
     set_store (Store.put_hot block_id (Store.accessed block now)
                              (Store.count_retrieved (_store self))) self).
Proof.
  intros Hi Hh Hw Hc. cbn [retrieve_block]. unfold on_store.
  unfold bind at 1. rewrite (retrieve_hot _ _ _ Hi), Hh.
  monad. manager_fields.
  destruct (dict_get (_tier_assignments self) block_id) as [[]|];
    try reflexivity; contradiction.
Qed.

(** A retrieval through the manager that finds nothing. *)
Lemma retrieve_block_none depth block_id session_id now self st :
  Store.retrieve block_id now (_store self) = (Ok None, st) ->
  retrieve_block (S depth) block_id session_id now self
  = (Ok None, set_store st self).
Proof.
  intros Hr. cbn [retrieve_block]. unfold on_store.
  unfold bind at 1. now rewrite Hr.
Qed.



(** C8. A block can be lost in a transition, and an identifier can stay
    indexed for a tier that does not hold it.  A store into a full hot
    tier raises [AttributeError] after it has taken the least recently
    used entry out of the hot tier: the identifier of that entry is
    still listed and still indexed as hot, but it is in no tier, and the
    retrieval that follows returns nothing.  A migration of a hot block
    to the warm or to the cold tier retrieves the block, deletes it and
    then raises [AttributeError] when it stores it: the block is in no
    tier afterwards, no longer indexed and no longer listed. *)
Theorem block_lost_in_transition :
  (forall key value session_id now st oldest_key oldest_value rest,
     Store.hot_only st ->
     Store._hot_store st = (oldest_key, oldest_value) :: rest ->
     Store.hot_capacity st <= len (Store._hot_store st) ->
     NoDup (dict_keys (Store._hot_store st)) ->
     dict_get (Store._tier_index st) oldest_key = Some HOT ->
     exists st',
       Store.store key value HOT session_id st = (Raise AttributeError, st')
       /\ dict_get (Store._tier_index st') oldest_key = Some HOT
       /\ In oldest_key (Store.list_keys None st')
       /\ Store.in_no_tier oldest_key st'
       /\ Store.retrieve oldest_key now st'
          = (Ok None, Store.count_retrieved st'))
  /\ (forall depth block_id to_tier session_id now self block,
        Store.hot_only (_store self) ->
        to_tier <> HOT ->
        dict_get (Store._tier_index (_store self)) block_id = Some HOT ->
        dict_get (Store._hot_store (_store self)) block_id = Some block ->
        dict_get (_tier_assignments self) block_id = Some HOT ->
        exists self',
          migrate_tier (S depth) block_id to_tier session_id now self
          = (Raise AttributeError, self')
          /\ Store.in_no_tier block_id (_store self')
          /\ dict_get (Store._tier_index (_store self')) block_id = None
          /\ ~ In block_id (list_blocks None None self')
          /\ Store.retrieve block_id now (_store self')
             = (Ok None, Store.count_retrieved (_store self'))).
Proof.
  split.
  - intros key value session_id now st oldest_key oldest_value rest
           Only Hot Full Nd Hi.
    exists (Store.set_hot rest st).
    assert (Gone : dict_get rest oldest_key = None).
    { apply dict_get_None. rewrite Hot in Nd. cbn in Nd. now inversion Nd. }
    split; [now apply (store_hot_full _ _ _ _ (oldest_key, oldest_value))|].
    split; [exact Hi|].
    split; [unfold Store.list_keys; fields; eapply dict_get_In; exact Hi|].
    destruct Only as (Ow & Oc & _).
    split; [unfold Store.in_no_tier; fields; now rewrite Ow, Oc|].
    rewrite retrieve_hot by exact Hi. fields. now rewrite Gone.
  - intros depth block_id to_tier session_id now self block
           Only Ht Hi Hh Ha.
    unfold migrate_tier, migrate_tier_with. unfold bind at 1.
    rewrite (retrieve_block_hot _ _ _ _ _ block Hi Hh)
      by (rewrite Ha; discriminate).
    cbn iota beta. unfold bind at 1. rewrite delete_block_eq.
    manager_fields. fields. rewrite Hi.
    cbn iota beta. unfold bind at 1. rewrite store_block_eq.
    manager_fields.
    set (st1 := Store.removed block_id HOT (session_or_default session_id)
                  (Store.put_hot block_id (Store.accessed block now)
                     (Store.count_retrieved (_store self)))).
    assert (Only1 : Store.hot_only st1).
    { apply hot_only_removed. destruct Only as (Ow & Oc & Kw & Kc).
      unfold Store.hot_only. fields. repeat split; assumption. }
    rewrite (store_outside_hot _ _ _ _ _ Only1 Ht).
    eexists. split; [reflexivity|]. manager_fields.
    assert (Hn : dict_get (Store._tier_index st1) block_id = None)
      by (subst st1; fields; apply dict_get_pop_same).
    split.
    { destruct Only1 as (Ow & Oc & _). unfold Store.in_no_tier.
      rewrite Ow, Oc. repeat split. subst st1. fields.
      apply dict_get_pop_same. }
    split; [exact Hn|].
    split; [unfold list_blocks, session_filter, Store.list_keys;
            manager_fields; now apply dict_get_None|].
    now apply retrieve_unknown.
Qed.

End Facts.

Lemma block_lost_in_transition_witness :
  (exists st',
     @Store.store Samples.short_texts "s_1" Samples.middling_block HOT "s"
        (snd (@Store.store Samples.short_texts "s_0" Samples.unread_block HOT
                           "s" (Store.InMemoryStore_init 1 500 2000 1024)))
     = (Raise AttributeError, st')
     /\ dict_get (Store._tier_index st') "s_0" = Some HOT
     /\ Store.in_no_tier "s_0" st')
  /\ (exists self',
        @migrate_tier Samples.short_texts 5 "s_0" WARM (Some "s"%string) 100
                      Samples.small_manager
        = (Raise AttributeError, self')
        /\ Store.in_no_tier "s_0" (_store self')
        /\ ~ In "s_0"%string (list_blocks None None self')).
Proof.
  destruct (@block_lost_in_transition Samples.short_texts) as [Evicted Moved].
  split.
  - destruct (Evicted "s_1"%string Samples.middling_block "s"%string 100
                (snd (@Store.store Samples.short_texts "s_0"
                        Samples.unread_block HOT "s"
                        (Store.InMemoryStore_init 1 500 2000 1024)))
                "s_0"%string Samples.unread_block [])
      as (st' & E & Hi & _ & Hn & _).
    + unfold Store.hot_only. cbn. repeat split; lia.
    + reflexivity.
    + vm_compute. discriminate.
    + vm_compute. repeat constructor. intros [].
    + reflexivity.
    + exists st'. split; [exact E|]. split; [exact Hi | exact Hn].
  - destruct (Moved 4%nat "s_0"%string WARM (Some "s"%string) 100
                Samples.small_manager Samples.unread_block)
      as (self' & E & Hn & _ & Hl & _).
    + unfold Store.hot_only. cbn. repeat split; lia.
    + discriminate.
    + reflexivity.
    + reflexivity.
    + reflexivity.
    + exists self'. split; [exact E|]. split; [exact Hn | exact Hl].
Defined.

End ManagerSpec.

Module ManagerFacts.
Import Interfaces Entities Manager.
Import StoreSpec ManagerSpec.

Section Facts.
Context `{Store.Codec}.

(** X11. With the relevance threshold at most the promotion threshold,
    the tier that [_determine_tier] gives never gets colder when the
    score gets higher: it returns a tier for every scored block, leaves
    the manager as it is, and of two blocks the one with the higher score
    is in the hot tier if the other is, and out of the cold tier if the
    other is. *)
Theorem determine_tier_monotone self block1 block2 score1 score2 :
  (relevance_threshold self <= promotion_threshold self)%Q ->
  relevance_score block1 = Some score1 ->
  relevance_score block2 = Some score2 ->
  (score1 <= score2)%Q ->
  exists tier1 tier2,
    _determine_tier block1 self = (Ok tier1, self)
    /\ _determine_tier block2 self = (Ok tier2, self)
    /\ (tier1 = HOT -> tier2 = HOT)
    /\ (tier1 = WARM -> tier2 <> COLD).
Proof.
  intros Ht E1 E2 Hle.
  rewrite (determine_tier_eq _ _ _ E1), (determine_tier_eq _ _ _ E2).
  do 2 eexists. split; [reflexivity|]. split; [reflexivity|].
  unfold tier_for.
  destruct (Qgtb score1 (promotion_threshold self)) eqn:P1;
    destruct (Qgtb score2 (promotion_threshold self)) eqn:P2;
    destruct (Qgtb score1 (relevance_threshold self)) eqn:R1;
    destruct (Qgtb score2 (relevance_threshold self)) eqn:R2;
    split; intros; try congruence;
    repeat match goal with
           | G : Qgtb _ _ = true |- _ => apply Qgtb_gt in G
           | G : Qgtb _ _ = false |- _ => apply Qgtb_le in G
           end; exfalso; lra.
Qed.

(** X12. Storing a block without a relevance score and without a tier
    raises [TypeError], as the score cannot be compared with the
    thresholds; nothing is stored and the manager is left as it is. *)
Theorem store_block_unscored_raises block session_id self :
  relevance_score block = None ->
  store_block block None session_id self = (Raise TypeError, self).
Proof.
  intros E. unfold store_block, _determine_tier, score_gt. monad.
  now rewrite E.
Qed.

(** X13. Deleting a block that the store does not know returns [False]
    and leaves the manager as it is, no eviction counted; a deletion
    that returns [True] counts one eviction and drops the tier
    assignment, and a second deletion of the block returns [False]. *)
Theorem delete_block_once :
  (forall block_id session_id self,
     dict_get (Store._tier_index (_store self)) block_id = None ->
     delete_block block_id session_id self = (Ok false, self))
  /\ (forall block_id session_id self self',
        delete_block block_id session_id self = (Ok true, self') ->
        evictions (_migration_stats self')
        = evictions (_migration_stats self) + 1
        /\ dict_get (_tier_assignments self') block_id = None
        /\ delete_block block_id session_id self' = (Ok false, self')).
Proof.
  split.
  - intros block_id session_id self Hn. rewrite delete_block_eq, Hn.
    now rewrite set_store_same.
  - intros block_id session_id self self' Hd. rewrite delete_block_eq in Hd.
    destruct (dict_get (Store._tier_index (_store self)) block_id)
      as [tier|] eqn:Ht; [|discriminate].
    injection Hd as <-.
    split; [reflexivity|]. split; [apply dict_get_pop_same|].
    rewrite delete_block_eq.
    assert (Hi : dict_get
                   (Store._tier_index
                      (_store
                         (forgotten block_id
                            (set_store
                               (Store.removed block_id tier
                                  (session_or_default session_id)
                                  (_store self)) self)))) block_id = None).
    { manager_fields. fields.
      destruct tier; fields; apply dict_get_pop_same. }
    rewrite Hi. now rewrite set_store_same.
Qed.


(** X16. A block stored through the manager is listed afterwards under
    its identifier: among the blocks of the session it was stored under,
    with or without the filter on the tier it was stored in. *)
Theorem stored_block_is_listed block tier session_id self self' :
  store_block block (Some tier) session_id self = (Ok tt, self') ->
  In (block_id block) (list_blocks None session_id self')
  /\ In (block_id block) (list_blocks (Some tier) session_id self').
Proof.
  intros Hs. rewrite store_block_eq in Hs.
  destruct (Store.store _ _ _ _ _) as [[[]|e] st] eqn:Est; [|discriminate].
  injection Hs as <-.
  assert (Hall : In (block_id block)
                   (Store.list_keys (session_filter session_id) st)).
  { destruct (store_indexed _ _ _ _ _ _ Est) as [Hi _].
    assert (Hk : In (block_id block) (dict_keys (Store._tier_index st)))
      by (eapply dict_get_In; exact Hi).
    unfold session_filter, session_or_default in *.
    destruct session_id as [s|]; [|exact Hk].
    destruct (String.eqb s EmptyString); [exact Hk|].
    unfold Store.list_keys. apply filter_In. split; [exact Hk|].
    destruct (store_returned _ _ _ _ _ _ Est) as (_ & _ & ->).
    unfold Store.session_set. fields.
    rewrite dict_get_set_same. apply set_mem_add. }
  unfold list_blocks. manager_fields.
  split; [exact Hall|].
  apply filter_In. split; [exact Hall|].
  rewrite dict_get_set_same. now destruct tier.
Qed.

(** X15. Without a tier, the manager stores only blocks scored above the
    promotion threshold: with room in the hot tier such a block is
    stored there and assigned to it, whereas the store of a block scored
    at most the promotion threshold is sent to the warm or to the cold
    tier and raises [AttributeError], the manager left as it was. *)
Theorem store_block_by_score block score session_id self :
  Store.hot_only (_store self) ->
  relevance_score block = Some score ->
  len (Store._hot_store (_store self)) < Store.hot_capacity (_store self) ->
  ((promotion_threshold self < score)%Q ->
   exists self',
     store_block block None session_id self = (Ok tt, self')
     /\ dict_get (Store._hot_store (_store self')) (block_id block) = Some block
     /\ dict_get (_tier_assignments self') (block_id block) = Some HOT)
  /\ ((score <= promotion_threshold self)%Q ->
      store_block block None session_id self = (Raise AttributeError, self)).
Proof.
  intros Only E Room.
  rewrite (store_block_auto_eq _ _ _ _ E), store_block_eq. unfold tier_for.
  split.
  - intros Hs. apply Qgtb_gt in Hs. rewrite Hs.
    rewrite store_hot_room by exact Room.
    eexists. split; [reflexivity|]. manager_fields. fields.
    split; [apply dict_get_od_put_same | apply dict_get_set_same].
  - intros Hs. apply Qgtb_le in Hs. rewrite Hs.
    rewrite store_outside_hot;
      [now rewrite set_store_same | exact Only |].
    now destruct (Qgtb score (relevance_threshold self)).
Qed.

End Facts.

(** *** Instances *)

Lemma determine_tier_monotone_witness :
  exists tier1 tier2,
    _determine_tier Samples.middling_block default_manager
    = (Ok tier1, default_manager)
    /\ _determine_tier Samples.unread_block default_manager
       = (Ok tier2, default_manager)
    /\ tier1 = WARM /\ tier2 = HOT.
Proof.
  destruct (determine_tier_monotone default_manager Samples.middling_block
              Samples.unread_block (5#10) (9#10))
    as (tier1 & tier2 & E1 & E2 & _);
    [cbn; lra | reflexivity | reflexivity | lra |].
  exists tier1, tier2. split; [exact E1|]. split; [exact E2|].
  split; [now injection E1 | now injection E2].
Defined.

Lemma store_block_unscored_raises_witness :
  fst (@store_block Samples.short_texts Samples.unscored_block
         None (Some "s"%string) default_manager)
  = Raise TypeError.
Proof.
  now rewrite (@store_block_unscored_raises Samples.short_texts
                 Samples.unscored_block (Some "s"%string) default_manager
                 eq_refl).
Defined.

Lemma delete_block_once_witness :
  @delete_block "s_9" (Some "s"%string) default_manager
  = (Ok false, default_manager)
  /\ evictions
       (_migration_stats
          (snd (delete_block "s_0" (Some "s"%string) Samples.small_manager)))
     = 1.
Proof.
  destruct delete_block_once as [Unknown Known].
  split.
  - apply Unknown. reflexivity.
  - destruct (Known "s_0"%string (Some "s"%string) Samples.small_manager
                (snd (delete_block "s_0" (Some "s"%string)
                                   Samples.small_manager)) eq_refl)
      as (He & _).
    exact He.
Defined.


Lemma stored_block_is_listed_witness :
  In "s_0"%string
     (list_blocks (Some HOT) (Some "s"%string) Samples.small_manager).
Proof.
  apply (@stored_block_is_listed Samples.short_texts Samples.unread_block HOT
           (Some "s"%string) default_manager Samples.small_manager eq_refl).
Defined.

Lemma store_block_by_score_witness :
  (exists self',
     @store_block Samples.short_texts Samples.unread_block None
                  (Some "s"%string) default_manager = (Ok tt, self')
     /\ dict_get (_tier_assignments self') "s_0" = Some HOT)
  /\ @store_block Samples.short_texts Samples.middling_block None
                  (Some "s"%string) default_manager
     = (Raise AttributeError, default_manager).
Proof.
  split.
  - destruct (@store_block_by_score Samples.short_texts Samples.unread_block
                (9#10) (Some "s"%string) default_manager)
      as [Above _];
      [unfold Store.hot_only; cbn; repeat split; lia | reflexivity
       | cbn; lia |].
    destruct Above as (self' & E & _ & Ha); [cbn; lra|].
    exists self'. split; [exact E | exact Ha].
  - destruct (@store_block_by_score Samples.short_texts Samples.middling_block
                (5#10) (Some "s"%string) default_manager)
      as [_ Below];
      [unfold Store.hot_only; cbn; repeat split; lia | reflexivity
       | cbn; lia |].
    apply Below. cbn. lra.
Defined.

End ManagerFacts.

(** ** The evaluation service *)

Module ServiceSpec.
Import Interfaces Entities Coroutine Evaluation Service.
Import StoreSpec CoroutineSpec.

(** The two comparisons at the end of [evaluate_block] name members that
    [Decision] does not declare. *)
Lemma log_decision_raises score : log_decision score = Raise AttributeError.
Proof. reflexivity. Qed.

Lemma len_dict_set {V : Type} (d : dict V) k v :
  len (dict_set d k v) <= len d + 1.
Proof.
  unfold len. induction d as [|[k' v'] d IH]; cbn [dict_set List.length].
  - lia.
  - destruct (String.eqb k' k); cbn [List.length]; lia.
Qed.

Lemma cache_evaluation_eq key score self :
  _cache_evaluation key score self =
    if len (_evaluation_cache self) >=? _cache_size self then
      match _evaluation_cache self with
      | [] => (Raise RuntimeError, self)
      | (oldest_key, _) :: _ =>
          (Ok tt,
           with_cache (dict_set (dict_pop (_evaluation_cache self) oldest_key)
                                key score) self)
      end
    else (Ok tt, with_cache (dict_set (_evaluation_cache self) key score) self).
Proof.
  unfold _cache_evaluation. monad.
  destruct (len (_evaluation_cache self) >=? _cache_size self); [|reflexivity].
  now destruct (_evaluation_cache self) as [|[oldest_key s0] rest].
Qed.

(** What caching leaves, with a size of at least one. *)
Lemma cache_evaluation_result key score self :
  1 <= _cache_size self ->
  exists self',
    _cache_evaluation key score self = (Ok tt, self')
    /\ _evaluator self' = _evaluator self
    /\ _cache_size self' = _cache_size self
    /\ dict_get (_evaluation_cache self') key = Some score
    /\ (cache_within self -> cache_within self').
Proof.
  intros Hs. rewrite cache_evaluation_eq. unfold cache_within.
  destruct (Z.geb_spec (len (_evaluation_cache self)) (_cache_size self))
    as [Hge|Hlt].
  - destruct (_evaluation_cache self) as [|[oldest_key s0] rest] eqn:Ec.
    { exfalso. unfold len in Hge. cbn in Hge. lia. }
    eexists. split; [reflexivity|].
    cbn [_evaluator _cache_size _evaluation_cache with_cache].
    repeat split; [apply dict_get_set_same|].
    intros Hw.
    pose proof (len_dict_set (dict_pop rest oldest_key) key score).
    pose proof (len_dict_pop rest oldest_key).
    cbn [dict_pop]. rewrite String.eqb_refl.
    unfold len in *. cbn [List.length] in *. lia.
  - eexists. split; [reflexivity|].
    cbn [_evaluator _cache_size _evaluation_cache with_cache].
    repeat split; [apply dict_get_set_same|].
    intros Hw. pose proof (len_dict_set (_evaluation_cache self) key score).
    lia.
Qed.

Section Facts.
Context `{LLM.Numerics}.
Variable settings : Settings.

(** The evaluator that the service configures is a composite evaluator
    that the constructor has built. *)
Lemma configured_composite :
  exists composite,
    Composite.CompositeRelevanceEvaluator_init
      (negb (String.eqb (llm_provider settings) "mock")) (7#10) (3#10)
      (3#10) (2#10) (25#100) (15#100) (1#10) = Ok composite
    /\ configured settings = Ok (Composite.evaluate composite).
Proof.
  unfold configured, evaluation_mode.
  change (String.eqb "composite" "heuristic") with false.
  change (String.eqb "composite" "llm") with false. cbv iota.
  unfold Composite.CompositeRelevanceEvaluator_init.
  destruct (negb (String.eqb (llm_provider settings) "mock"));
    eexists; split; reflexivity.
Qed.

(** The evaluator that the service configures raises for every block. *)
Lemma configured_raises :
  exists evaluator,
    configured settings = Ok evaluator
    /\ forall now block context metadata,
         evaluator now block context metadata tt
         = Done (Raise AttributeError) tt.
Proof.
  destruct configured_composite as (composite & Hi & Hc).
  exists (Composite.evaluate composite). split; [exact Hc|].
  intros now block context metadata.
  now apply (EvaluationSpec.composite_evaluate_raises _ _ _ _ _ _ _ _ _ Hi).
Qed.

(** [evaluate_block] case by case, from a state whose evaluator is
    set. *)
Lemma evaluate_block_ready now block context metadata use_cache self ev :
  _evaluator self = Some ev ->
  evaluate_block settings now block context metadata use_cache self =
    match (if use_cache
           then dict_get (_evaluation_cache self) (cache_key block context)
           else None) with
    | Some score => Done (Ok score) self
    | None =>
        step_bind (co_call (ev now block context metadata) self)
          (fun score =>
             (co_lift (if use_cache
                       then _cache_evaluation (cache_key block context) score
                       else ret tt) ;;
              co_res (log_decision score) ;;
              co_ret score)%coro)
    end.
Proof.
  intros E. unfold evaluate_block, co_bind, co_lift, ensure_evaluator.
  monad. rewrite E. cbn [step_bind].
  destruct (if use_cache then _ else None); [reflexivity|].
  unfold call_evaluator. now rewrite E.
Qed.

(** The first call configures the service and goes on as in the
    configured state. *)
Lemma evaluate_block_start now block context metadata use_cache self :
  _evaluator self = None ->
  evaluate_block settings now block context metadata use_cache self =
    match configured settings with
    | Ok ev =>
        evaluate_block settings now block context metadata use_cache
                       (with_evaluator (Some ev) self)
    | Raise e => Done (Raise e) self
    end.
Proof.
  intros E. unfold evaluate_block at 1.
  unfold co_bind at 1. unfold co_lift at 1. unfold ensure_evaluator.
  unfold bind at 1. unfold get at 1. rewrite E.
  unfold initialize, bind, lift_res, modify.
  destruct (configured settings) as [ev|e] eqn:Ec; [|reflexivity].
  cbn [step_bind].
  symmetry. unfold evaluate_block at 1.
  unfold co_bind at 1. unfold co_lift at 1. unfold ensure_evaluator.
  unfold bind at 1. unfold get at 1.
  cbn [_evaluator with_evaluator]. unfold ret. cbn [step_bind].
  reflexivity.
Qed.

(** What a call leaves when it is driven to its end, from a state whose
    evaluator is set. *)
Lemma evaluate_block_run env now block context metadata use_cache self ev :
  _evaluator self = Some ev ->
  run env (evaluate_block settings now block context metadata use_cache self) =
    match (if use_cache
           then dict_get (_evaluation_cache self) (cache_key block context)
           else None) with
    | Some score => (Ok score, self)
    | None =>
        match fst (run env (ev now block context metadata tt)) with
        | Raise e => (Raise e, self)
        | Ok score =>
            if use_cache then
              match _cache_evaluation (cache_key block context) score self with
              | (Ok _, self') => (Raise AttributeError, self')
              | (Raise e, self') => (Raise e, self')
              end
            else (Raise AttributeError, self)
        end
    end.
Proof.
  intros E. rewrite (evaluate_block_ready _ _ _ _ _ _ _ E).
  destruct (if use_cache then _ else None); [reflexivity|].
  rewrite run_bind, run_call.
  destruct (fst (run env (ev now block context metadata tt))) as [score|e];
    [|reflexivity].
  unfold co_bind. rewrite run_bind, run_lift.
  destruct use_cache.
  - destruct (_cache_evaluation _ _ _) as [[[]|e] self']; reflexivity.
  - reflexivity.
Qed.

(** X23. The first evaluation of a block never returns its score, and
    the second does: when the evaluator returns a score for a block that
    is not cached, [evaluate_block] caches the score and then raises
    [AttributeError], on the comparison of the decision with
    [Decision.REMOVE]; the next call for a block with the same
    identifier and a context of the same length returns the cached
    score, without a new evaluation and with the service left as it
    is. *)
Theorem cached_score_after_failure env now block context metadata self
    evaluator score :
  _evaluator self = Some evaluator ->
  1 <= _cache_size self ->
  dict_get (_evaluation_cache self) (cache_key block context) = None ->
  fst (run env (evaluator now block context metadata tt)) = Ok score ->
  exists self',
    run env (evaluate_block settings now block context metadata true self)
    = (Raise AttributeError, self')
    /\ dict_get (_evaluation_cache self') (cache_key block context)
       = Some score
    /\ forall now' block' context' metadata',
         block_id block' = block_id block ->
         List.length context' = List.length context ->
         evaluate_block settings now' block' context' metadata' true self'
         = Done (Ok score) self'.
Proof.
  intros E Hs Hn Hv.
  rewrite (evaluate_block_run _ _ _ _ _ _ _ _ E), Hn, Hv.
  destruct (cache_evaluation_result (cache_key block context) score self Hs)
    as (self' & -> & He & _ & Hg & _).
  exists self'. split; [reflexivity|]. split; [exact Hg|].
  intros now' block' context' metadata' Hid Hlen.
  rewrite E in He.
  rewrite (evaluate_block_ready _ _ _ _ _ _ _ He).
  assert (Hk : cache_key block' context' = cache_key block context)
    by (unfold cache_key; now rewrite Hid, Hlen).
  now rewrite Hk, Hg.
Qed.

(** X24. The cache never grows beyond its size: from a service whose
    cache holds at most [_cache_size] scores, with a size of at least
    one, every [evaluate_block] leaves a cache that holds at most
    [_cache_size] scores, whether it returns or raises. *)
Theorem cache_stays_within_size env now block context metadata use_cache
    self r self' :
  1 <= _cache_size self ->
  cache_within self ->
  run env (evaluate_block settings now block context metadata use_cache self)
  = (r, self') ->
  cache_within self' /\ _cache_size self' = _cache_size self.
Proof.
  intros Hs Hw.
  assert (Ready : forall self0 ev,
             _evaluator self0 = Some ev ->
             _cache_size self0 = _cache_size self ->
             cache_within self0 ->
             run env (evaluate_block settings now block context metadata
                                     use_cache self0) = (r, self') ->
             cache_within self' /\ _cache_size self' = _cache_size self).
  { intros self0 ev E Hs0 Hw0.
    rewrite (evaluate_block_run _ _ _ _ _ _ _ _ E).
    destruct (if use_cache then _ else None) as [cached|].
    { intros [= <- <-]. split; assumption. }
    destruct (fst (run env (ev now block context metadata tt))) as [fresh|e].
    2:{ intros [= <- <-]. split; assumption. }
    destruct use_cache.
    2:{ intros [= <- <-]. split; assumption. }
    destruct (cache_evaluation_result (cache_key block context) fresh self0)
      as (self1 & -> & _ & Hs1 & _ & Hw1); [lia|].
    intros [= <- <-]. split; [now apply Hw1 | congruence]. }
  destruct (_evaluator self) as [ev|] eqn:E.
  - now apply (Ready self ev).
  - rewrite (evaluate_block_start _ _ _ _ _ _ E).
    destruct (configured settings) as [ev|e].
    + now apply (Ready (with_evaluator (Some ev) self) ev).
    + intros [= <- <-]. split; [exact Hw | reflexivity].
Qed.

(** X25. The service as it configures itself scores nothing: its
    evaluator is the composite evaluator, and every [evaluate_block] for
    a block that is not cached raises [AttributeError], without waiting
    for the provider and without caching anything; so its cache stays
    empty. *)
Theorem configured_service_never_scores now block context metadata use_cache
    self :
  _evaluator self = None ->
  _evaluation_cache self = [] ->
  exists evaluator,
    evaluate_block settings now block context metadata use_cache self
    = Done (Raise AttributeError) (with_evaluator (Some evaluator) self)
    /\ forall now' block' context' metadata' use_cache',
         evaluate_block settings now' block' context' metadata' use_cache'
                        (with_evaluator (Some evaluator) self)
         = Done (Raise AttributeError) (with_evaluator (Some evaluator) self).
Proof.
  intros E Hc. destruct configured_raises as (evaluator & Hv & Hr).
  exists evaluator.
  assert (Ready : forall now' block' context' metadata' use_cache',
             evaluate_block settings now' block' context' metadata' use_cache'
                            (with_evaluator (Some evaluator) self)
             = Done (Raise AttributeError)
                    (with_evaluator (Some evaluator) self)).
  { intros now' block' context' metadata' use_cache'.
    rewrite (evaluate_block_ready _ _ _ _ _ _ evaluator) by reflexivity.
    cbn [_evaluation_cache with_evaluator]. rewrite Hc.
    replace (if use_cache' then dict_get [] (cache_key block' context')
             else None) with (@None RelevanceScore)
      by now destruct use_cache'.
    unfold co_call, co_zoom. now rewrite Hr. }
  split; [|exact Ready].
  rewrite (evaluate_block_start _ _ _ _ _ _ E), Hv. apply Ready.
Qed.

(** An evaluation of a conversation by the configured service. *)
Lemma evaluate_conversation_raises now block blocks metadata self :
  _evaluator self = None ->
  _evaluation_cache self = [] ->
  exists evaluator,
    configured settings = Ok evaluator
    /\ evaluate_conversation settings now (block :: blocks) metadata self
       = Done (Raise AttributeError) (with_evaluator (Some evaluator) self).
Proof.
  intros E Hc. destruct configured_raises as (evaluator & Hv & Hr).
  exists evaluator. split; [exact Hv|].
  unfold evaluate_conversation, co_bind at 1, co_lift at 1, ensure_evaluator.
  unfold bind at 1, get at 1. rewrite E.
  unfold initialize, bind, lift_res, modify. rewrite Hv. cbn [step_bind].
  cbn [evaluate_from]. unfold co_bind at 1.
  rewrite (evaluate_block_ready _ _ _ _ _ _ evaluator) by reflexivity.
  cbn [_evaluation_cache with_evaluator]. rewrite Hc. cbn [dict_get].
  unfold co_call, co_zoom. now rewrite Hr.
Qed.

(** X26. The configured service scores no conversation: for no blocks
    [evaluate_conversation], [find_irrelevant_blocks] and
    [suggest_corrections] return the empty list, and for one block or
    more each of them raises [AttributeError]. *)
Theorem conversation_is_never_scored now metadata threshold self :
  _evaluator self = None ->
  _evaluation_cache self = [] ->
  (exists self',
     evaluate_conversation settings now [] metadata self = Done (Ok []) self'
     /\ find_irrelevant_blocks settings now [] threshold metadata self
        = Done (Ok []) self'
     /\ suggest_corrections settings now [] metadata self = Done (Ok []) self')
  /\ (forall block blocks,
        exists self',
          evaluate_conversation settings now (block :: blocks) metadata self
          = Done (Raise AttributeError) self'
          /\ find_irrelevant_blocks settings now (block :: blocks) threshold
                                    metadata self
             = Done (Raise AttributeError) self'
          /\ suggest_corrections settings now (block :: blocks) metadata self
             = Done (Raise AttributeError) self').
Proof.
  intros E Hc. split.
  - destruct configured_raises as (evaluator & Hv & _).
    exists (with_evaluator (Some evaluator) self).
    assert (Ee : evaluate_conversation settings now [] metadata self
                 = Done (Ok []) (with_evaluator (Some evaluator) self)).
    { unfold evaluate_conversation, co_bind at 1, co_lift at 1,
        ensure_evaluator.
      unfold bind at 1, get at 1. rewrite E.
      unfold initialize, bind, lift_res, modify. now rewrite Hv. }
    split; [exact Ee|].
    unfold find_irrelevant_blocks, suggest_corrections, co_bind.
    now rewrite Ee.
  - intros block blocks.
    destruct (evaluate_conversation_raises now block blocks metadata self E Hc)
      as (evaluator & _ & Ee).
    exists (with_evaluator (Some evaluator) self).
    split; [exact Ee|].
    unfold find_irrelevant_blocks, suggest_corrections, co_bind.
    now rewrite Ee.
Qed.

End Facts.

(** *** Instances *)

Lemma cached_score_after_failure_witness :
  exists self',
    run Samples.answering
        (@evaluate_block Samples.half_numerics Samples.local_settings 100
           Samples.unread_block [Samples.busy_block] None true
           (Samples.service_with Samples.steady))
    = (Raise AttributeError, self')
    /\ @evaluate_block Samples.half_numerics Samples.local_settings 200
         Samples.unread_block [Samples.middling_block] None true self'
       = Done (Ok (Samples.even_score (5#10) REEVALUATE)) self'.
Proof.
  destruct (@cached_score_after_failure Samples.half_numerics
              Samples.local_settings Samples.answering 100
              Samples.unread_block [Samples.busy_block] None
              (Samples.service_with Samples.steady) Samples.steady
              (Samples.even_score (5#10) REEVALUATE))
    as (self' & E & _ & Again);
    [reflexivity | cbn; lia | reflexivity | reflexivity |].
  exists self'. split; [exact E|].
  now apply Again.
Defined.

Lemma cache_stays_within_size_witness :
  cache_within
    (snd (run Samples.answering
            (@evaluate_block Samples.half_numerics Samples.local_settings 100
               Samples.unread_block [Samples.busy_block] None true
               (Samples.service_with Samples.steady)))).
Proof.
  apply (@cache_stays_within_size Samples.half_numerics Samples.local_settings
           Samples.answering 100 Samples.unread_block [Samples.busy_block]
           None true (Samples.service_with Samples.steady)
           (fst (run Samples.answering
                   (@evaluate_block Samples.half_numerics
                      Samples.local_settings 100 Samples.unread_block
                      [Samples.busy_block] None true
                      (Samples.service_with Samples.steady))))
           (snd (run Samples.answering
                   (@evaluate_block Samples.half_numerics
                      Samples.local_settings 100 Samples.unread_block
                      [Samples.busy_block] None true
                      (Samples.service_with Samples.steady)))));
    [cbn; lia | unfold cache_within; cbn; lia | apply surjective_pairing].
Defined.

Lemma configured_service_never_scores_witness :
  exists evaluator,
    @evaluate_block Samples.half_numerics Samples.local_settings 100
       Samples.unread_block [Samples.busy_block] None true
       RelevanceEvaluationService_init
    = Done (Raise AttributeError)
           (with_evaluator (Some evaluator) RelevanceEvaluationService_init).
Proof.
  destruct (@configured_service_never_scores Samples.half_numerics
              Samples.local_settings 100 Samples.unread_block
              [Samples.busy_block] None true RelevanceEvaluationService_init
              eq_refl eq_refl) as (evaluator & E & _).
  now exists evaluator.
Defined.

Lemma conversation_is_never_scored_witness :
  exists self',
    @find_irrelevant_blocks Samples.half_numerics Samples.local_settings 100
       [Samples.unread_block; Samples.middling_block] (4#10) None
       RelevanceEvaluationService_init
    = Done (Raise AttributeError) self'.
Proof.
  destruct (@conversation_is_never_scored Samples.half_numerics
              Samples.local_settings 100 None (4#10)
              RelevanceEvaluationService_init eq_refl eq_refl)
    as (_ & Scored).
  destruct (Scored Samples.unread_block [Samples.middling_block])
    as (self' & _ & E & _).
  now exists self'.
Defined.

End ServiceSpec.

(** ** Retention of a block *)

Module RetentionSpec.
Import Interfaces Entities Retention.

Lemma div_const_le (x y c : Q) :
  (0 < c)%Q -> (x <= y)%Q -> (x / c <= y / c)%Q.
Proof.
  intros Hc Hxy. unfold Qdiv. apply Qmult_le_compat_r; [exact Hxy|].
  apply Qlt_le_weak. now apply Qinv_lt_0_compat.
Qed.

Lemma py_max_mono (a x y : Q) : (x <= y)%Q -> (py_max a x <= py_max a y)%Q.
Proof. intros Hxy. unfold py_max. compare_all; lra. Qed.

Lemma py_min_mono (a x y : Q) : (x <= y)%Q -> (py_min a x <= py_min a y)%Q.
Proof. intros Hxy. unfold py_min. compare_all; lra. Qed.

Lemma recency_boost_nonneg now self : (0 <= recency_boost now self)%Q.
Proof. unfold recency_boost. apply py_max_spec. Qed.

Lemma access_boost_nonneg self :
  0 <= access_count self -> (0 <= access_boost self)%Q.
Proof.
  intros Ha. unfold access_boost.
  assert (P : (0 <= inject_Z (access_count self) / 10)%Q).
  { apply Qle_shift_div_l; [reflexivity|]. rewrite Qmult_0_l.
    change 0%Q with (inject_Z 0). now rewrite <- Zle_Qle. }
  destruct (py_min_spec 1 (inject_Z (access_count self) / 10))
    as (_ & _ & [-> | ->]); lra.
Qed.

Lemma base_score_nonneg self :
  Store.in_range (relevance_score self) -> (0 <= base_score self)%Q.
Proof.
  unfold base_score, Store.in_range.
  destruct (relevance_score self) as [q|]; [|lra].
  intros [H0 _]. destruct (Qeq_bool q 0); lra.
Qed.

(** X27. The retention score of a block is at most 1, and it is not
    negative for a block whose relevance score is undefined or in
    [[0,1]], whose access count is not negative and whose retention
    priority is not negative; a relevance score of zero counts as an
    undefined one, for which 0.5 stands in. *)
Theorem retention_score_bounds now self :
  (calculate_retention_score now self <= 1)%Q
  /\ (Store.in_range (relevance_score self) ->
      0 <= access_count self ->
      (0 <= retention_priority self)%Q ->
      (0 <= calculate_retention_score now self)%Q)
  /\ (relevance_score self = None -> base_score self = 5#10)
  /\ (forall score, relevance_score self = Some score ->
        (score == 0)%Q -> base_score self = 5#10).
Proof.
  unfold calculate_retention_score. cbv zeta.
  split; [apply py_min_spec|]. split; [|split].
  - intros Hr Ha Hp.
    pose proof (base_score_nonneg self Hr) as B.
    pose proof (recency_boost_nonneg now self) as R.
    pose proof (access_boost_nonneg self Ha) as A.
    set (total := (base_score self * (6 # 10) + recency_boost now self * (2 # 10)
                   + access_boost self * (2 # 10))%Q) in *.
    assert (T : (0 <= total)%Q) by (unfold total; lra).
    pose proof (Qmult_le_0_compat _ _ T Hp) as P.
    destruct (py_min_spec 1 (total * retention_priority self))
      as (_ & _ & [-> | ->]); lra.
  - unfold base_score. now intros ->.
  - unfold base_score. intros score -> Hz.
    apply Qeq_bool_iff in Hz. now rewrite Hz.
Qed.

(** X28. A hot block that should be archived should also be compressed,
    for every compression age that is at most the archiving age, as with
    the default ages of 6 and 24 hours: it is older than both ages, was
    never accessed, and its retention score is below 0.5. *)
Theorem archive_implies_compress compress_age archive_age now now' self :
  memory_tier self = HOT ->
  compress_age <= archive_age ->
  should_archive archive_age now now' self = true ->
  should_compress compress_age now now' self = true.
Proof.
  unfold should_archive, should_compress. intros -> Hage.
  rewrite !andb_true_iff. intros [[Ha Hc] Hr].
  apply Qgtb_gt in Ha. apply Z.eqb_eq in Hc. apply Qltb_lt in Hr.
  split; [split|].
  - apply Qgtb_gt. rewrite Zle_Qle in Hage. lra.
  - apply Z.ltb_lt. lia.
  - apply Qltb_lt. lra.
Qed.

(** X29. An access never lowers the retention score: for a block with a
    retention priority that is not negative, last accessed no later than
    the access, the score computed after [update_access] is at least the
    score computed before it, the clock read at the same time. *)
Theorem access_raises_retention access_time now self :
  (0 <= retention_priority self)%Q ->
  last_accessed self <= access_time ->
  (calculate_retention_score now self
   <= calculate_retention_score now (update_access access_time self))%Q.
Proof.
  intros Hp Hl. unfold calculate_retention_score. cbv zeta.
  apply py_min_mono.
  change (retention_priority (update_access access_time self))
    with (retention_priority self).
  apply Qmult_le_compat_r; [|exact Hp].
  assert (B : base_score (update_access access_time self) = base_score self)
    by reflexivity.
  assert (R : (recency_boost now self
               <= recency_boost now (update_access access_time self))%Q).
  { unfold recency_boost. cbv zeta. apply py_max_mono.
    cbn [update_access last_accessed].
    assert (D : (inject_Z (now - access_time) / 86400
                 <= inject_Z (now - last_accessed self) / 86400)%Q).
    { apply div_const_le; [reflexivity|]. rewrite <- Zle_Qle. lia. }
    lra. }
  assert (A : (access_boost self
               <= access_boost (update_access access_time self))%Q).
  { unfold access_boost. apply py_min_mono.
    cbn [update_access access_count].
    apply div_const_le; [reflexivity|]. rewrite <- Zle_Qle. lia. }
  rewrite B. lra.
Qed.

(** *** Instances *)

Lemma retention_score_bounds_witness :
  (0 <= calculate_retention_score 100%Z Samples.idle_block <= 1)%Q.
Proof.
  destruct (retention_score_bounds 100 Samples.idle_block)
    as (Upper & Lower & _).
  split; [|exact Upper].
  apply Lower; [cbn; split; lra | cbn; lia | cbn; lra].
Defined.

Lemma archive_implies_compress_witness :
  should_compress 6 360000 360000 Samples.idle_block = true.
Proof.
  apply (archive_implies_compress 6 24 360000 360000 Samples.idle_block);
    [reflexivity | lia | vm_compute; reflexivity].
Defined.

Lemma access_raises_retention_witness :
  (calculate_retention_score 360000%Z Samples.idle_block
   <= calculate_retention_score 360000%Z
        (update_access 300000%Z Samples.idle_block))%Q.
Proof.
  apply (access_raises_retention 300000 360000 Samples.idle_block);
    [cbn; lra | cbn; lia].
Defined.

End RetentionSpec.

(** ** The self-correction loop *)

Module CorrectionSpec.
Import Interfaces Entities Coroutine Correction.
Import StoreSpec CoroutineSpec ManagerSpec ServiceSpec.

Lemma set_relevance_service_same self :
  set_relevance_service (relevance_service self) self = self.
Proof. now destruct self. Qed.

Lemma on_manager_service {A : Type} (c : M Manager.MemoryStorageManager A)
    self :
  relevance_service (snd (on_manager c self)) = relevance_service self.
Proof.
  unfold on_manager. now destruct (c (storage_manager self)) as [r m].
Qed.


Section Facts.
Context `{Store.Codec} `{LLM.Numerics}.
Variable settings : Service.Settings.
Variable depth : nat.

Lemma retrieve_all_service ids session_id now self :
  relevance_service (snd (retrieve_all depth ids session_id now self))
  = relevance_service self.
Proof.
  revert self. induction ids as [|id ids IH]; intros self; [reflexivity|].
  cbn [retrieve_all]. unfold bind at 1.
  pose proof (on_manager_service
                (Manager.retrieve_block depth id (Some session_id) now) self)
    as E.
  destruct (on_manager _ self) as [[b|e] self1]; cbn [snd] in E;
    [|exact E].
  unfold bind at 1. specialize (IH self1).
  destruct (retrieve_all depth ids session_id now self1) as [[bs|e] self2];
    unfold ret; cbn [snd] in *; congruence.
Qed.

Lemma gather_context_service block session_id now self :
  relevance_service (snd (gather_context depth block session_id now self))
  = relevance_service self.
Proof.
  unfold gather_context. unfold bind, get.
  destruct (index_of _ _) as [i|]; [apply retrieve_all_service | reflexivity].
Qed.

(** *** Corrections *)

(** The first comparison of the loop names [Decision.REMOVE]. *)
Lemma correct_each_raises block score rest session_id now corrections count
    self :
  count < max_corrections_per_cycle self ->
  correct_each depth ((block, score) :: rest) session_id now
               corrections count self
  = Done (Raise AttributeError) self.
Proof.
  intros Hc. cbn [correct_each]. unfold co_bind, co_lift, get.
  cbn [step_bind].
  destruct (Z.geb_spec count (max_corrections_per_cycle self)); [lia|].
  reflexivity.
Qed.

Lemma correct_each_capped problematic session_id now corrections count self :
  max_corrections_per_cycle self <= count \/ problematic = [] ->
  correct_each depth problematic session_id now corrections count self
  = Done (Ok corrections) self.
Proof.
  intros Hc. destruct problematic as [|[block score] rest]; [reflexivity|].
  destruct Hc as [Hc|Hc]; [|discriminate].
  cbn [correct_each]. unfold co_bind, co_lift, get. cbn [step_bind].
  destruct (Z.geb_spec count (max_corrections_per_cycle self)); [|lia].
  reflexivity.
Qed.

Lemma correct_conversation_raises session_id block score rest now self :
  0 < max_corrections_per_cycle self ->
  correct_conversation depth session_id ((block, score) :: rest) now
                       self
  = Done (Raise AttributeError) self.
Proof.
  intros Hc. unfold correct_conversation, co_bind.
  now rewrite correct_each_raises.
Qed.

(** C5. A call of [correct_conversation] with a problematic block makes
    no correction: whenever the cap is positive, as the default of 3
    is, the loop raises [AttributeError] at its first block, on the
    comparison of the decision with [Decision.REMOVE], which the
    enumeration does not declare; nothing is deleted, stored or
    recorded, the corrector and its storage are as they were.  Only
    with no block, or with a cap of zero or less, the call returns, and
    then with no correction. *)
Theorem correction_raises :
  (forall session_id block score rest now self,
     0 < max_corrections_per_cycle self ->
     correct_conversation depth session_id ((block, score) :: rest)
                          now self
     = Done (Raise AttributeError) self)
  /\ (forall session_id problematic now self,
        max_corrections_per_cycle self <= 0 \/ problematic = [] ->
        correct_conversation depth session_id problematic now self
        = Done (Ok []) self).
Proof.
  split.
  - intros. now apply correct_conversation_raises.
  - intros session_id problematic now self Hc.
    unfold correct_conversation, co_bind.
    now rewrite correct_each_capped.
Qed.

(** *** Improvements *)



(** *** Stopping the loop *)

(** The evaluator that the service configures ends when it is
    cancelled: it never waits. *)
Lemma ensure_evaluator_abortable service :
  evaluator_abortable service ->
  evaluator_abortable (snd (Service.ensure_evaluator settings service)).
Proof.
  intros Q. unfold Service.ensure_evaluator. unfold bind, get.
  destruct (Service._evaluator service) as [ev|] eqn:E; [exact Q|].
  unfold Service.initialize, bind, lift_res, modify.
  destruct (configured_raises settings) as (evaluator & -> & Hr).
  cbn [snd]. intros ev Hev now block context metadata.
  cbn in Hev. injection Hev as <-. now rewrite Hr.
Qed.

Lemma cache_evaluation_abortable key score service :
  evaluator_abortable service ->
  evaluator_abortable (snd (Service._cache_evaluation key score service)).
Proof.
  intros Q. rewrite cache_evaluation_eq.
  destruct (_ >=? _); [|exact Q].
  destruct (Service._evaluation_cache service) as [|[k v] rest]; exact Q.
Qed.

Lemma evaluate_block_abortable now block context metadata use_cache service :
  evaluator_abortable service ->
  Abortable evaluator_abortable
    (Service.evaluate_block settings now block context metadata use_cache
                            service).
Proof.
  intros Q. unfold Service.evaluate_block. unfold co_bind at 1.
  apply abortable_bind;
    [apply abortable_lift; now apply ensure_evaluator_abortable|].
  intros _ s Qs. unfold co_bind at 1.
  apply abortable_bind; [apply abortable_lift; exact Qs|].
  intros s0 s1 Qs1.
  destruct (if use_cache then _ else None); [exact Qs1|].
  unfold co_bind at 1. apply abortable_bind.
  - unfold Service.call_evaluator.
    destruct (Service._evaluator s1) as [ev|] eqn:E; [|exact Qs1].
    apply abortable_call; [now apply Qs1 | exact Qs1].
  - intros score s2 Qs2. unfold co_bind at 1. apply abortable_bind.
    + apply abortable_lift. destruct use_cache; [|exact Qs2].
      now apply cache_evaluation_abortable.
    + intros _ s3 Qs3. unfold co_bind. apply abortable_bind;
        [now apply abortable_res|].
      intros _ s4 Qs4. exact Qs4.
Qed.

Lemma evaluate_from_abortable now blocks metadata rest :
  forall i service,
    evaluator_abortable service ->
    Abortable evaluator_abortable
      (Service.evaluate_from settings now blocks i rest metadata service).
Proof.
  induction rest as [|block rest IH]; intros i service Q; [exact Q|].
  cbn [Service.evaluate_from]. unfold co_bind at 1.
  apply abortable_bind; [now apply evaluate_block_abortable|].
  intros score s Qs. unfold co_bind. apply abortable_bind; [now apply IH|].
  intros results s1 Qs1. exact Qs1.
Qed.

Lemma evaluate_conversation_abortable now blocks metadata service :
  evaluator_abortable service ->
  Abortable evaluator_abortable
    (Service.evaluate_conversation settings now blocks metadata service).
Proof.
  intros Q. unfold Service.evaluate_conversation, co_bind.
  apply abortable_bind;
    [apply abortable_lift; now apply ensure_evaluator_abortable|].
  intros _ s Qs. now apply evaluate_from_abortable.
Qed.

Lemma on_service_abortable {A : Type}
    (c : Coro Service.RelevanceEvaluationService A) self :
  Abortable evaluator_abortable (c (relevance_service self)) ->
  cancellable self ->
  Abortable cancellable (on_service c self).
Proof.
  intros Hc Ps. unfold on_service, co_zoom.
  apply (abortable_zoom cancellable evaluator_abortable); trivial.
  apply set_relevance_service_same.
Qed.

Lemma analyze_conversation_abortable session_id window_size now self :
  cancellable self ->
  Abortable cancellable
    (analyze_conversation settings depth session_id window_size now self).
Proof.
  intros Ps. unfold analyze_conversation. unfold co_bind at 1.
  apply abortable_bind; [apply abortable_lift; exact Ps|].
  intros s0 s Qs. unfold co_bind at 1. apply abortable_bind.
  { apply abortable_lift. unfold cancellable.
    now rewrite retrieve_all_service. }
  intros blocks s1 Qs1. destruct blocks as [|b blocks]; [exact Qs1|].
  unfold co_bind. apply abortable_bind.
  - apply on_service_abortable; [|exact Qs1].
    apply evaluate_conversation_abortable. exact Qs1.
  - intros evaluated s2 Qs2. exact Qs2.
Qed.

Lemma improve_block_abortable block score session_id now self :
  cancellable self ->
  Abortable cancellable (_improve_block depth block score session_id now self).
Proof.
  intros Ps. unfold _improve_block, co_bind.
  apply abortable_bind.
  { apply abortable_lift. unfold cancellable.
    now rewrite gather_context_service. }
  intros ctx s Qs. unfold co_try. apply abortable_try.
  - apply abortable_bind; [now apply abortable_await|].
    intros response s1 Qs1. apply abortable_bind; [now apply abortable_res|].
    intros b s2 Qs2. exact Qs2.
  - intros e s1 Qs1. exact Qs1.
Qed.

Lemma on_manager_abortable {A : Type} (c : M Manager.MemoryStorageManager A)
    self :
  cancellable self -> Abortable cancellable (co_lift (on_manager c) self).
Proof.
  intros Ps. apply abortable_lift. unfold cancellable.
  now rewrite on_manager_service.
Qed.

Lemma correct_each_abortable problematic session_id now :
  forall corrections count self,
    cancellable self ->
    Abortable cancellable
      (correct_each depth problematic session_id now corrections
                    count self).
Proof.
  induction problematic as [|[block score] rest IH];
    intros corrections count self Ps; [exact Ps|].
  cbn [correct_each]. unfold co_bind at 1.
  apply abortable_bind; [apply abortable_lift; exact Ps|].
  intros s0 s Qs. destruct (count >=? max_corrections_per_cycle s0);
    [exact Qs|].
  unfold co_bind at 1. apply abortable_bind; [now apply abortable_res|].
  intros removes s1 Qs1. destruct removes.
  - unfold co_bind at 1.
    apply abortable_bind; [now apply on_manager_abortable|].
    intros [|] s2 Qs2; now apply IH.
  - unfold co_bind at 1. apply abortable_bind; [now apply abortable_res|].
    intros reviews s2 Qs2.
    destruct (reviews && enable_auto_correction s0); [|now apply IH].
    unfold co_bind at 1.
    apply abortable_bind; [now apply improve_block_abortable|].
    intros [improved|] s3 Qs3; [|now apply IH].
    unfold co_bind at 1.
    apply abortable_bind; [now apply on_manager_abortable|].
    intros _ s4 Qs4. unfold co_bind at 1.
    apply abortable_bind; [now apply on_manager_abortable|].
    intros _ s5 Qs5. now apply IH.
Qed.

Lemma correct_conversation_abortable session_id problematic now self :
  cancellable self ->
  Abortable cancellable
    (correct_conversation depth session_id problematic now self).
Proof.
  intros Ps. unfold correct_conversation, co_bind.
  apply abortable_bind; [now apply correct_each_abortable|].
  intros cs s Qs. apply abortable_bind.
  - apply abortable_lift. unfold modify. cbn [snd].
    unfold recorded. now destruct cs.
  - intros _ s1 Qs1. exact Qs1.
Qed.

Lemma sweep_sessions_abortable sessions now :
  forall self,
    cancellable self ->
    Abortable cancellable (sweep_sessions settings depth sessions now self).
Proof.
  induction sessions as [|session_id rest IH]; intros self Ps; [exact Ps|].
  cbn [sweep_sessions]. unfold co_bind at 1.
  apply abortable_bind; [apply abortable_lift; exact Ps|].
  intros s0 s Qs. destruct (negb (_active s0)); [exact Qs|].
  unfold co_bind at 1.
  apply abortable_bind; [now apply analyze_conversation_abortable|].
  intros problematic s1 Qs1. unfold co_bind at 1. apply abortable_bind.
  - destruct problematic; [exact Qs1|].
    unfold co_bind.
    apply abortable_bind; [now apply correct_conversation_abortable|].
    intros _ s2 Qs2. exact Qs2.
  - intros _ s2 Qs2. now apply IH.
Qed.

Lemma correction_cycle_abortable now self :
  cancellable self ->
  Abortable cancellable (correction_cycle settings depth now self).
Proof.
  intros Ps. unfold correction_cycle, co_try. apply abortable_try.
  - unfold co_bind at 1. apply abortable_bind; [now apply abortable_await|].
    intros _ s Qs. unfold co_bind.
    apply abortable_bind; [apply abortable_lift; exact Qs|].
    intros s0 s1 Qs1. now apply sweep_sessions_abortable.
  - intros e s Qs. now apply abortable_await.
Qed.

(** Wherever the background task is suspended, cancellation ends it at
    once. *)
Lemma correction_loop_abortable turns now :
  forall self,
    cancellable self ->
    Abortable cancellable (_correction_loop settings depth turns now self).
Proof.
  induction turns as [|turns IH]; intros self Ps; [exact Ps|].
  cbn [_correction_loop]. unfold co_bind at 1.
  apply abortable_bind; [apply abortable_lift; exact Ps|].
  intros s0 s Qs. destruct (_active s0); [|exact Qs].
  unfold co_bind. apply abortable_bind; [now apply correction_cycle_abortable|].
  intros _ s1 Qs1. now apply IH.
Qed.

(** C4, as amended.  Stopping the loop while the background task is
    suspended, in a cycle or between two cycles, does not wait for the
    cycle: it makes the corrector inactive, cancels the task at the
    point where it is suspended and returns once the cancelled task has
    ended, which it does at once, in a program whose evaluator does not
    suppress the cancellation, as none that the service configures
    does.  No further step of the cycle runs: the state after the stop
    is the state in which the task was suspended, with the corrector
    made inactive. *)
Theorem stop_cancels_cycle (env : Env) (turns : nat) (now : datetime)
    (self : SelfCorrector) (task : Step SelfCorrector unit) :
  cancellable self ->
  Reaches cancellable (_correction_loop settings depth turns now self) task ->
  forall (X : Type) (req : Request X) (suspended : SelfCorrector)
         (k : Res X -> SelfCorrector -> Step SelfCorrector unit),
    task = Await req suspended k ->
    stop env task = (Ok tt, set_active false suspended)
    /\ _active (snd (stop env task)) = false
    /\ storage_manager (snd (stop env task)) = storage_manager suspended
    /\ _correction_history (snd (stop env task))
       = _correction_history suspended.
Proof.
  intros Ps Reached X req suspended k ->.
  pose proof (abortable_reaches _ _ _
                (correction_loop_abortable turns now self Ps) Reached)
    as (Hs & Cancelled & _).
  assert (E : stop env (Await req suspended k)
              = (Ok tt, set_active false suspended)).
  { unfold stop. cbn [with_state cancel].
    rewrite Cancelled; [reflexivity|]. exact Hs. }
  rewrite E. repeat split.
Qed.


End Facts.

(** *** Instances *)

Lemma correction_raises_witness :
  @correct_conversation Samples.short_texts 100 "s" Samples.ten_discards 100
     Samples.ten_corrector
  = Done (Raise AttributeError) Samples.ten_corrector
  /\ Manager.list_blocks None (Some "s"%string)
       (storage_manager Samples.ten_corrector)
     = map block_id (Samples.sample_blocks 10)
  /\ @correct_conversation Samples.short_texts 100 "s" [] 100 Samples.ten_corrector
     = Done (Ok []) Samples.ten_corrector.
Proof.
  destruct (@correction_raises Samples.short_texts 100) as [Raises Returns].
  split; [|split].
  - apply (Raises "s"%string (Samples.sample_block "s" 0 (9#10))
                  (Samples.even_score (1#10) DISCARD)).
    cbn. lia.
  - vm_compute. reflexivity.
  - apply Returns. now right.
Defined.



Lemma asking_abortable now block context metadata :
  Abortable (fun _ : unit => True)
            (Samples.asking now block context metadata tt).
Proof.
  cbn. split; [exact I|]. split; [reflexivity|].
  intros [answer|e] s' _; exact I.
Qed.

Lemma stop_cancels_cycle_witness :
  (exists suspended,
     sleeping 60 Samples.sleeping_task = true
     /\ state_of Samples.sleeping_task = suspended
     /\ stop Samples.answering Samples.sleeping_task
        = (Ok tt, set_active false suspended))
  /\ (exists suspended,
        awaiting_provider Samples.asking_task = true
        /\ state_of Samples.asking_task = suspended
        /\ stop Samples.answering Samples.asking_task
           = (Ok tt, set_active false suspended)).
Proof.
  split.
  - pose (loop := @_correction_loop Samples.short_texts Samples.half_numerics
                    Samples.local_settings 100 1 100
                    (set_active true Samples.small_corrector)).
    assert (Shape : exists s k,
               Samples.sleeping_task = Await (Sleep 60) s k
               /\ loop = Samples.sleeping_task).
    { eexists _, _. split; reflexivity. }
    destruct Shape as (s & k & E & Eloop).
    exists s.
    destruct (@stop_cancels_cycle Samples.short_texts Samples.half_numerics
                Samples.local_settings 100 Samples.answering 1 100
                (set_active true Samples.small_corrector)
                Samples.sleeping_task)
      with (req := Sleep 60) (suspended := s) (k := k) as (Stopped & _).
    + intros ev Hev. discriminate Hev.
    + fold loop. rewrite Eloop. apply reaches_start.
    + exact E.
    + split; [rewrite E; reflexivity|].
      split; [rewrite E; reflexivity | exact Stopped].
  - pose (loop := @_correction_loop Samples.short_texts Samples.half_numerics
                    Samples.local_settings 100 1 100
                    (set_active true Samples.asking_corrector)).
    assert (Slept : exists s k,
               loop = Await (Sleep 60) s k
               /\ Samples.asking_task = k (Ok tt) s).
    { eexists _, _. split; reflexivity. }
    destruct Slept as (s & k & Eloop & Etask).
    assert (Ps : cancellable (set_active true Samples.asking_corrector)).
    { intros ev Hev now block context metadata. cbn in Hev.
      injection Hev as <-. apply asking_abortable. }
    assert (Reached : Reaches cancellable loop Samples.asking_task).
    { rewrite Etask. apply reaches_resume with (req := Sleep 60) (s := s).
      - rewrite <- Eloop. apply reaches_start.
      - assert (Es : s = set_active true Samples.asking_corrector)
          by (injection Eloop as <-; reflexivity).
        rewrite Es. exact Ps. }
    assert (Shape : exists system_message prompt temperature max_tokens
                           suspended k',
               Samples.asking_task
               = Await (LLMComplete system_message prompt temperature
                                    max_tokens) suspended k').
    { eexists _, _, _, _, _, _. reflexivity. }
    destruct Shape as (sm & p & t & mt & suspended & k' & E).
    exists suspended.
    destruct (@stop_cancels_cycle Samples.short_texts Samples.half_numerics
                Samples.local_settings 100 Samples.answering 1 100
                (set_active true Samples.asking_corrector)
                Samples.asking_task Ps Reached _ _ suspended k' E)
      as (Stopped & _).
    split; [rewrite E; reflexivity|].
    split; [rewrite E; reflexivity | exact Stopped].
Defined.

(** C4, as stated, fails: a stop does not wait for the cycle in flight.
    In the program as it configures itself the task is suspended in the
    sleep that begins a cycle: a stop ends it there, and the retrieval
    that the cycle makes when it runs to its end is not made.  With an
    evaluator that asks the provider the task is suspended in the middle
    of a cycle, after it has retrieved the block of the session and
    before the block is scored: a stop ends it there, and the score that
    the cycle caches when it runs to its end is not cached. *)
Lemma stop_abandons_cycle :
  let retrievals (self : SelfCorrector) :=
    Store.total_retrieved (Store._stats (store_of self)) in
  let cached (self : SelfCorrector) :=
    len (Service._evaluation_cache (relevance_service self)) in
  (sleeping 60 Samples.sleeping_task = true
   /\ fst (stop Samples.answering Samples.sleeping_task) = Ok tt
   /\ _active (snd (stop Samples.answering Samples.sleeping_task)) = false
   /\ retrievals (snd (stop Samples.answering Samples.sleeping_task)) = 0
   /\ fst (run Samples.answering Samples.sleeping_task) = Ok tt
   /\ retrievals (snd (run Samples.answering Samples.sleeping_task)) = 1)
  /\ (awaiting_provider Samples.asking_task = true
      /\ retrievals (state_of Samples.asking_task) = 1
      /\ fst (stop Samples.answering Samples.asking_task) = Ok tt
      /\ _active (snd (stop Samples.answering Samples.asking_task)) = false
      /\ cached (snd (stop Samples.answering Samples.asking_task)) = 0
      /\ fst (run Samples.answering Samples.asking_task) = Ok tt
      /\ cached (snd (run Samples.answering Samples.asking_task)) = 1).
Proof.
  cbv zeta. repeat split; vm_compute; reflexivity.
Qed.

End CorrectionSpec.

(** ** The range of relevance scores *)

Module ScoreSpec.
Import Interfaces Entities Coroutine Store.
Import StoreSpec CoroutineSpec.





Section Facts.
Context `{Codec}.





End Facts.



End ScoreSpec.
